(** * ANI regulations pipeline: scraper, validation engine and deduplicating writer

    A shallow embedding of [src/utils.py], [src/extraction.py],
    [src/validation.py] and [src/writing.py], the properties of the
    validation and write stages stated in the specification, and further
    properties of the four modules.

    Conventions of the embedding.
    - In the validator and the writer a Python [str] is the sequence of bytes
      of its UTF-8 encoding (Rocq's [string]); concatenation, equality and the
      search for an ASCII needle commute with the encoding.  In the scraper,
      which counts and removes characters, it is the sequence of its code
      points ([unicode]).
    - A scalar that can sit in a record (the records travel as JSON between
      the tasks of the DAG) is [None], a [str], an [int], a [float] or a
      [bool]; a float is an IEEE-754 binary64 number ([spec_float]).
    - A Python exception is a value of [exn]; a computation that may raise
      returns an [outcome].  State (the dicts of the validator, the store and
      the connection of the writer, the network of the scraper) is threaded
      through the monad [M].
    - What lies outside the repository is a parameter: the interpreter's
      conversions between text and numbers and the [re] module ([Builtins]),
      the case mappings of Unicode ([Unicode]), the pages of the site and
      their parsing ([Web]), the rendering of a non-text cell and the dtype
      inference of pandas ([Pandas]), the rows and the queries on which the
      database server fails, with or without the loss of the connection
      ([Postgres]).  The theorems hold for every choice of them; a sample of
      each is defined for the examples. *)

From Stdlib Require Import ZArith String Ascii List SpecFloat Lia.
From Stdlib Require Import DecimalString.
From stdpp Require Import base option list sorting gmap strings fin_maps.

Local Open Scope Z_scope.

(** ** Python values, types and exceptions *)

Inductive scalar :=
| VNone
| VStr (s : string)
| VInt (z : Z)
| VFloat (f : spec_float)
| VBool (b : bool).

Inductive pytype := Tstr | Tint | Tfloat | Tbool.

Inductive exn :=
| ValueError
| TypeError
| OverflowError
| RuntimeError (message : string)
| DatabaseError (message : string)
| KeyError (key : string).

Inductive outcome (A : Type) :=
| Return (a : A)
| Raise (e : exn).
Arguments Return {A} a.
Arguments Raise {A} e.

(** [isinstance(value, expected_type)]: [bool] is a subclass of [int]. *)
Definition isinstance (v : scalar) (t : pytype) : bool :=
  match t, v with
  | Tstr, VStr _ => true
  | Tint, VInt _ => true
  | Tint, VBool _ => true
  | Tfloat, VFloat _ => true
  | Tbool, VBool _ => true
  | _, _ => false
  end.

(** Conversions between text and numbers, and pattern matching, as the
    interpreter provides them.  [None] stands for a [ValueError]. *)
Class Builtins := {
  (** [re.match(regex, s) is not None], for a pattern that compiles *)
  re_match : string -> string -> bool;
  (** [int(s)] on a string *)
  int_of_str : string -> option Z;
  (** [float(s)] on a string *)
  float_of_str : string -> option spec_float;
  (** [str(n)] on an integer (the digit limit of recent interpreters makes
      it partial) *)
  str_of_int : Z -> option string;
  (** [str(x)] on a float *)
  str_of_float : spec_float -> string
}.

Definition binary64_of_Z (z : Z) : spec_float := binary_normalize 53 1024 z 0 false.

(** [int(x)] on a finite float truncates towards zero. *)
Definition Z_of_finite (s : bool) (m : positive) (e : Z) : Z :=
  cond_Zopp s (Z.shiftl (Z.pos m) e).

Section Constructors.
Context `{Builtins}.

(** [str(v)] *)
Definition py_str (v : scalar) : outcome scalar :=
  match v with
  | VNone => Return (VStr "None")
  | VStr s => Return (VStr s)
  | VInt z =>
      match str_of_int z with
      | Some s => Return (VStr s)
      | None => Raise ValueError
      end
  | VFloat f => Return (VStr (str_of_float f))
  | VBool true => Return (VStr "True")
  | VBool false => Return (VStr "False")
  end.

(** [int(v)] *)
Definition py_int (v : scalar) : outcome scalar :=
  match v with
  | VNone => Raise TypeError
  | VStr s =>
      match int_of_str s with
      | Some z => Return (VInt z)
      | None => Raise ValueError
      end
  | VInt z => Return (VInt z)
  | VFloat (S754_zero _) => Return (VInt 0)
  | VFloat (S754_finite s m e) => Return (VInt (Z_of_finite s m e))
  | VFloat (S754_infinity _) => Raise OverflowError
  | VFloat S754_nan => Raise ValueError
  | VBool b => Return (VInt (if b then 1 else 0))
  end.

(** [float(v)] *)
Definition py_float (v : scalar) : outcome scalar :=
  match v with
  | VNone => Raise TypeError
  | VStr s =>
      match float_of_str s with
      | Some f => Return (VFloat f)
      | None => Raise ValueError
      end
  | VInt z =>
      match binary64_of_Z z with
      | S754_infinity _ => Raise OverflowError
      | f => Return (VFloat f)
      end
  | VFloat f => Return (VFloat f)
  | VBool b => Return (VFloat (binary64_of_Z (if b then 1 else 0)))
  end.

(** [bool(v)] *)
Definition py_bool (v : scalar) : outcome scalar :=
  Return (VBool
    match v with
    | VNone => false
    | VStr s => negb (String.eqb s "")
    | VInt z => negb (Z.eqb z 0)
    | VFloat (S754_zero _) => false
    | VFloat _ => true
    | VBool b => b
    end).

(** [expected_type(value)] *)
Definition construct (t : pytype) (v : scalar) : outcome scalar :=
  match t with
  | Tstr => py_str v
  | Tint => py_int v
  | Tfloat => py_float v
  | Tbool => py_bool v
  end.
End Constructors.

(** ** validation.py *)

(** One entry of the rules document: [{type?, required?, regex?}]. *)
Record Rule := {
  type : option string;
  required : bool;
  regex : option string
}.

Definition _TYPE_MAP (name : string) : option pytype :=
  if String.eqb name "str" then Some Tstr
  else if String.eqb name "int" then Some Tint
  else if String.eqb name "float" then Some Tfloat
  else if String.eqb name "bool" then Some Tbool
  else None.

(** Truth value of an optional string ([if expected_type_name:], [if regex]). *)
Definition truthy (o : option string) : bool :=
  match o with
  | Some s => negb (String.eqb s "")
  | None => false
  end.

Section Validation.
Context `{Builtins}.

(** The type step of [_validate_field]: the value to go on with, or [None]
    when the cast raised [ValueError] or [TypeError]. *)
Definition check_type (value : scalar) (rule : Rule) : outcome (option scalar) :=
  match type rule with
  | Some expected_type_name =>
      if truthy (Some expected_type_name) then
        match _TYPE_MAP expected_type_name with
        | Some expected_type =>
            if negb (isinstance value expected_type) then
              match construct expected_type value with
              | Return v => Return (Some v)
              | Raise ValueError => Return None
              | Raise TypeError => Return None
              | Raise e => Raise e
              end
            else Return (Some value)
        | None => Return (Some value)
        end
      else Return (Some value)
  | None => Return (Some value)
  end.

(** The pattern step of [_validate_field]. *)
Definition check_regex (value : scalar) (rule : Rule) : bool :=
  match regex rule, value with
  | Some r, VStr s => if truthy (Some r) then re_match r s else true
  | _, _ => true
  end.

Definition _validate_field (value : scalar) (rule : Rule) : outcome (bool * scalar) :=
  match value with
  | VNone => Return (false, VNone)
  | _ =>
      match check_type value rule with
      | Raise e => Raise e
      | Return None => Return (false, VNone)
      | Return (Some value) =>
          if check_regex value rule then Return (true, value)
          else Return (false, VNone)
      end
  end.
End Validation.

(** ** Stateful computations that may raise

    [M S A]: a computation over a state [S] that returns an [A] or raises;
    the state reached is kept in both cases (what was mutated before an
    exception stays mutated). *)
Definition M (S A : Type) : Type := S -> outcome A * S.

Definition raise {S A} (e : exn) : M S A := fun s => (Raise e, s).

#[global] Instance M_ret {S} : MRet (M S) := fun A a s => (Return a, s).

#[global] Instance M_bind {S} : MBind (M S) := fun A B k m s =>
  match m s with
  | (Return a, s') => k a s'
  | (Raise e, s') => (Raise e, s')
  end.

(** A pure computation that may raise, run inside [M]. *)
Definition lift {S A} (o : outcome A) : M S A := fun s => (o, s).

(** [try: body except Exception as e: handler(e)] *)
Definition try_except {S A} (body : M S A) (handler : exn -> M S A) : M S A :=
  fun s =>
    match body s with
    | (Return a, s') => (Return a, s')
    | (Raise e, s') => handler e s'
    end.

(** [try: body finally: cleanup] *)
Definition try_finally {S A} (body : M S A) (cleanup : M S unit) : M S A :=
  fun s =>
    match body s with
    | (r, s') =>
        match cleanup s' with
        | (Return _, s'') => (r, s'')
        | (Raise e, s'') => (Raise e, s'')
        end
    end.

(** ** The object store

    Records are Python dicts, passed by reference: [Heap] holds the dict
    objects and a reference is an index into it.  The values in a dict are
    immutable scalars. *)
Abbreviation Dict := (gmap string scalar).
Abbreviation Heap := (list Dict).
Abbreviation ref := nat.

(** The dict a reference denotes (the empty dict for a reference the store
    does not hold; the code never forms one). *)
Definition deref (h : Heap) (r : ref) : Dict := default ∅ (h !! r).

(** [dict(record)]: a new dict object with the same items *)
Definition dict_copy (record : ref) : M Heap ref :=
  fun h => (Return (List.length h), h ++ [deref h record]).

(** [d.get(key)] *)
Definition dict_get (d : ref) (key : string) : M Heap scalar :=
  fun h => (Return (default VNone (deref h d !! key)), h).

(** [d[key] = v] *)
Definition dict_set (d : ref) (key : string) (v : scalar) : M Heap unit :=
  fun h => (Return tt, <[d := <[key := v]> (deref h d)]> h).

Section ValidateRecord.
Context `{Builtins}.

(** The loop of [validate_record] over [rules.items()]. *)
Fixpoint validate_fields (cleaned : ref) (rules : list (string * Rule))
  : M Heap (option ref) :=
  match rules with
  | [] => mret (Some cleaned)
  | (field_name, rule) :: rules =>
      value ← dict_get cleaned field_name;
      '(is_valid, new_value) ← lift (_validate_field value rule);
      if negb is_valid then
        if required rule then mret None
        else dict_set cleaned field_name VNone;; validate_fields cleaned rules
      else dict_set cleaned field_name new_value;; validate_fields cleaned rules
  end.

(** [rules] is the dict of the rules document, as the list of its items in
    iteration order. *)
Definition validate_record (record : ref) (rules : list (string * Rule))
  : M Heap (option ref) :=
  cleaned ← dict_copy record;
  validate_fields cleaned rules.

(** The loop of [run_validation] over [records]. *)
Fixpoint validate_all (records : list ref) (rules : list (string * Rule))
  (valid_records : list ref) : M Heap (list ref) :=
  match records with
  | [] => mret valid_records
  | record :: records =>
      result ← validate_record record rules;
      match result with
      | None => validate_all records rules valid_records
      | Some result => validate_all records rules (valid_records ++ [result])
      end
  end.

(** [run_validation], from the point where [load_rules] has returned the
    [fields] mapping of the rules document. *)
Definition run_validation (records : list ref) (rules : list (string * Rule))
  : M Heap (list ref) :=
  validate_all records rules [].
End ValidateRecord.

(** ** A small interpreter for the examples

    [plain_builtins] answers like CPython on plain decimal literals (an
    optional minus sign and ASCII digits, at most 4300 of them), on patterns
    that are literal text, and on the special floats and the integral floats
    below 10^16; it is used to run the code on concrete records.  The theorems
    do not depend on it: they hold for every [Builtins]. *)

Definition digit_of_ascii (c : ascii) : option Z :=
  let n := Z.of_N (N_of_ascii c) in
  if (48 <=? n) && (n <=? 57) then Some (n - 48) else None.

Fixpoint digits_value (acc : Z) (s : string) : option Z :=
  match s with
  | EmptyString => Some acc
  | String c s =>
      match digit_of_ascii c with
      | Some d => digits_value (10 * acc + d) s
      | None => None
      end
  end.

Definition has_minus (s : string) : bool :=
  match s with
  | String "-"%char _ => true
  | _ => false
  end.

Definition plain_int_of_str (s : string) : option Z :=
  let '(negative, digits) :=
    match s with
    | String "-"%char s' => (true, s')
    | _ => (false, s)
    end in
  if (4300 <? Z.of_nat (String.length digits)) then None
  else
    match digits with
    | EmptyString => None
    | _ =>
        if negative then option_map Z.opp (digits_value 0 digits)
        else digits_value 0 digits
    end.

Definition plain_float_of_str (s : string) : option spec_float :=
  match plain_int_of_str s with
  | Some 0 => Some (S754_zero (has_minus s))
  | Some z => Some (binary64_of_Z z)
  | None => None
  end.

Definition plain_str_of_int (z : Z) : option string :=
  let digits := NilZero.string_of_int (Z.to_int (Z.abs z)) in
  if (4300 <? Z.of_nat (String.length digits)) then None
  else Some (NilZero.string_of_int (Z.to_int z)).

Definition plain_str_of_float (f : spec_float) : string :=
  match f with
  | S754_zero false => "0.0"
  | S754_zero true => "-0.0"
  | S754_infinity false => "inf"
  | S754_infinity true => "-inf"
  | S754_nan => "nan"
  | S754_finite s m e =>
      let n := Z.shiftl (Z.pos m) e in
      if (Z.shiftl n (- e) =? Z.pos m) && (n <? 10 ^ 16)
      then String.append (NilZero.string_of_int (Z.to_int (Z_of_finite s m e))) ".0"
      else "<float>"
  end.

#[global] Instance plain_builtins : Builtins := {|
  re_match := String.prefix;
  int_of_str := plain_int_of_str;
  float_of_str := plain_float_of_str;
  str_of_int := plain_str_of_int;
  str_of_float := plain_str_of_float
|}.

(** ** Text operations used by the write stage *)

(** Python's whitespace, on UTF-8 text: the code point is U+0009..U+000D,
    U+001C..U+0020 (one byte), U+0085, U+00A0 (two bytes), U+1680,
    U+2000..U+200A, U+2028, U+2029, U+202F, U+205F or U+3000 (three bytes). *)
Definition is_space1 (c : ascii) : bool :=
  let n := N_of_ascii c in
  (((9 <=? n) && (n <=? 13)) || ((28 <=? n) && (n <=? 32)))%N.

Definition is_space2 (c1 c2 : ascii) : bool :=
  let n1 := N_of_ascii c1 in
  let n2 := N_of_ascii c2 in
  ((n1 =? 194) && ((n2 =? 133) || (n2 =? 160)))%N.

Definition is_space3 (c1 c2 c3 : ascii) : bool :=
  let n1 := N_of_ascii c1 in
  let n2 := N_of_ascii c2 in
  let n3 := N_of_ascii c3 in
  (((n1 =? 225) && (n2 =? 154) && (n3 =? 128))
   || ((n1 =? 226) && (n2 =? 128)
       && (((128 <=? n3) && (n3 <=? 138)) || (n3 =? 168) || (n3 =? 169) || (n3 =? 175)))
   || ((n1 =? 226) && (n2 =? 129) && (n3 =? 159))
   || ((n1 =? 227) && (n2 =? 128) && (n3 =? 128)))%N.

Section DropSpace.
(** The two- and three-byte tests, read in the direction of travel. *)
Variable sp2 : ascii -> ascii -> bool.
Variable sp3 : ascii -> ascii -> ascii -> bool.

(** Does the text start with a whitespace character? *)
Definition starts_space (l : list ascii) : bool :=
  match l with
  | c1 :: l1 =>
      is_space1 c1 ||
      match l1 with
      | c2 :: l2 =>
          sp2 c1 c2 ||
          match l2 with
          | c3 :: _ => sp3 c1 c2 c3
          | [] => false
          end
      | [] => false
      end
  | [] => false
  end.

(** Drop the whitespace characters at the start of the text. *)
Fixpoint drop_space (l : list ascii) : list ascii :=
  match l with
  | c1 :: l1 =>
      if is_space1 c1 then drop_space l1
      else
        match l1 with
        | c2 :: l2 =>
            if sp2 c1 c2 then drop_space l2
            else
              match l2 with
              | c3 :: l3 => if sp3 c1 c2 c3 then drop_space l3 else l
              | [] => l
              end
        | [] => l
        end
  | [] => []
  end.
End DropSpace.

Definition lstrip (l : list ascii) : list ascii :=
  drop_space is_space2 is_space3 l.

Definition rstrip (l : list ascii) : list ascii :=
  rev (drop_space (fun c1 c2 => is_space2 c2 c1)
                  (fun c1 c2 c3 => is_space3 c3 c2 c1) (rev l)).

(** [s.strip()] *)
Definition strip (s : string) : string :=
  string_of_list_ascii (rstrip (lstrip (list_ascii_of_string s))).

(** [s.lower()], as far as the ASCII letters go.  For the two needles
    searched below ("duplicate", "unique") the test [needle in s.lower()]
    gives the same answer on the bytes as on the code points. *)
Definition lower_ascii (c : ascii) : ascii :=
  let n := N_of_ascii c in
  if ((65 <=? n) && (n <=? 90))%N then ascii_of_N (n + 32) else c.

Fixpoint lower (s : string) : string :=
  match s with
  | EmptyString => EmptyString
  | String c s => String (lower_ascii c) (lower s)
  end.

(** [needle in s] *)
Fixpoint contains (needle s : string) : bool :=
  String.prefix needle s ||
  match s with
  | EmptyString => false
  | String _ s => contains needle s
  end.

(** [str(n)] for a count *)
Definition str_nat (n : nat) : string := NilZero.string_of_uint (Nat.to_uint n).

(** [str(e)] for an exception *)
Definition exn_str (e : exn) : string :=
  match e with
  | RuntimeError message => message
  | DatabaseError message => message
  | KeyError key => "'" +:+ key +:+ "'"
  | _ => ""
  end.

(** ** pandas

    A [DataFrame] is the list of its rows in index order; a row maps the
    columns to its cells.  The columns of a frame are the keys that its rows
    carry: the frame of no row has no column, and a cell that a row lacks in
    a column of the frame reads as [NaN]. *)
Abbreviation Row := (gmap string scalar).
Abbreviation DataFrame := (list Row).

Definition NaN : scalar := VFloat S754_nan.

Definition cell (r : Row) (column : string) : scalar := default NaN (r !! column).

(** [df.columns] *)
Definition columns_of (df : DataFrame) : gset string :=
  ⋃ (dom <$> df).

(** [df[column]] raises [KeyError] when the frame has no such column. *)
Definition getitem (df : DataFrame) (column : string) : outcome unit :=
  if bool_decide (column ∈ columns_of df) then Return tt else Raise (KeyError column).

(** [pd.isnull] *)
Definition isnull (v : scalar) : bool :=
  match v with
  | VNone => true
  | VFloat S754_nan => true
  | _ => false
  end.

(** What [Series.astype(str)] makes of a cell that is not a [str] depends on
    pandas and on the dtype of the column; so does what [pd.DataFrame(records)]
    makes of the cells it finds in a column (a column of integers and nulls
    becomes a column of floats, say). *)
Class Pandas := {
  astype_str_object : scalar -> string;
  maybe_convert_objects : list scalar -> list scalar
}.

Definition astype_str `{Pandas} (v : scalar) : string :=
  match v with
  | VStr s => s
  | _ => astype_str_object v
  end.

(** [pd.DataFrame(records)]: the columns are the keys met in the records, a
    record that lacks one gets [NaN] there, and each column is then converted
    to the dtype inferred from its cells. *)
Definition DataFrame_of_records `{Pandas} (records : list Row) : DataFrame :=
  let columns := elements (columns_of records) in
  let converted (column : string) : list scalar :=
    maybe_convert_objects ((fun r => cell r column) <$> records) in
  imap (fun i _ =>
          list_to_map ((fun column => (column, default NaN (converted column !! i)))
                         <$> columns))
       records.

(** [Series.fillna(fill)] on one cell *)
Definition fillna (fill v : scalar) : scalar := if isnull v then fill else v.

(** the text of a cell that holds a [str] *)
Definition text (v : scalar) : string :=
  match v with
  | VStr s => s
  | _ => ""
  end.

(** [df[column] = f(row)] *)
Definition assign (column : string) (f : Row -> scalar) (df : DataFrame) : DataFrame :=
  (fun r => <[column := f r]> r) <$> df.

(** [df.drop(columns=[column])] *)
Definition drop_column (column : string) (df : DataFrame) : DataFrame :=
  delete column <$> df.

(** [df.drop_duplicates(subset=columns, keep="first")] *)
Definition subset_of (columns : list string) (r : Row) : list scalar :=
  cell r <$> columns.

#[global] Instance spec_float_eq_dec : EqDecision spec_float.
Proof. solve_decision. Defined.

#[global] Instance scalar_eq_dec : EqDecision scalar.
Proof. solve_decision. Defined.

Fixpoint drop_duplicates_seen (columns : list string) (seen : list (list scalar))
  (df : DataFrame) : DataFrame :=
  match df with
  | [] => []
  | r :: df =>
      if bool_decide (subset_of columns r ∈ seen)
      then drop_duplicates_seen columns seen df
      else r :: drop_duplicates_seen columns (subset_of columns r :: seen) df
  end.

Definition drop_duplicates (columns : list string) (df : DataFrame) : DataFrame :=
  drop_duplicates_seen columns [] df.

(** [df.astype(object).where(pd.notnull(df), None)] *)
Definition where_notnull (df : DataFrame) : DataFrame :=
  fmap (M := gmap string) (fillna VNone) <$> df.

(** ** The store and the connection *)

(** The two tables the write stage touches. *)
Inductive table_name := regulations | regulations_component.

Definition table_name_str (t : table_name) : string :=
  match t with
  | regulations => "regulations"
  | regulations_component => "regulations_component"
  end.

(** Modelled from the spec: the schema ([init.sql]) is not among the sources.
    A stored record is the inserted row together with the integer identifier
    the store generates for it at insert time (spec, section 3); a cell is
    read back as it was written, so that the Identity Key is stable across a
    round trip through the store (same section). *)
Record StoredRow := { id : Z; data : Row }.

Record Database := {
  regulations_table : list StoredRow;
  regulations_component_table : list StoredRow
}.

Definition table (t : table_name) (db : Database) : list StoredRow :=
  match t with
  | regulations => regulations_table db
  | regulations_component => regulations_component_table db
  end.

Definition append_row (t : table_name) (r : StoredRow) (db : Database) : Database :=
  match t with
  | regulations =>
      {| regulations_table := regulations_table db ++ [r];
         regulations_component_table := regulations_component_table db |}
  | regulations_component =>
      {| regulations_table := regulations_table db;
         regulations_component_table := regulations_component_table db ++ [r] |}
  end.

(** The two queries of the write stage. *)
Inductive query :=
| select_existing (entity : string)
| select_new_ids (entity : string) (limit : nat).

(** An error raised by the driver while a statement runs: its message, and
    whether it leaves the connection unusable (the server or the network is
    gone). *)
Record failure := { reason : string; connection_lost : bool }.

(** Modelled from the spec: which rows the server refuses (constraints, column
    types) is fixed by the missing schema, and whether a statement goes
    through is up to the server and the network, so both are parameters.
    [insert_error t db r] is the failure raised when the row [r] is inserted
    into table [t] of contents [db], if there is one; [query_error q db] the
    failure raised when the query [q] is run on the contents [db].  The
    connection is lost, if at all, while a statement runs: on an open
    connection [commit] and [rollback] go through. *)
Class Postgres := {
  insert_error : table_name -> Database -> Row -> option failure;
  query_error : query -> Database -> option failure;
  (** does [psycopg2.connect] succeed? *)
  accepts_connections : bool
}.

(** The connection of the [DatabaseManager]: [self.connection] and
    [self.cursor] are [None], or they are open on the contents as the
    current transaction sees them, or they are set but closed (by [close],
    or because the connection was lost): then every call on them raises. *)
Inductive Connection :=
| no_connection
| usable (txn : Database)
| unusable.

(** The world of the write stage: the committed contents of the store, the
    connection of the [DatabaseManager] and the identifier sequence (one
    counter for both tables; a rollback does not rewind it). *)
Record World := {
  durable : Database;
  connection : Connection;
  next_id : Z
}.

(** The contents as the open transaction sees them, if there is one. *)
Definition session (w : World) : option Database :=
  match connection w with
  | usable txn => Some txn
  | _ => None
  end.

Definition set_connection (c : Connection) (w : World) : World :=
  {| durable := durable w; connection := c; next_id := next_id w |}.

(** What is left of the connection over [txn] when the driver raises [f]. *)
Definition after_failure (f : failure) (txn : Database) : Connection :=
  if connection_lost f then unusable else usable txn.

(** [connection.commit()] *)
Definition commit : M World unit :=
  fun w =>
    match connection w with
    | usable txn =>
        (Return tt,
         {| durable := txn; connection := usable txn; next_id := next_id w |})
    | _ => (Raise (DatabaseError "connection already closed"), w)
    end.

(** [connection.rollback()] *)
Definition rollback : M World unit :=
  fun w =>
    match connection w with
    | usable _ => (Return tt, set_connection (usable (durable w)) w)
    | _ => (Raise (DatabaseError "connection already closed"), w)
    end.

Definition has_entity (entity : string) (r : StoredRow) : bool :=
  bool_decide (data r !! "entity" = Some (VStr entity)).

Definition sql_column (r : StoredRow) (column : string) : scalar :=
  default VNone (data r !! column).

(** [COALESCE(x, '')] *)
Definition coalesce_empty (v : scalar) : scalar :=
  match v with
  | VNone => VStr ""
  | _ => v
  end.

(** [ORDER BY id DESC] *)
Definition newer_first (a b : StoredRow) : Prop := id b <= id a.

#[global] Instance newer_first_dec (a b : StoredRow) : Decision (newer_first a b).
Proof. unfold newer_first. apply _. Defined.

Definition by_id_desc (rows : list StoredRow) : list StoredRow :=
  merge_sort newer_first rows.

(** The rows a query returns. *)
Definition fetchall (q : query) (db : Database) : list (list scalar) :=
  match q with
  | select_existing entity =>
      (fun r => [sql_column r "title"; sql_column r "created_at"; sql_column r "entity";
                 coalesce_empty (sql_column r "external_link")])
        <$> filter (fun r => has_entity entity r = true) (regulations_table db)
  | select_new_ids entity limit =>
      (fun r => [VInt (id r)])
        <$> take limit
              (by_id_desc (filter (fun r => has_entity entity r = true) (regulations_table db)))
  end.

(** [pd.DataFrame(rows, columns=columns)] *)
Definition DataFrame_of_rows (rows : list (list scalar)) (columns : list string) : DataFrame :=
  (fun row => list_to_map (zip columns row)) <$> rows.

Section DatabaseManager.
Context `{Postgres}.

(** [DatabaseManager()] *)
Definition DatabaseManager_init : M World unit :=
  fun w => (Return tt, set_connection no_connection w).

(** [DatabaseManager.connect] *)
Definition connect : M World bool :=
  fun w =>
    if accepts_connections then (Return true, set_connection (usable (durable w)) w)
    else (Return false, w).

(** [DatabaseManager.close]: the cursor and the connection are closed, and
    stay set. *)
Definition close : M World unit :=
  fun w =>
    match connection w with
    | no_connection => (Return tt, w)
    | _ => (Return tt, set_connection unusable w)
    end.

(** [cursor.execute(query, params)] followed by [cursor.fetchall()] *)
Definition cursor_execute (q : query) : M World (list (list scalar)) :=
  fun w =>
    match connection w with
    | usable txn =>
        match query_error q txn with
        | Some f =>
            (Raise (DatabaseError (reason f)), set_connection (after_failure f txn) w)
        | None => (Return (fetchall q txn), w)
        end
    | _ => (Raise (DatabaseError "cursor already closed"), w)
    end.

(** [DatabaseManager.execute_query] *)
Definition execute_query (q : query) : M World (list (list scalar)) :=
  fun w =>
    match connection w with
    | no_connection => (Raise (RuntimeError "Base de datos no conectada"), w)
    | _ => cursor_execute q w
    end.

(** One [INSERT] of [cursor.executemany]. *)
Definition execute_insert (t : table_name) (r : Row) : M World unit :=
  fun w =>
    match connection w with
    | usable txn =>
        match insert_error t txn r with
        | Some f =>
            (Raise (DatabaseError (reason f)), set_connection (after_failure f txn) w)
        | None =>
            (Return tt,
             {| durable := durable w;
                connection := usable (append_row t {| id := next_id w; data := r |} txn);
                next_id := next_id w + 1 |})
        end
    | _ => (Raise (DatabaseError "cursor already closed"), w)
    end.

Fixpoint execute_inserts (t : table_name) (records_to_insert : list Row) : M World unit :=
  match records_to_insert with
  | [] => mret tt
  | r :: records_to_insert =>
      execute_insert t r;; execute_inserts t records_to_insert
  end.

(** [cursor.executemany(insert_query, records_to_insert)]: the cursor must be
    open; the rows are inserted one after the other and the first failure
    raises; the rows inserted before it stay in the transaction until it is
    rolled back. *)
Definition executemany (t : table_name) (records_to_insert : list Row) : M World unit :=
  fun w =>
    match connection w with
    | usable _ => execute_inserts t records_to_insert w
    | _ => (Raise (DatabaseError "cursor already closed"), w)
    end.

(** [DatabaseManager.bulk_insert] *)
Definition bulk_insert (df : DataFrame) (table_name : table_name) : M World nat :=
  fun w =>
    match connection w with
    | no_connection => (Raise (RuntimeError "Base de datos no conectada"), w)
    | _ =>
        try_except
          (let df := where_notnull df in
           executemany table_name df;;
           commit;;
           mret (List.length df))
          (fun e =>
             rollback;;
             raise (RuntimeError
                      ("Error insertando en " +:+ table_name_str table_name +:+ ": "
                       +:+ exn_str e)))
          w
    end.

(** [insert_regulations_component] *)
Definition insert_regulations_component (new_ids : list scalar) : M World (nat * string) :=
  match new_ids with
  | [] => mret (0%nat, "No se proporcionaron IDs de regulación nuevos")
  | _ =>
      try_except
        (let id_rows :=
           (fun i => <["components_id" := VInt 7]> {["regulations_id" := i]}) <$> new_ids in
         inserted_count ← bulk_insert id_rows regulations_component;
         mret (inserted_count,
               "Insertados " +:+ str_nat inserted_count +:+ " componentes de regulación"))
        (fun e =>
           mret (0%nat, "Error insertando componentes de regulación: " +:+ exn_str e))
  end.
End DatabaseManager.

(** ** writing.py: insertion with duplicate detection *)

Definition ENTITY_VALUE : string := "Agencia Nacional de Infraestructura".

Definition key_columns : list string := ["title"; "created_at"; "external_link"].

(** The key compared with the stored records (step 4); the three cells hold
    strings once step 3 has run. *)
Definition unique_key (r : Row) : string :=
  text (cell r "title") +:+ "|" +:+ text (cell r "created_at") +:+ "|"
  +:+ text (cell r "external_link").

(** Is the message that of a duplicate/unique violation? *)
Definition mentions_duplicate (message : string) : bool :=
  contains "duplicate" (lower message) || contains "unique" (lower message).

Section Writing.
Context `{Pandas} `{Postgres}.

(** Step 3: normalise the three columns for comparison. *)
Definition normalize (df : DataFrame) : DataFrame :=
  let df := assign "created_at" (fun r => VStr (astype_str (cell r "created_at"))) df in
  let df := assign "external_link"
              (fun r => VStr (astype_str (fillna (VStr "") (cell r "external_link")))) df in
  assign "title" (fun r => VStr (strip (astype_str (cell r "title")))) df.

(** Step 4: the candidates that are not in the store, and how many were. *)
Definition identify_duplicates (db_df entity_df : DataFrame) : DataFrame * nat :=
  match db_df with
  | [] => (entity_df, 0%nat)
  | _ =>
      let entity_df := assign "unique_key" (fun r => VStr (unique_key r)) entity_df in
      let db_df := assign "unique_key" (fun r => VStr (unique_key r)) db_df in
      let existing_keys := (fun r => cell r "unique_key") <$> db_df in
      let entity_df :=
        assign "is_duplicate"
          (fun r => VBool (bool_decide (cell r "unique_key" ∈ existing_keys))) entity_df in
      let new_records := filter (fun r => cell r "is_duplicate" = VBool false) entity_df in
      (new_records, (List.length entity_df - List.length new_records)%nat)
  end.

(** Steps 2 to 6 on a frame that has the columns they read: the batch handed
    to [bulk_insert] and the number of duplicates left out, from the stored
    summaries and the input frame. *)
Definition select_new_records (db_df df : DataFrame) (entity : string) : DataFrame * nat :=
  let entity_df := filter (fun r => cell r "entity" = VStr entity) df in
  let db_df := match db_df with [] => db_df | _ => normalize db_df end in
  let entity_df := normalize entity_df in
  let '(new_records, duplicates_found) := identify_duplicates db_df entity_df in
  let before := List.length new_records in
  let new_records := drop_duplicates key_columns new_records in
  let internal_duplicates := (before - List.length new_records)%nat in
  let total_duplicates := (duplicates_found + internal_duplicates)%nat in
  (drop_column "is_duplicate" (drop_column "unique_key" new_records), total_duplicates).

(** [if hasattr(db_manager, "connection") and db_manager.connection:
    db_manager.connection.rollback()] *)
Definition rollback_if_connected : M World unit :=
  fun w =>
    match connection w with
    | no_connection => (Return tt, w)
    | _ => rollback w
    end.

(** Step 7: the insertion; [inl] carries the result of an early
    [return] of the source, [inr] the number of rows inserted. *)
Definition insert_batch (new_records : DataFrame) (entity : string)
  : M World ((nat * string) + nat) :=
  try_except
    (total_rows ← bulk_insert new_records regulations;
     if (total_rows =? 0)%nat
     then mret (inl (0%nat, "No se insertaron registros para " +:+ entity))
     else mret (inr total_rows))
    (fun insert_error =>
       if mentions_duplicate (exn_str insert_error)
       then mret (inl (0%nat,
                       "Algunos registros de " +:+ entity
                       +:+ " eran duplicados y se omitieron"))
       else raise insert_error).

(** Steps 8 to 10: the identifiers of the rows just inserted, their
    component rows and the summary. *)
Definition link_components (entity : string)
    (total_rows processed existing total_duplicates : nat) : M World (nat * string) :=
  new_ids_result ← execute_query (select_new_ids entity total_rows);
  let new_ids := (fun row => default VNone (row !! 0%nat)) <$> new_ids_result in
  '(inserted_comp, comp_msg) ←
    match new_ids return M World (nat * string) with
    | [] => mret (0%nat, "")
    | _ =>
        try_except
          (insert_regulations_component new_ids)
          (fun comp_error =>
             mret (0%nat, "Error insertando componentes: " +:+ exn_str comp_error))
    end;
  let stats :=
    "Procesados: " +:+ str_nat processed +:+ " | "
    +:+ "Existentes: " +:+ str_nat existing +:+ " | "
    +:+ "Duplicados omitidos: " +:+ str_nat total_duplicates +:+ " | "
    +:+ "Nuevos insertados: " +:+ str_nat total_rows in
  mret (total_rows, "Entidad " +:+ entity +:+ ": " +:+ stats +:+ ". " +:+ comp_msg).

(** The handler of [insert_new_records] (its last [except]): what was raised
    becomes the count 0 and a message, after a rollback that may raise
    itself. *)
Definition handle_error (entity : string) (e : exn) : M World (nat * string) :=
  rollback_if_connected;;
  mret (0%nat, "Error procesando entidad " +:+ entity +:+ ": " +:+ exn_str e).

(** [insert_new_records]: [df["entity"]] and the three columns that step 3
    reads raise [KeyError] when the frame lacks them. *)
Definition insert_new_records (df : DataFrame) (entity : string) : M World (nat * string) :=
  try_except
    (existing_records ← execute_query (select_existing entity);
     let db_df :=
       DataFrame_of_rows existing_records ["title"; "created_at"; "entity"; "external_link"] in
     lift (getitem df "entity");;
     let entity_df := filter (fun r => cell r "entity" = VStr entity) df in
     match entity_df with
     | [] => mret (0%nat, "Sin registros para entidad " +:+ entity)
     | _ =>
         lift (getitem df "created_at");;
         lift (getitem df "external_link");;
         lift (getitem df "title");;
         let '(new_records, total_duplicates) := select_new_records db_df df entity in
         match new_records with
         | [] =>
             mret (0%nat,
                   "Sin registros nuevos para " +:+ entity
                   +:+ " tras validación de duplicados")
         | _ =>
             inserted ← insert_batch new_records entity;
             match inserted with
             | inl result => mret result
             | inr total_rows =>
                 link_components entity total_rows
                   (List.length entity_df) (List.length db_df) total_duplicates
             end
         end
     end)
    (handle_error entity).

(** [run_writing] *)
Definition run_writing (records : list Row) : M World nat :=
  match records with
  | [] => mret 0%nat
  | _ =>
      let df := DataFrame_of_records records in
      DatabaseManager_init;;
      connected ← connect;
      if negb connected
      then raise (RuntimeError "No se pudo conectar a la base de datos")
      else
        try_finally
          ('(inserted_count, message) ← insert_new_records df ENTITY_VALUE;
           mret inserted_count)
          close
  end.
End Writing.

(** ** A sample environment for the examples

    [object_pandas] renders the cells of an object column through Python's
    [str], and turns a column of numbers and nulls into floats;
    [sample_postgres] is a server that answers every query, and refuses a
    title of more than 65 characters and a second regulation with the same
    link; [lossy_postgres] goes away at the first insertion;
    [forgetful_postgres] fails on the query for the new identifiers. *)
Definition int64 (z : Z) : bool := (- 2 ^ 63 <=? z) && (z <? 2 ^ 63).

Definition numeric_or_null (v : scalar) : bool :=
  match v with
  | VNone => true
  | VInt z => int64 z
  | VFloat _ => true
  | _ => false
  end.

Definition float_or_null (v : scalar) : bool :=
  match v with
  | VNone => true
  | VFloat _ => true
  | _ => false
  end.

Definition is_number (v : scalar) : bool :=
  match v with
  | VInt _ => true
  | VFloat _ => true
  | _ => false
  end.

Definition to_float64 (v : scalar) : scalar :=
  match v with
  | VNone => NaN
  | VInt z => VFloat (binary64_of_Z z)
  | _ => v
  end.

#[global] Instance object_pandas : Pandas := {|
  astype_str_object v :=
    match v with
    | VNone => "None"
    | VStr s => s
    | VInt z => NilZero.string_of_int (Z.to_int z)
    | VFloat f => plain_str_of_float f
    | VBool true => "True"
    | VBool false => "False"
    end;
  maybe_convert_objects cells :=
    if forallb numeric_or_null cells && existsb is_number cells && existsb float_or_null cells
    then to_float64 <$> cells
    else cells
|}.

Definition dquote : string := String (ascii_of_nat 34) EmptyString.

Definition refusal (message : string) : failure :=
  {| reason := message; connection_lost := false |}.

#[global] Instance sample_postgres : Postgres := {|
  insert_error t db r :=
    match t with
    | regulations =>
        if (65 <? String.length (text (cell r "title")))%nat
        then Some (refusal "value too long for type character varying(65)")
        else if bool_decide (cell r "external_link" ∈
                               (fun s => cell (data s) "external_link") <$> regulations_table db)
        then Some (refusal ("duplicate key value violates unique constraint "
                            +:+ dquote +:+ "regulations_external_link_key" +:+ dquote))
        else None
    | regulations_component => None
    end;
  query_error _ _ := None;
  accepts_connections := true
|}.

(** A server that goes away at the first insertion. *)
Definition lossy_postgres : Postgres :=
  {| insert_error _ _ _ :=
       Some {| reason := "server closed the connection unexpectedly";
               connection_lost := true |};
     query_error _ _ := None;
     accepts_connections := true |}.

(** A server that commits the regulations and then fails on the query for
    their identifiers. *)
Definition forgetful_postgres : Postgres :=
  {| insert_error _ _ _ := None;
     query_error q _ :=
       match q with
       | select_existing _ => None
       | select_new_ids _ _ => Some (refusal "canceling statement due to statement timeout")
       end;
     accepts_connections := true |}.

(** A regulation as the extraction hands it over, reduced to the columns the
    write stage compares. *)
Definition regulation (title created_at external_link : scalar) (entity : string) : Row :=
  {[ "title" := title; "created_at" := created_at;
     "external_link" := external_link; "entity" := VStr entity ]}.

(** * utils.py and extraction.py

    The scraper counts and removes characters ([len], [zfill], the removal
    of the quotation marks), so that in these two modules a [str] is the
    sequence of its code points. *)
Abbreviation unicode := (list N).

(** An ASCII literal as a [str]. *)
Definition u (s : string) : unicode := N_of_ascii <$> list_ascii_of_string s.

(** ** Methods of [str] *)

(** [c.isspace()]: U+0009..U+000D, U+001C..U+0020, U+0085, U+00A0, U+1680,
    U+2000..U+200A, U+2028, U+2029, U+202F, U+205F and U+3000. *)
Definition isspace (c : N) : bool :=
  (((9 <=? c) && (c <=? 13)) || ((28 <=? c) && (c <=? 32))
   || (c =? 0x85) || (c =? 0xA0) || (c =? 0x1680)
   || ((0x2000 <=? c) && (c <=? 0x200A))
   || (c =? 0x2028) || (c =? 0x2029) || (c =? 0x202F) || (c =? 0x205F) || (c =? 0x3000))%N.

(** [s.lstrip()] *)
Fixpoint str_lstrip (s : unicode) : unicode :=
  match s with
  | c :: s' => if isspace c then str_lstrip s' else s
  | [] => []
  end.

(** [s.rstrip()] *)
Definition str_rstrip (s : unicode) : unicode := rev (str_lstrip (rev s)).

(** [s.strip()] *)
Definition str_strip (s : unicode) : unicode := str_rstrip (str_lstrip s).

(** [s.split()]: the maximal runs of characters that are not whitespace.
    [word] is the run being read. *)
Fixpoint split_words (word s : unicode) : list unicode :=
  match s with
  | [] =>
      match word with
      | [] => []
      | _ => [word]
      end
  | c :: s =>
      if isspace c then
        match word with
        | [] => split_words [] s
        | _ => word :: split_words [] s
        end
      else split_words (word ++ [c]) s
  end.

Definition str_split (s : unicode) : list unicode := split_words [] s.

(** [sep.join(words)] *)
Fixpoint str_join (sep : unicode) (words : list unicode) : unicode :=
  match words with
  | [] => []
  | [word] => word
  | word :: words => word ++ sep ++ str_join sep words
  end.

(** [s.split(sep)] for a one-character [sep]: the pieces between the
    separators, the empty ones too. *)
Fixpoint str_split_on (sep : N) (s : unicode) : list unicode :=
  match s with
  | [] => [[]]
  | c :: s =>
      if (c =? sep)%N then [] :: str_split_on sep s
      else
        match str_split_on sep s with
        | piece :: pieces => (c :: piece) :: pieces
        | [] => [[c]]
        end
  end.

(** [s.replace(old, new)] for a one-character [old] *)
Definition str_replace (old : N) (new : unicode) (s : unicode) : unicode :=
  s ≫= (fun c => if (c =? old)%N then new else [c]).

(** [re.sub(pattern, "", s)] for a pattern that is one character class *)
Definition re_sub_class (chars : list N) (s : unicode) : unicode :=
  filter (fun c => c ∉ chars) s.

(** [s.startswith(prefix)] *)
Fixpoint str_startswith (prefix s : unicode) : bool :=
  match prefix, s with
  | [], _ => true
  | p :: prefix, c :: s => (p =? c)%N && str_startswith prefix s
  | _ :: _, [] => false
  end.

(** [needle in s] *)
Fixpoint str_contains (needle s : unicode) : bool :=
  str_startswith needle s ||
  match s with
  | [] => false
  | _ :: s => str_contains needle s
  end.

(** [s.zfill(width)]: zeros on the left, after a leading sign. *)
Definition str_zfill (width : nat) (s : unicode) : unicode :=
  let fill := (width - List.length s)%nat in
  match fill, s with
  | O, _ => s
  | _, c :: rest =>
      if ((c =? 0x2B) || (c =? 0x2D))%N then c :: repeat 0x30%N fill ++ rest
      else repeat 0x30%N fill ++ s
  | _, [] => repeat 0x30%N fill
  end.

(** [str(n)] for an integer, in code points *)
Definition str_of_Z (z : Z) : unicode := u (NilZero.string_of_int (Z.to_int z)).

(** The case mappings of the Unicode database. *)
Class Unicode := {
  (** [s.lower()] *)
  str_lower : unicode -> unicode;
  (** [s.capitalize()] *)
  str_capitalize : unicode -> unicode
}.

(** ** The values of a scraped record *)

(** A [datetime]: the wall-clock time in microseconds and, for an aware
    one, the offset of its zone in minutes. *)
Record datetime := { wall_clock : Z; tzinfo : option Z }.

Inductive object :=
| PNone
| PStr (s : unicode)
| PInt (z : Z)
| PBool (b : bool)
| PDatetime (dt : datetime).

(** The truth value of an object ([if x:], [not x]). *)
Definition truth (o : object) : bool :=
  match o with
  | PNone => false
  | PStr s => negb (bool_decide (s = []))
  | PInt z => negb (z =? 0)
  | PBool b => b
  | PDatetime _ => true
  end.

(** ** utils.py *)

Definition FIXED_CLASSIFICATION_ID : Z := 13.

Definition URL_BASE : unicode :=
  u ("https://www.ani.gov.co/informacion-de-la-ani/normatividad"
     +:+ "?field_tipos_de_normas__tid=12&title=&body_value="
     +:+ "&field_fecha__value%5Bvalue%5D%5Byear%5D=").

(** "resolución" (with U+00F3), "resolucion", "decreto", in the order of the
    dict. *)
Definition CLASSIFICATION_KEYWORDS : list (unicode * Z) :=
  [(u "resoluci" ++ [0xF3%N] ++ u "n", 15);
   (u "resolucion", 15);
   (u "decreto", 14)].

Definition DEFAULT_RTYPE_ID : Z := 14.

(** The items of [quotes_map], in the order of the dict: the left double
    quotation mark, the single ones, the guillemets, the low ones, the single
    guillemets, the ASCII quotes, the acute accent, the backtick, prime and
    double prime.  Every replacement is the empty string. *)
Definition quotes_map : list (N * unicode) :=
  [(0x201C, []); (0x2018, []); (0x2019, []); (0xAB, []); (0xBB, []);
   (0x201E, []); (0x201A, []); (0x2039, []); (0x203A, []); (0x22, []);
   (0x27, []); (0xB4, []); (0x60, []); (0x2032, []); (0x2033, [])]%N.

(** The character class of [quotes_pattern]. *)
Definition quotes_pattern : list N :=
  [0x22; 0x27; 0x201C; 0x201D; 0x2018; 0x2019; 0xAB; 0xBB;
   0x201E; 0x201A; 0x2039; 0x203A; 0x2032; 0x2033]%N.

(** [clean_quotes] *)
Definition clean_quotes (text : unicode) : unicode :=
  match text with
  | [] => text
  | _ =>
      let cleaned_text :=
        foldl (fun cleaned_text '(quote_char, replacement) =>
                 str_replace quote_char replacement cleaned_text)
              text quotes_map in
      let cleaned_text := re_sub_class quotes_pattern cleaned_text in
      let cleaned_text := str_strip cleaned_text in
      str_join (u " ") (str_split cleaned_text)
  end.

(** The loop of [get_rtype_id] over the items of the keyword dict. *)
Fixpoint first_keyword (keywords : list (unicode * Z)) (title_lower : unicode) : option Z :=
  match keywords with
  | [] => None
  | (keyword, rtype_id) :: keywords =>
      if str_contains keyword title_lower then Some rtype_id
      else first_keyword keywords title_lower
  end.

(** [get_rtype_id] *)
Definition get_rtype_id `{Unicode} (title : unicode) : Z :=
  let title_lower := str_lower title in
  default DEFAULT_RTYPE_ID (first_keyword CLASSIFICATION_KEYWORDS title_lower).

(** [is_valid_created_at] *)
Definition is_valid_created_at (created_at_value : object) : bool :=
  if negb (truth created_at_value) then false
  else
    match created_at_value with
    | PStr s => truth (PStr (str_strip s))
    | PDatetime _ => true
    | _ => false
    end.

(** [normalize_datetime]; an object that is not a [datetime] has no
    [tzinfo] attribute. *)
Definition normalize_datetime (dt : object) : object :=
  match dt with
  | PNone => PNone
  | PDatetime d =>
      match tzinfo d with
      | Some _ => PDatetime {| wall_clock := wall_clock d; tzinfo := None |}
      | None => dt
      end
  | _ => dt
  end.

(** ** extraction.py *)

(** What the scraper asks of [requests], of [BeautifulSoup] and of the
    clock.  [Net] is the state of the network and of the clock. *)
Class Web := {
  Tag : Type;
  Response : Type;
  Net : Type;
  (** [tag.find(name, class_=class_)] *)
  tag_find : Tag -> string -> option string -> option Tag;
  (** [tag.find_all(name)] *)
  tag_find_all : Tag -> string -> list Tag;
  (** [tag.get_text(strip=True)] *)
  tag_get_text : Tag -> unicode;
  (** [tag.get(attribute)] *)
  tag_get : Tag -> string -> option unicode;
  (** [requests.get(url, timeout=15)] *)
  requests_get : unicode -> M Net Response;
  (** [response.raise_for_status()] *)
  raise_for_status : Response -> outcome unit;
  (** [BeautifulSoup(response.content, "html.parser")] *)
  BeautifulSoup : Response -> Tag;
  (** [datetime.now().strftime("%Y-%m-%d %H:%M:%S")] *)
  now : M Net unicode
}.

(** A scraped record: the dict [norma_data]. *)
Abbreviation Norma := (gmap string object).

(** [None] or a [str], as an object. *)
Definition object_of (o : option unicode) : object :=
  match o with
  | Some s => PStr s
  | None => PNone
  end.

(** [d[key]], for a key that the dict holds. *)
Definition subscript (d : Norma) (key : string) : object := default PNone (d !! key).

(** The date of a row, from the text of its date span. *)
Definition created_at_of (created_at_raw : unicode) : unicode :=
  if str_contains (u "T") created_at_raw
  then default [] (str_split_on 0x54 created_at_raw !! 0%nat)
  else if str_contains (u "/") created_at_raw
  then
    match str_split_on 0x2F created_at_raw with
    | [day; month; year] =>
        year ++ u "-" ++ str_zfill 2 month ++ u "-" ++ str_zfill 2 day
    | _ => created_at_raw
    end
  else created_at_raw.

Section Extraction.
Context `{Unicode} `{Web}.

(** [extract_title_and_link]: whether the row is kept, and [norma_data]
    as the call leaves it.  ([verbose] and [row_num] feed the log only.) *)
Definition extract_title_and_link (row : Tag) (norma_data : Norma) : bool * Norma :=
  match tag_find row "td" (Some "views-field views-field-title") with
  | None => (false, norma_data)
  | Some title_cell =>
      match tag_find title_cell "a" None with
      | None => (false, norma_data)
      | Some title_link =>
          let raw_title := tag_get_text title_link in
          let cleaned_title := clean_quotes raw_title in
          if (65 <? List.length cleaned_title)%nat then (false, norma_data)
          else
            let norma_data := <["title" := PStr cleaned_title]> norma_data in
            let external_link := object_of (tag_get title_link "href") in
            let external_link :=
              match external_link with
              | PStr link =>
                  if truth external_link && negb (str_startswith (u "http") link)
                  then PStr (u "https://www.ani.gov.co" ++ link)
                  else external_link
              | _ => external_link
              end in
            let norma_data := <["external_link" := external_link]> norma_data in
            let norma_data :=
              <["gtype" := if truth external_link then PStr (u "link") else PNone]>
                norma_data in
            if negb (truth (subscript norma_data "external_link"))
            then (false, norma_data)
            else (true, norma_data)
      end
  end.

(** [extract_summary] *)
Definition extract_summary (row : Tag) (norma_data : Norma) : Norma :=
  match tag_find row "td" (Some "views-field views-field-body") with
  | Some summary_cell =>
      let raw_summary := tag_get_text summary_cell in
      let cleaned_summary := clean_quotes raw_summary in
      let formatted_summary := str_capitalize cleaned_summary in
      <["summary" := PStr formatted_summary]> norma_data
  | None => <["summary" := PNone]> norma_data
  end.

(** [extract_creation_date] *)
Definition extract_creation_date (row : Tag) (norma_data : Norma) : bool * Norma :=
  let norma_data :=
    match tag_find row "td" (Some "views-field views-field-field-fecha--1") with
    | Some fecha_cell =>
        match tag_find fecha_cell "span" (Some "date-display-single") with
        | Some fecha_span =>
            let created_at_raw :=
              default (tag_get_text fecha_span) (tag_get fecha_span "content") in
            <["created_at" := PStr (created_at_of created_at_raw)]> norma_data
        | None => <["created_at" := PStr (tag_get_text fecha_cell)]> norma_data
        end
    | None => <["created_at" := PNone]> norma_data
    end in
  if negb (is_valid_created_at (subscript norma_data "created_at"))
  then (false, norma_data)
  else (true, norma_data).

(** The body of the loop of [scrape_page] for one row: the record to
    append, or [None] where the source goes on with the next row.  The
    handler of the row catches every exception; [get_rtype_id] calls
    [lower] on the title, which raises on an object that is no [str]. *)
Definition scrape_row (row : Tag) : M Net (option Norma) :=
  try_except
    (update_at ← now;
     let norma_data : Norma :=
       {[ "created_at" := PNone;
          "update_at" := PStr update_at;
          "is_active" := PBool true;
          "title" := PNone;
          "gtype" := PNone;
          "entity" := PStr (u ENTITY_VALUE);
          "external_link" := PNone;
          "rtype_id" := PNone;
          "summary" := PNone;
          "classification_id" := PInt FIXED_CLASSIFICATION_ID ]} in
     let '(kept, norma_data) := extract_title_and_link row norma_data in
     if negb kept then mret None
     else
       let norma_data := extract_summary row norma_data in
       let '(kept, norma_data) := extract_creation_date row norma_data in
       if negb kept then mret None
       else
         match subscript norma_data "title" with
         | PStr title =>
             mret (Some (<["rtype_id" := PInt (get_rtype_id title)]> norma_data))
         | _ => raise TypeError
         end)
    (fun e => mret None).

(** The loop of [scrape_page] over the rows of the table. *)
Fixpoint scrape_rows (rows : list Tag) (page_data : list Norma) : M Net (list Norma) :=
  match rows with
  | [] => mret page_data
  | row :: rows =>
      scraped ← scrape_row row;
      match scraped with
      | Some norma_data => scrape_rows rows (page_data ++ [norma_data])
      | None => scrape_rows rows page_data
      end
  end.

(** The address of a page of the listing. *)
Definition page_url_of (page_num : Z) : unicode :=
  if page_num =? 0 then URL_BASE else URL_BASE ++ u "&page=" ++ str_of_Z page_num.

(** [scrape_page] *)
Definition scrape_page (page_num : Z) : M Net (list Norma) :=
  let page_url := page_url_of page_num in
  try_except
    (response ← requests_get page_url;
     lift (raise_for_status response);;
     let soup := BeautifulSoup response in
     match tag_find soup "tbody" None with
     | None => mret []
     | Some tbody =>
         let rows := tag_find_all tbody "tr" in
         scrape_rows rows []
     end)
    (fun e => mret []).

(** The loop of [run_extraction] over the page numbers. *)
Fixpoint extract_pages (pages : list Z) (all_records : list Norma) : M Net (list Norma) :=
  match pages with
  | [] => mret all_records
  | page_num :: pages =>
      page_data ← scrape_page page_num;
      extract_pages pages (all_records ++ page_data)
  end.

(** [range(n)] *)
Definition range (n : Z) : list Z := Z.of_nat <$> seq 0 (Z.to_nat n).

(** [run_extraction] *)
Definition run_extraction (num_pages : Z) : M Net (list Norma) :=
  extract_pages (range num_pages) [].
End Extraction.

(** ** A sample site for the examples

    [latin_unicode] maps the case of the letters of ASCII and of those
    letters of Latin-1 whose other case lies in Latin-1 too, and leaves the
    rest as it is; a document of [sample_web] is a tree
    of elements, each with its name, its class, its attributes and its text,
    and the site serves one page of the listing. *)
Definition lower_char (c : N) : N :=
  if (((0x41 <=? c) && (c <=? 0x5A))
      || ((0xC0 <=? c) && (c <=? 0xDE) && negb (c =? 0xD7)))%N
  then (c + 32)%N else c.

Definition upper_char (c : N) : N :=
  if (((0x61 <=? c) && (c <=? 0x7A))
      || ((0xE0 <=? c) && (c <=? 0xFE) && negb (c =? 0xF7)))%N
  then (c - 32)%N else c.

#[global] Instance latin_unicode : Unicode := {|
  str_lower s := lower_char <$> s;
  str_capitalize s :=
    match s with
    | [] => []
    | c :: s => upper_char c :: (lower_char <$> s)
    end
|}.

#[warnings="-register-all"]
Inductive element :=
| Element (name : string) (class_ : option string) (attributes : list (string * unicode))
    (content : unicode) (children : list element).

Definition element_name (e : element) : string :=
  match e with Element name _ _ _ _ => name end.

Definition element_class (e : element) : option string :=
  match e with Element _ class_ _ _ _ => class_ end.

Definition element_attributes (e : element) : list (string * unicode) :=
  match e with Element _ _ attributes _ _ => attributes end.

Definition element_content (e : element) : unicode :=
  match e with Element _ _ _ content _ => content end.

Definition element_matches (name : string) (class_ : option string) (e : element) : bool :=
  String.eqb (element_name e) name
  && match class_ with
     | Some c => bool_decide (element_class e = Some c)
     | None => true
     end.

(** The descendants of an element, in document order. *)
Fixpoint descendants (e : element) : list element :=
  match e with
  | Element _ _ _ _ children =>
      (fix all (l : list element) : list element :=
         match l with
         | [] => []
         | c :: l => c :: descendants c ++ all l
         end) children
  end.

Definition element_find (e : element) (name : string) (class_ : option string)
  : option element :=
  List.find (element_matches name class_) (descendants e).

Definition element_find_all (e : element) (name : string) : list element :=
  List.filter (element_matches name None) (descendants e).

Definition element_get (e : element) (attribute : string) : option unicode :=
  snd <$> List.find (fun a => String.eqb (fst a) attribute) (element_attributes e).

Definition text_cell (class_ : string) (content : unicode) : element :=
  Element "td" (Some class_) [] content [].

(** A row of the listing: the title with its link, the summary and the
    date. *)
Definition listing_row (title href summary : unicode) (date : element) : element :=
  Element "tr" None [] []
    [Element "td" (Some "views-field views-field-title") [] title
       [Element "a" None [("href"%string, href)] title []];
     text_cell "views-field views-field-body" summary;
     Element "td" (Some "views-field views-field-field-fecha--1") [] [] [date]].

Definition date_span (content : unicode) : element :=
  Element "span" (Some "date-display-single") [("content"%string, content)] [] [].

(** The page: a decree with a relative link and an ISO timestamp, a
    resolution with an absolute link and a day/month/year date, a row
    without a date and a row whose title has more than 65 characters. *)
Definition sample_page : element :=
  Element "html" None [] []
    [Element "table" None [] []
       [Element "tbody" None [] []
          [listing_row (u "  Decreto  " ++ [0x201C%N] ++ u "1079" ++ [0x201D%N] ++ u " de 2015 ")
             (u "/sites/default/files/decreto_1079.pdf")
             (u "por medio del cual se expide el decreto unico")
             (date_span (u "2015-05-26T00:00:00-05:00"));
           listing_row (u "RESOLUCI" ++ [0xD3%N] ++ u "N 955 de 2016")
             (u "https://www.ani.gov.co/resolucion_955.pdf")
             (u "Resolucion 'tarifas'")
             (date_span (u "7/3/2016"));
           listing_row (u "Decreto 4165 de 2011")
             (u "/decreto_4165.pdf") (u "estructura") (date_span (u "   "));
           listing_row
             (u "Resolucion por la cual se adopta el manual de contratacion de la entidad")
             (u "/manual.pdf") (u "manual") (date_span (u "2020-01-01"))]]].

(** The sample site answers the first page of the listing with
    [sample_page] and every other address with an error; its clock always
    shows the same time. *)
#[global] Instance sample_web : Web := {|
  Tag := element;
  Response := option element;
  Net := nat;
  tag_find := element_find;
  tag_find_all := element_find_all;
  tag_get_text := element_content;
  tag_get := element_get;
  requests_get url := fun requests =>
    (Return (if bool_decide (url = URL_BASE) then Some sample_page else None), S requests);
  raise_for_status response :=
    match response with
    | Some _ => Return tt
    | None => Raise (RuntimeError "404 Client Error")
    end;
  BeautifulSoup response := default (Element "html" None [] [] []) response;
  now := fun requests => (Return (u "2025-01-01 00:00:00"), requests)
|}.

(** * Vocabulary of the statements

    Definitions used to state the properties: they describe what the code
    computes, they are not part of it. *)

Section ValidationVocabulary.
Context `{Builtins}.

(** What [_validate_field] says about the field [field_name] of a record
    with items [d]. *)
Definition field_verdict (d : Dict) (field_name : string) (rule : Rule)
  : outcome (bool * scalar) :=
  _validate_field (default VNone (d !! field_name)) rule.

(** The items of [cleaned] when the loop of [validate_record] stops, and how
    it stops ([Return true]: the end of the rules was reached; [Return
    false]: a required field failed). *)
Fixpoint rewrite_fields (d : Dict) (rules : list (string * Rule)) : outcome bool * Dict :=
  match rules with
  | [] => (Return true, d)
  | (field_name, rule) :: rules =>
      match field_verdict d field_name rule with
      | Raise e => (Raise e, d)
      | Return (false, _) =>
          if required rule then (Return false, d)
          else rewrite_fields (<[field_name := VNone]> d) rules
      | Return (true, new_value) => rewrite_fields (<[field_name := new_value]> d) rules
      end
  end.

Definition result_of (cleaned : ref) (verdict : outcome bool) : outcome (option ref) :=
  match verdict with
  | Return true => Return (Some cleaned)
  | Return false => Return None
  | Raise e => Raise e
  end.

(** The dict that [validate_record] returns for a record with items [d], if
    it retains it. *)
Definition retained (rules : list (string * Rule)) (d : Dict) : option Dict :=
  match rewrite_fields d rules with
  | (Return true, d') => Some d'
  | _ => None
  end.
End ValidationVocabulary.

(** The rows of a batch as the store keeps them, numbered from [first_id]. *)
Fixpoint stored_as (first_id : Z) (rows : list Row) : list StoredRow :=
  match rows with
  | [] => []
  | r :: rows => {| id := first_id; data := r |} :: stored_as (first_id + 1) rows
  end.

(** The frame has the three columns that step 3 reads. *)
Definition has_key_columns (df : DataFrame) : Prop :=
  Forall (fun column => column ∈ columns_of df) key_columns.

#[global] Instance has_key_columns_dec (df : DataFrame) : Decision (has_key_columns df).
Proof. unfold has_key_columns. apply _. Defined.

(** The first failure that the server or the network opposes to the
    insertion of [rows], one after the other, into table [t] of contents
    [db], the next identifier being [next]. *)
Fixpoint first_failure `{Postgres} (t : table_name) (db : Database) (next : Z)
    (rows : list Row) : option failure :=
  match rows with
  | [] => None
  | r :: rows =>
      match insert_error t db r with
      | Some f => Some f
      | None => first_failure t (append_row t {| id := next; data := r |} db) (next + 1) rows
      end
  end.

Section ResolverVocabulary.
Context `{Pandas}.

(** The Identity Key of a record, in the words of the specification: the
    stringified title trimmed, the stringified creation date, and the link
    with null replaced by the empty string. *)
Definition identity_key (r : Row) : string * string * string :=
  (strip (astype_str (cell r "title")),
   astype_str (cell r "created_at"),
   astype_str (fillna (VStr "") (cell r "external_link"))).

(** The three parts joined the way step 4 joins them. *)
Definition join_key (k : string * string * string) : string :=
  k.1.1 +:+ "|" +:+ k.1.2 +:+ "|" +:+ k.2.

(** Step 3 on one row. *)
Definition normalize_row (r : Row) : Row :=
  let r1 := <["created_at" := VStr (astype_str (cell r "created_at"))]> r in
  let r2 :=
    <["external_link" := VStr (astype_str (fillna (VStr "") (cell r1 "external_link")))]> r1 in
  <["title" := VStr (strip (astype_str (cell r2 "title")))]> r2.

(** The two helper columns of step 4, removed again in step 6. *)
Definition strip_aux (r : Row) : Row := delete "is_duplicate" (delete "unique_key" r).

(** Step 4 on one row. *)
Definition mark (existing_keys : list scalar) (r : Row) : Row :=
  let r1 := <["unique_key" := VStr (unique_key r)]> r in
  <["is_duplicate" := VBool (bool_decide (cell r1 "unique_key" ∈ existing_keys))]> r1.

(** A candidate is fresh when the store holds no row of the entity, or none
    with its joined key. *)
Definition fresh (db_df : DataFrame) (r : Row) : Prop :=
  db_df = [] \/ unique_key r ∉ unique_key <$> normalize db_df.

#[global] Instance fresh_dec (db_df : DataFrame) (r : Row) : Decision (fresh db_df r).
Proof. unfold fresh. apply _. Defined.

Definition summary_columns : list string := ["title"; "created_at"; "entity"; "external_link"].

(** The frame of stored summaries that [insert_new_records] builds from the
    store (step 1). *)
Definition db_frame (entity : string) (db : Database) : DataFrame :=
  DataFrame_of_rows (fetchall (select_existing entity) db) summary_columns.

(** The batch that [insert_new_records] hands to [bulk_insert]. *)
Definition batch_for (df : DataFrame) (entity : string) (db : Database) : DataFrame :=
  (select_new_records (db_frame entity db) df entity).1.

(** The summary that step 1 reads back for a stored row. *)
Definition summary_of (r : Row) : Row :=
  list_to_map (zip summary_columns
    [default VNone (r !! "title"); default VNone (r !! "created_at");
     default VNone (r !! "entity"); coalesce_empty (default VNone (r !! "external_link"))]).
End ResolverVocabulary.

(** * Sample records, rules and stores *)

Definition rule_of (t : string) (req : bool) : Rule :=
  {| type := Some t; required := req; regex := None |}.

(** Rules of the kind the pipeline loads: a required title, an optional
    summary and an optional numeric classification. *)
Definition sample_rules : list (string * Rule) :=
  [("title"%string, rule_of "str" true);
   ("summary"%string, rule_of "str" false);
   ("rtype_id"%string, rule_of "int" false)].

Definition sample_record : Dict :=
  {[ "title"%string := VStr "Decreto 123";
     "summary"%string := VNone;
     "rtype_id"%string := VStr "14";
     "entity"%string := VStr "Agencia Nacional de Infraestructura" ]}.

Definition sample_cleaned : Dict :=
  {[ "title"%string := VStr "Decreto 123";
     "summary"%string := VNone;
     "rtype_id"%string := VInt 14;
     "entity"%string := VStr "Agencia Nacional de Infraestructura" ]}.

Definition empty_database : Database :=
  {| regulations_table := []; regulations_component_table := [] |}.

(** A store that already holds "Decreto 123". *)
Definition stocked_database : Database :=
  {| regulations_table :=
       [{| id := 1;
           data := regulation (VStr "Decreto 123") (VStr "2024-01-01") (VStr "http://x")
                     ENTITY_VALUE |}];
     regulations_component_table := [] |}.

(** A connection to [db] with no pending change. *)
Definition connected_to (db : Database) (next : Z) : World :=
  {| durable := db; connection := usable db; next_id := next |}.

(** The store [db] and a manager whose connection was closed. *)
Definition closed_on (db : Database) (next : Z) : World :=
  {| durable := db; connection := unusable; next_id := next |}.

Definition decreto_123 : Row :=
  regulation (VStr "Decreto 123") (VStr "2024-01-01") (VStr "http://x") ENTITY_VALUE.

Definition resolucion_9 : Row :=
  regulation (VStr "Resolucion 9") (VStr "2024-02-01") (VStr "http://y") ENTITY_VALUE.

(** The same regulation scraped with blanks around its title. *)
Definition resolucion_9_padded : Row :=
  regulation (VStr "  Resolucion 9 ") (VStr "2024-02-01") (VStr "http://y") ENTITY_VALUE.

(** A new regulation that reuses the link of "Decreto 123". *)
Definition decreto_124_same_link : Row :=
  regulation (VStr "Decreto 124") (VStr "2024-03-01") (VStr "http://x") ENTITY_VALUE.

(** A regulation whose title has 70 characters. *)
Definition long_title_regulation : Row :=
  regulation (VStr "Resolucion por la cual se adopta el manual de contratacion de la entidad")
    (VStr "2024-04-01") (VStr "http://z") ENTITY_VALUE.

Definition unique_violation : exn :=
  RuntimeError ("Error insertando en regulations: "
                +:+ "duplicate key value violates unique constraint "
                +:+ dquote +:+ "regulations_external_link_key" +:+ dquote).

Definition too_long : exn :=
  RuntimeError "Error insertando en regulations: value too long for type character varying(65)".

(** * Vocabulary of the further properties *)

(** The sixteen quotation marks that [clean_quotes] removes: the ASCII
    quotes and the backtick, the guillemets, the acute accent, the curly
    and low quotation marks, prime and double prime, the single guillemets. *)
Definition quote_characters : list N :=
  [0x22; 0x27; 0x60; 0xAB; 0xB4; 0xBB; 0x2018; 0x2019; 0x201A; 0x201C; 0x201D; 0x201E;
   0x2032; 0x2033; 0x2039; 0x203A]%N.

(** The record that [scrape_page] starts a row with. *)
Definition blank_norma (update_at : unicode) : Norma :=
  {[ "created_at" := PNone;
     "update_at" := PStr update_at;
     "is_active" := PBool true;
     "title" := PNone;
     "gtype" := PNone;
     "entity" := PStr (u ENTITY_VALUE);
     "external_link" := PNone;
     "rtype_id" := PNone;
     "summary" := PNone;
     "classification_id" := PInt FIXED_CLASSIFICATION_ID ]}.

(** The ten keys of a scraped record. *)
Definition norma_keys : gset string :=
  list_to_set ["created_at"; "update_at"; "is_active"; "title"; "gtype"; "entity";
               "external_link"; "rtype_id"; "summary"; "classification_id"].

(** The records that the scraper returns for the sample site. *)
Definition sample_records : list Norma :=
  Eval vm_compute in
    match run_extraction 2 0%nat with
    | (Return records, _) => records
    | (Raise _, _) => []
    end.

(** The row of [regulations_component] that [insert_regulations_component]
    builds for the regulation with identifier [i]. *)
Definition link_row (i : Z) : Row :=
  <["components_id" := VInt 7]> {["regulations_id" := VInt i]}.

(** Identifiers from the newest to the oldest. *)
Definition descending (a b : Z) : Prop := b <= a.

#[global] Instance descending_dec (a b : Z) : Decision (descending a b).
Proof. unfold descending. apply _. Defined.

#[global] Instance descending_total : Total descending.
Proof. intros a b. unfold descending. lia. Qed.

#[global] Instance descending_trans : Transitive descending.
Proof. intros a b c. unfold descending. lia. Qed.

#[global] Instance descending_antisymm : AntiSymm (=) descending.
Proof. intros a b. unfold descending. lia. Qed.

#[global] Instance newer_first_total : Total newer_first.
Proof. intros a b. unfold newer_first. lia. Qed.

#[global] Instance newer_first_trans : Transitive newer_first.
Proof. intros a b c. unfold newer_first. lia. Qed.

(** * Properties of the validation engine *)

Section ValidationProperties.
Context `{Builtins}.

Lemma deref_lookup (h : Heap) (r : ref) (d : Dict) : h !! r = Some d -> deref h r = d.
Proof. unfold deref. intros ->. reflexivity. Qed.

Lemma validate_fields_rewrite (rules : list (string * Rule)) :
  forall (cleaned : ref) (h : Heap) (d : Dict),
    h !! cleaned = Some d ->
    validate_fields cleaned rules h =
      (result_of cleaned (rewrite_fields d rules).1, <[cleaned := (rewrite_fields d rules).2]> h).
Proof.
  induction rules as [|[field_name rule] rules IH]; intros cleaned h d Hd.
  - simpl. unfold mret, M_ret. f_equal. symmetry. apply list_insert_id. exact Hd.
  - simpl. unfold mbind, M_bind, dict_get, lift, dict_set, field_verdict.
    rewrite (deref_lookup _ _ _ Hd).
    assert (Hlt : (cleaned < List.length h)%nat) by (eapply lookup_lt_Some; eauto).
    destruct (_validate_field (default VNone (d !! field_name)) rule) as [[[] new_value]|e];
      simpl; rewrite ?(deref_lookup _ _ _ Hd).
    + rewrite (IH cleaned _ (<[field_name := new_value]> d)).
      * rewrite list_insert_insert_eq. reflexivity.
      * apply list_lookup_insert_eq. exact Hlt.
    + destruct (required rule); simpl; rewrite ?(deref_lookup _ _ _ Hd).
      * unfold mret, M_ret. f_equal. symmetry. apply list_insert_id. exact Hd.
      * rewrite (IH cleaned _ (<[field_name := VNone]> d)).
        -- rewrite list_insert_insert_eq. reflexivity.
        -- apply list_lookup_insert_eq. exact Hlt.
    + f_equal. symmetry. apply list_insert_id. exact Hd.
Qed.

(** [validate_record] allocates one dict, the copy it rewrites, and touches
    nothing else. *)
Lemma validate_record_rewrite (record : ref) (rules : list (string * Rule)) (h : Heap) :
  validate_record record rules h =
    (result_of (List.length h) (rewrite_fields (deref h record) rules).1,
     h ++ [(rewrite_fields (deref h record) rules).2]).
Proof.
  unfold validate_record, mbind, M_bind, dict_copy.
  rewrite (validate_fields_rewrite rules _ _ (deref h record)).
  - f_equal.
    replace (List.length h) with (List.length h + 0)%nat by lia.
    rewrite insert_app_r. reflexivity.
  - rewrite lookup_app_r by lia. rewrite Nat.sub_diag. reflexivity.
Qed.

Lemma field_verdict_insert_ne (d : Dict) (f0 f : string) (x : scalar) (rule : Rule) :
  f0 <> f -> field_verdict (<[f0 := x]> d) f rule = field_verdict d f rule.
Proof. intros Hne. unfold field_verdict. rewrite lookup_insert_ne by exact Hne. reflexivity. Qed.

Lemma failed_field_is_none (value : scalar) (rule : Rule) (v : scalar) :
  _validate_field value rule = Return (false, v) -> v = VNone.
Proof.
  unfold _validate_field. intros Hv.
  destruct value; try (injection Hv as <-; reflexivity);
    destruct (check_type _ rule) as [[w|]|e]; try discriminate;
    try (injection Hv as <-; reflexivity);
    destruct (check_regex w rule); try discriminate; injection Hv as <-; reflexivity.
Qed.

(** The loop leaves the fields that have no rule as they are. *)
Lemma rewrite_fields_unruled (rules : list (string * Rule)) :
  forall (d : Dict) (f : string),
    f ∉ rules.*1 -> (rewrite_fields d rules).2 !! f = d !! f.
Proof.
  induction rules as [|[f0 rule0] rules IH]; intros d f Hf; [reflexivity|].
  simpl in Hf. apply not_elem_of_cons in Hf as [Hne Hf].
  simpl. destruct (field_verdict d f0 rule0) as [[[] v]|e]; simpl; [| |reflexivity].
  - rewrite IH by exact Hf. apply lookup_insert_ne. congruence.
  - destruct (required rule0); [reflexivity|].
    rewrite IH by exact Hf. apply lookup_insert_ne. congruence.
Qed.

(** When the loop reaches the end of the rules, every ruled field holds its
    validated value, or [None] if it failed and is optional. *)
Lemma rewrite_fields_kept (rules : list (string * Rule)) :
  forall (d : Dict),
    NoDup rules.*1 ->
    (rewrite_fields d rules).1 = Return true ->
    forall f rule, (f, rule) ∈ rules ->
      match field_verdict d f rule with
      | Return (true, v) => (rewrite_fields d rules).2 !! f = Some v
      | Return (false, _) =>
          required rule = false /\ (rewrite_fields d rules).2 !! f = Some VNone
      | Raise _ => False
      end.
Proof.
  induction rules as [|[f0 rule0] rules IH]; intros d Hnd Hend f rule Hin.
  - apply elem_of_nil in Hin. contradiction.
  - simpl in Hnd. apply NoDup_cons in Hnd as [Hf0 Hnd].
    simpl in Hend |- *.
    apply elem_of_cons in Hin as [Heq|Hin].
    + injection Heq as -> ->.
      destruct (field_verdict d f0 rule0) as [[[] v]|e]; simpl in *.
      * rewrite rewrite_fields_unruled by exact Hf0. apply lookup_insert_eq.
      * destruct (required rule0); [discriminate|]. split; [reflexivity|].
        rewrite rewrite_fields_unruled by exact Hf0. apply lookup_insert_eq.
      * discriminate.
    + assert (Hne : f0 <> f).
      { intros ->. apply Hf0. apply list_elem_of_fmap. exists (f, rule). split; [reflexivity|exact Hin]. }
      destruct (field_verdict d f0 rule0) as [[[] v]|e]; simpl in *.
      * specialize (IH _ Hnd Hend f rule Hin).
        rewrite field_verdict_insert_ne in IH by exact Hne. exact IH.
      * destruct (required rule0); [discriminate|].
        specialize (IH _ Hnd Hend f rule Hin).
        rewrite field_verdict_insert_ne in IH by exact Hne. exact IH.
      * discriminate.
Qed.

(** When the loop stops on a discard, a required field failed. *)
Lemma rewrite_fields_discarded (rules : list (string * Rule)) :
  forall (d : Dict),
    NoDup rules.*1 ->
    (rewrite_fields d rules).1 = Return false ->
    exists f rule, (f, rule) ∈ rules /\ required rule = true
                   /\ field_verdict d f rule = Return (false, VNone).
Proof.
  induction rules as [|[f0 rule0] rules IH]; intros d Hnd Hend; [discriminate|].
  simpl in Hnd. apply NoDup_cons in Hnd as [Hf0 Hnd]. simpl in Hend.
  assert (Hlater : forall x, (rewrite_fields (<[f0 := x]> d) rules).1 = Return false ->
    exists f rule, (f, rule) ∈ (f0, rule0) :: rules /\ required rule = true
                   /\ field_verdict d f rule = Return (false, VNone)).
  { intros x Hx. destruct (IH _ Hnd Hx) as (f & rule & Hin & Hreq & Hv).
    exists f, rule. split; [right; exact Hin|]. split; [exact Hreq|].
    rewrite field_verdict_insert_ne in Hv; [exact Hv|].
    intros ->. apply Hf0. apply list_elem_of_fmap. exists (f, rule). split; [reflexivity|exact Hin]. }
  destruct (field_verdict d f0 rule0) as [[[] v]|e] eqn:Hv0; simpl in Hend.
  - eauto.
  - destruct (required rule0) eqn:Hreq0; [|eauto].
    exists f0, rule0. split; [left|]. split; [exact Hreq0|].
    rewrite Hv0. f_equal. f_equal. eapply failed_field_is_none. exact Hv0.
  - discriminate.
Qed.

(** When the loop stops on an exception, the check of a field raised it. *)
Lemma rewrite_fields_raised (rules : list (string * Rule)) :
  forall (d : Dict) (e : exn),
    NoDup rules.*1 ->
    (rewrite_fields d rules).1 = Raise e ->
    exists f rule, (f, rule) ∈ rules /\ field_verdict d f rule = Raise e.
Proof.
  induction rules as [|[f0 rule0] rules IH]; intros d e Hnd Hend; [discriminate|].
  simpl in Hnd. apply NoDup_cons in Hnd as [Hf0 Hnd]. simpl in Hend.
  assert (Hlater : forall x, (rewrite_fields (<[f0 := x]> d) rules).1 = Raise e ->
    exists f rule, (f, rule) ∈ (f0, rule0) :: rules /\ field_verdict d f rule = Raise e).
  { intros x Hx. destruct (IH _ _ Hnd Hx) as (f & rule & Hin & Hv).
    exists f, rule. split; [right; exact Hin|].
    rewrite field_verdict_insert_ne in Hv; [exact Hv|].
    intros ->. apply Hf0. apply list_elem_of_fmap. exists (f, rule). split; [reflexivity|exact Hin]. }
  destruct (field_verdict d f0 rule0) as [[[] v]|e0] eqn:Hv0; simpl in Hend.
  - eauto.
  - destruct (required rule0); [discriminate|eauto].
  - injection Hend as ->. exists f0, rule0. split; [left|exact Hv0].
Qed.
End ValidationProperties.

Section ValidationClaims.
Context `{Builtins}.

(** *** How a field fails *)

(** A null or absent value fails, whatever the rule. *)
Lemma null_field_fails (rule : Rule) : _validate_field VNone rule = Return (false, VNone).
Proof. reflexivity. Qed.

(** A type name outside [_TYPE_MAP] switches the type step off: the rule
    behaves like the same rule without a type. *)
Lemma unknown_type_is_unchecked (name : string) (req : bool) (re : option string)
    (value : scalar) :
  _TYPE_MAP name = None ->
  _validate_field value {| type := Some name; required := req; regex := re |} =
  _validate_field value {| type := None; required := req; regex := re |}.
Proof.
  intros Hname. unfold _validate_field, check_type. simpl. rewrite Hname.
  destruct (negb (String.eqb name "")); reflexivity.
Qed.

(** Without a type step, a value that is not null and not a string is
    accepted unchanged. *)
Lemma untyped_non_string_passes (req : bool) (re : option string) (value : scalar) :
  value <> VNone -> isinstance value Tstr = false ->
  _validate_field value {| type := None; required := req; regex := re |} = Return (true, value).
Proof.
  intros Hnn Hs. destruct value; try contradiction; try discriminate;
    unfold _validate_field, check_type, check_regex; simpl; destruct re; reflexivity.
Qed.

(** A value that already has the declared type is not converted. *)
Lemma typed_value_is_kept (name : string) (t : pytype) (req : bool) (value : scalar) :
  _TYPE_MAP name = Some t -> isinstance value t = true ->
  _validate_field value {| type := Some name; required := req; regex := None |}
  = Return (true, value).
Proof.
  intros Hname Hinst. assert (Hne : negb (String.eqb name "") = true).
  { destruct (String.eqb_spec name ""); [subst; discriminate|reflexivity]. }
  destruct value; try (destruct t; discriminate);
    unfold _validate_field, check_type, check_regex; simpl;
    rewrite Hne, Hname, Hinst; reflexivity.
Qed.

(** A value of another type is converted; a conversion that raises
    [ValueError] or [TypeError] makes the field fail, one that returns is
    followed by the pattern step. *)
Lemma converted_value (name : string) (t : pytype) (req : bool) (re : option string)
    (value : scalar) :
  _TYPE_MAP name = Some t -> value <> VNone -> isinstance value t = false ->
  _validate_field value {| type := Some name; required := req; regex := re |} =
  match construct t value with
  | Return v =>
      if check_regex v {| type := Some name; required := req; regex := re |}
      then Return (true, v) else Return (false, VNone)
  | Raise ValueError => Return (false, VNone)
  | Raise TypeError => Return (false, VNone)
  | Raise e => Raise e
  end.
Proof.
  intros Hname Hnn Hinst. assert (Hne : negb (String.eqb name "") = true).
  { destruct (String.eqb_spec name ""); [subst; discriminate|reflexivity]. }
  destruct value; try contradiction;
    unfold _validate_field, check_type; simpl; rewrite Hne, Hname, Hinst; simpl;
    destruct (construct t _) as [v|[]]; reflexivity.
Qed.

(** C8 (evaluation at the failing input).  A conversion can also fail with
    [OverflowError]: [int] of an infinite float, [float] of an integer
    beyond the binary64 range.  [_validate_field] catches [ValueError] and
    [TypeError] only, so the field does not fail: the exception leaves the
    function. *)
Theorem conversion_overflow_escapes :
  _validate_field (VFloat (S754_infinity false))
    {| type := Some "int"%string; required := false; regex := None |} = Raise OverflowError
  /\ _validate_field (VInt (10 ^ 400))
    {| type := Some "float"%string; required := false; regex := None |} = Raise OverflowError.
Proof. split; vm_compute; reflexivity. Qed.

(** *** Discarding a record *)

(** A record with a failing required field is never retained. *)
Lemma required_field_not_retained (record : ref) (rules : list (string * Rule)) (h : Heap)
    (f : string) (rule : Rule) :
  NoDup rules.*1 ->
  (f, rule) ∈ rules -> required rule = true ->
  field_verdict (deref h record) f rule = Return (false, VNone) ->
  forall cleaned, (validate_record record rules h).1 <> Return (Some cleaned).
Proof.
  intros Hnd Hin Hreq Hfail cleaned. rewrite validate_record_rewrite. simpl.
  destruct (rewrite_fields (deref h record) rules).1 as [[]|e] eqn:Hend; simpl;
    try discriminate.
  pose proof (rewrite_fields_kept rules _ Hnd Hend f rule Hin) as Hk.
  rewrite Hfail in Hk. destruct Hk as [Hk _]. congruence.
Qed.

(** If moreover no check of the record raises, [validate_record] returns
    [None]. *)
Lemma required_field_discards (record : ref) (rules : list (string * Rule)) (h : Heap)
    (f : string) (rule : Rule) :
  NoDup rules.*1 ->
  (f, rule) ∈ rules -> required rule = true ->
  field_verdict (deref h record) f rule = Return (false, VNone) ->
  (forall f' rule' e, (f', rule') ∈ rules -> field_verdict (deref h record) f' rule' <> Raise e) ->
  (validate_record record rules h).1 = Return None.
Proof.
  intros Hnd Hin Hreq Hfail Hsafe.
  pose proof (required_field_not_retained record rules h f rule Hnd Hin Hreq Hfail) as Hnot.
  rewrite validate_record_rewrite in Hnot |- *. simpl in *.
  destruct (rewrite_fields (deref h record) rules).1 as [[]|e] eqn:Hend; simpl in *.
  - exfalso. eapply Hnot. reflexivity.
  - reflexivity.
  - destruct (rewrite_fields_raised rules _ _ Hnd Hend) as (f' & rule' & Hin' & Hr).
    exfalso. eapply Hsafe; eauto.
Qed.

(** *** The output of [run_validation] *)

Lemma omap_ext_Forall {A B : Type} (f g : A -> option B) (l : list A) :
  Forall (fun x => f x = g x) l -> omap f l = omap g l.
Proof.
  induction 1 as [|x l Hx _ IH]; [reflexivity|].
  change (omap f (x :: l)) with (match f x with Some y => y :: omap f l | None => omap f l end).
  change (omap g (x :: l)) with (match g x with Some y => y :: omap g l | None => omap g l end).
  rewrite Hx, IH. reflexivity.
Qed.

Lemma deref_app_l (h ext : Heap) (r : ref) :
  (r < List.length h)%nat -> deref (h ++ ext) r = deref h r.
Proof. intros Hr. unfold deref. rewrite lookup_app_l by exact Hr. reflexivity. Qed.

Lemma validate_all_spec (rules : list (string * Rule)) (records : list ref) :
  forall (h : Heap) (valid_records : list ref),
    Forall (fun r => (r < List.length h)%nat) records ->
    exists ext,
      (validate_all records rules valid_records h).2 = h ++ ext
      /\ forall out, (validate_all records rules valid_records h).1 = Return out ->
           exists new, out = valid_records ++ new
                       /\ Forall2 (fun c d => (h ++ ext) !! c = Some d) new
                            (omap (fun r => retained rules (deref h r)) records).
Proof.
  induction records as [|record records IH]; intros h valid_records Hrefs.
  - exists []. simpl. rewrite app_nil_r. split; [reflexivity|].
    intros out Hout. injection Hout as <-. exists []. rewrite app_nil_r. split; constructor.
  - apply Forall_cons in Hrefs as [Hr Hrefs].
    simpl. unfold mbind, M_bind. rewrite validate_record_rewrite.
    unfold retained at 1.
    destruct (rewrite_fields (deref h record) rules) as [[[]|e] d'] eqn:Hrw; simpl.
    + destruct (IH (h ++ [d']) (valid_records ++ [List.length h])) as (ext & Hh & Hout).
      { eapply Forall_impl; [exact Hrefs|]. intros r Hlt. simpl in Hlt. rewrite length_app. simpl. lia. }
      exists (d' :: ext). rewrite Hh, <- app_assoc. split; [reflexivity|].
      intros out Ho. destruct (Hout out Ho) as (new & -> & Hnew).
      exists (List.length h :: new). rewrite <- app_assoc. split; [reflexivity|].
      constructor.
      * rewrite lookup_app_r by lia. rewrite Nat.sub_diag. reflexivity.
      * rewrite <- app_assoc in Hnew. simpl in Hnew.
        erewrite omap_ext_Forall; [exact Hnew|].
        eapply Forall_impl; [exact Hrefs|]. intros r Hlt. simpl.
        rewrite deref_app_l by exact Hlt. reflexivity.
    + destruct (IH (h ++ [d']) valid_records) as (ext & Hh & Hout).
      { eapply Forall_impl; [exact Hrefs|]. intros r Hlt. simpl in Hlt. rewrite length_app. simpl. lia. }
      exists (d' :: ext). rewrite Hh, <- app_assoc. split; [reflexivity|].
      intros out Ho. destruct (Hout out Ho) as (new & -> & Hnew).
      exists new. split; [reflexivity|].
      rewrite <- app_assoc in Hnew. simpl in Hnew.
      erewrite omap_ext_Forall; [exact Hnew|].
      eapply Forall_impl; [exact Hrefs|]. intros r Hlt. simpl.
      rewrite deref_app_l by exact Hlt. reflexivity.
    + exists [d']. split; [reflexivity|]. intros out Ho. discriminate.
Qed.

(** The output list of [run_validation] holds, in order, the cleaned copies
    of the records that [validate_record] retains, and nothing for the
    others. *)
Lemma run_validation_output (rules : list (string * Rule)) (records out : list ref)
    (h h' : Heap) :
  Forall (fun r => (r < List.length h)%nat) records ->
  run_validation records rules h = (Return out, h') ->
  Forall2 (fun c d => h' !! c = Some d) out
    (omap (fun r => retained rules (deref h r)) records).
Proof.
  intros Hrefs Hrun. unfold run_validation in Hrun.
  destruct (validate_all_spec rules records h [] Hrefs) as (ext & Hh & Hout).
  rewrite Hrun in Hh, Hout. simpl in Hh, Hout. subst h'.
  destruct (Hout out eq_refl) as (new & -> & Hnew). exact Hnew.
Qed.

(** A record with a failing required field contributes nothing to that
    output. *)
Lemma discarded_record_not_in_output (rules : list (string * Rule)) (h : Heap)
    (before after : list ref) (record : ref) (f : string) (rule : Rule) :
  NoDup rules.*1 ->
  (f, rule) ∈ rules -> required rule = true ->
  field_verdict (deref h record) f rule = Return (false, VNone) ->
  omap (fun r => retained rules (deref h r)) (before ++ record :: after)
  = omap (fun r => retained rules (deref h r)) (before ++ after).
Proof.
  intros Hnd Hin Hreq Hfail. rewrite !omap_app. f_equal. simpl.
  unfold retained at 1.
  destruct (rewrite_fields (deref h record) rules) as [[[]|e] d'] eqn:Hrw; try reflexivity.
  exfalso.
  pose proof (rewrite_fields_kept rules (deref h record) Hnd) as Hk.
  rewrite Hrw in Hk. specialize (Hk eq_refl f rule Hin).
  rewrite Hfail in Hk. destruct Hk as [Hk _]. congruence.
Qed.

(** C1 (evaluation at the failing input).  A required field whose
    conversion overflows does not make [validate_record] return [None]:
    the [OverflowError] leaves [validate_record], and [run_validation] with
    it, so that no output list is produced at all. *)
Theorem required_overflow_aborts_validation :
  let rules := [("rtype_id"%string,
                 {| type := Some "int"%string; required := true; regex := None |})] in
  let record : Dict := {[ "rtype_id"%string := VFloat (S754_infinity false) ]} in
  field_verdict record "rtype_id" {| type := Some "int"%string; required := true; regex := None |}
    = Raise OverflowError
  /\ (validate_record 0%nat rules [record]).1 = Raise OverflowError
  /\ (run_validation [0%nat] rules [record]).1 = Raise OverflowError.
Proof. repeat split; vm_compute; reflexivity. Qed.

(** *** Retaining a record *)

Lemma rewrite_fields_dom (rules : list (string * Rule)) :
  forall (d : Dict), dom d ⊆ dom (rewrite_fields d rules).2.
Proof.
  induction rules as [|[f0 rule0] rules IH]; intros d; [reflexivity|].
  simpl. destruct (field_verdict d f0 rule0) as [[[] v]|e]; simpl; [| |reflexivity].
  - etrans; [|apply IH]. rewrite dom_insert_L. set_solver.
  - destruct (required rule0); [reflexivity|].
    etrans; [|apply IH]. rewrite dom_insert_L. set_solver.
Qed.

(** C9.  [validate_record] leaves every dict of the store as it was, its
    input among them; when it retains the record, what it returns is a new
    dict that has all the fields of the input, and every field without a
    rule has the value (or the absence) it has in the input. *)
Theorem validate_record_preserves_input (record : ref) (rules : list (string * Rule))
    (h h' : Heap) (result : outcome (option ref)) :
  validate_record record rules h = (result, h') ->
  (forall r d, h !! r = Some d -> h' !! r = Some d)
  /\ (forall cleaned, result = Return (Some cleaned) ->
        h !! cleaned = None
        /\ is_Some (h' !! cleaned)
        /\ dom (deref h record) ⊆ dom (deref h' cleaned)
        /\ forall f, f ∉ rules.*1 -> deref h' cleaned !! f = deref h record !! f).
Proof.
  rewrite validate_record_rewrite. intros Hrun. injection Hrun as <- <-. split.
  - intros r d Hr. apply lookup_app_l_Some. exact Hr.
  - intros cleaned Hres.
    assert (cleaned = List.length h) as ->.
    { destruct (rewrite_fields (deref h record) rules).1 as [[]|e]; simpl in Hres;
        congruence. }
    assert (Hnew : (h ++ [(rewrite_fields (deref h record) rules).2]) !! List.length h
                   = Some (rewrite_fields (deref h record) rules).2).
    { rewrite lookup_app_r by lia. rewrite Nat.sub_diag. reflexivity. }
    split; [apply lookup_ge_None; lia|]. split; [rewrite Hnew; eauto|].
    rewrite (deref_lookup _ _ _ Hnew). split.
    + apply rewrite_fields_dom.
    + intros f Hf. apply rewrite_fields_unruled. exact Hf.
Qed.

(** C6, amended.  When no required field of the record fails and no check
    raises, the record is retained; in the dict returned, an optional field
    that failed is [None], and a field that validated holds the value
    [_validate_field] gave for it. *)
Theorem optional_field_nulled (record : ref) (rules : list (string * Rule)) (h : Heap) :
  NoDup rules.*1 ->
  (forall f rule, (f, rule) ∈ rules -> required rule = true ->
      exists v, field_verdict (deref h record) f rule = Return (true, v)) ->
  (forall f rule e, (f, rule) ∈ rules -> field_verdict (deref h record) f rule <> Raise e) ->
  exists cleaned h',
    validate_record record rules h = (Return (Some cleaned), h')
    /\ (forall f rule, (f, rule) ∈ rules -> required rule = false ->
          field_verdict (deref h record) f rule = Return (false, VNone) ->
          deref h' cleaned !! f = Some VNone)
    /\ (forall f rule v, (f, rule) ∈ rules ->
          field_verdict (deref h record) f rule = Return (true, v) ->
          deref h' cleaned !! f = Some v)
    /\ (forall f, f ∉ rules.*1 -> deref h' cleaned !! f = deref h record !! f).
Proof.
  intros Hnd Hreq Hsafe. rewrite validate_record_rewrite.
  destruct (rewrite_fields (deref h record) rules).1 as [[]|e] eqn:Hend.
  - eexists _, _. split; [reflexivity|].
    assert (Hnew : (h ++ [(rewrite_fields (deref h record) rules).2]) !! List.length h
                   = Some (rewrite_fields (deref h record) rules).2).
    { rewrite lookup_app_r by lia. rewrite Nat.sub_diag. reflexivity. }
    rewrite (deref_lookup _ _ _ Hnew). split; [|split].
    + intros f rule Hin _ Hfail.
      pose proof (rewrite_fields_kept rules _ Hnd Hend f rule Hin) as Hk.
      rewrite Hfail in Hk. apply Hk.
    + intros f rule v Hin Hok.
      pose proof (rewrite_fields_kept rules _ Hnd Hend f rule Hin) as Hk.
      rewrite Hok in Hk. exact Hk.
    + intros f Hf. apply rewrite_fields_unruled. exact Hf.
  - exfalso. destruct (rewrite_fields_discarded rules _ Hnd Hend) as (f & rule & Hin & Hr & Hv).
    destruct (Hreq f rule Hin Hr) as [v Hv']. congruence.
  - exfalso. destruct (rewrite_fields_raised rules _ _ Hnd Hend) as (f & rule & Hin & Hv).
    eapply Hsafe; eauto.
Qed.
End ValidationClaims.

(** * Properties of the write stage *)

(** ** [strip] is idempotent *)

Section DropSpaceFacts.
Variable sp2 : ascii -> ascii -> bool.
Variable sp3 : ascii -> ascii -> ascii -> bool.

Lemma drop_space_fixed (l : list ascii) :
  starts_space sp2 sp3 l = false -> drop_space sp2 sp3 l = l.
Proof.
  destruct l as [|c1 [|c2 [|c3 l]]]; simpl; intros Hs;
    repeat (apply orb_false_elim in Hs as [? Hs]);
    repeat match goal with Hx : _ = false |- _ => rewrite Hx; clear Hx end;
    reflexivity.
Qed.

Lemma drop_space_bounded (n : nat) :
  forall l : list ascii, (List.length l <= n)%nat ->
    starts_space sp2 sp3 (drop_space sp2 sp3 l) = false
    /\ exists p, l = p ++ drop_space sp2 sp3 l.
Proof.
  induction n as [|n IH]; intros l Hlen.
  - destruct l; [|simpl in Hlen; lia]. split; [reflexivity|]. exists []. reflexivity.
  - destruct l as [|c1 l1]; [split; [reflexivity|exists []; reflexivity]|].
    simpl in Hlen. simpl drop_space.
    destruct (is_space1 c1) eqn:H1.
    { destruct (IH l1 ltac:(lia)) as [Hst [p Hp]]. split; [exact Hst|].
      exists (c1 :: p). simpl. rewrite <- Hp. reflexivity. }
    destruct l1 as [|c2 l2].
    { split; [simpl; rewrite H1; reflexivity|]. exists []. reflexivity. }
    simpl in Hlen. destruct (sp2 c1 c2) eqn:H2.
    { destruct (IH l2 ltac:(lia)) as [Hst [p Hp]]. split; [exact Hst|].
      exists (c1 :: c2 :: p). simpl. rewrite <- Hp. reflexivity. }
    destruct l2 as [|c3 l3].
    { split; [simpl; rewrite H1, H2; reflexivity|]. exists []. reflexivity. }
    simpl in Hlen. destruct (sp3 c1 c2 c3) eqn:H3.
    { destruct (IH l3 ltac:(lia)) as [Hst [p Hp]]. split; [exact Hst|].
      exists (c1 :: c2 :: c3 :: p). simpl. rewrite <- Hp. reflexivity. }
    split; [simpl; rewrite H1, H2, H3; reflexivity|]. exists []. reflexivity.
Qed.

Lemma drop_space_stops (l : list ascii) :
  starts_space sp2 sp3 (drop_space sp2 sp3 l) = false.
Proof. apply (drop_space_bounded (List.length l)). lia. Qed.

Lemma drop_space_suffix (l : list ascii) : exists p, l = p ++ drop_space sp2 sp3 l.
Proof. apply (drop_space_bounded (List.length l)). lia. Qed.

Lemma drop_space_idem (l : list ascii) :
  drop_space sp2 sp3 (drop_space sp2 sp3 l) = drop_space sp2 sp3 l.
Proof. apply drop_space_fixed, drop_space_stops. Qed.

Lemma starts_space_app (p q : list ascii) :
  starts_space sp2 sp3 p = true -> starts_space sp2 sp3 (p ++ q) = true.
Proof.
  destruct p as [|c1 [|c2 [|c3 p]]]; simpl; intros Hs; try discriminate;
    repeat (apply orb_true_iff in Hs as [Hs|Hs]; [rewrite Hs; rewrite ?orb_true_r; reflexivity|]);
    try discriminate; try (rewrite Hs; rewrite ?orb_true_r; reflexivity).
Qed.
End DropSpaceFacts.

Lemma rstrip_prefix (l : list ascii) : exists q, l = rstrip l ++ q.
Proof.
  unfold rstrip.
  destruct (drop_space_suffix (fun c1 c2 => is_space2 c2 c1)
              (fun c1 c2 c3 => is_space3 c3 c2 c1) (rev l)) as [p Hp].
  exists (rev p). rewrite <- rev_app_distr, <- Hp, rev_involutive. reflexivity.
Qed.

Lemma rstrip_idem (l : list ascii) : rstrip (rstrip l) = rstrip l.
Proof. unfold rstrip. rewrite rev_involutive, drop_space_idem. reflexivity. Qed.

Lemma lstrip_rstrip_lstrip (l : list ascii) : lstrip (rstrip (lstrip l)) = rstrip (lstrip l).
Proof.
  unfold lstrip at 1. apply drop_space_fixed.
  destruct (starts_space is_space2 is_space3 (rstrip (lstrip l))) eqn:Hs; [|reflexivity].
  destruct (rstrip_prefix (lstrip l)) as [q Hq].
  pose proof (drop_space_stops is_space2 is_space3 l) as Hstop.
  fold (lstrip l) in Hstop. rewrite Hq in Hstop.
  rewrite (starts_space_app _ _ _ q Hs) in Hstop. discriminate.
Qed.

Lemma strip_idem (s : string) : strip (strip s) = strip s.
Proof.
  unfold strip. rewrite list_ascii_of_string_of_list_ascii.
  rewrite lstrip_rstrip_lstrip, rstrip_idem. reflexivity.
Qed.

(** ** The duplicate resolver *)

Lemma filter_fmap {A B : Type} (f : A -> B) (P : B -> Prop) `{!forall y, Decision (P y)}
    (l : list A) :
  filter P (f <$> l) = f <$> filter (fun x => P (f x)) l.
Proof.
  induction l as [|x l IH]; [reflexivity|].
  rewrite fmap_cons, !filter_cons, IH. destruct (decide (P (f x))); reflexivity.
Qed.

Lemma filter_none {A : Type} (P : A -> Prop) `{!forall x, Decision (P x)} (l : list A) :
  (forall x, x ∈ l -> ~ P x) -> filter P l = [].
Proof.
  induction l as [|x l IH]; intros Hall; [reflexivity|].
  rewrite filter_cons_False by (apply Hall; left).
  apply IH. intros y Hy. apply Hall. right. exact Hy.
Qed.

(** [drop_duplicates] keeps, for every row, the first row with its key, in
    the order of the frame. *)
Lemma drop_duplicates_seen_sub (columns : list string) (df : DataFrame) :
  forall seen r, r ∈ drop_duplicates_seen columns seen df ->
    r ∈ df /\ subset_of columns r ∉ seen.
Proof.
  induction df as [|x df IH]; intros seen r Hr; [apply elem_of_nil in Hr; contradiction|].
  simpl in Hr. destruct (bool_decide_reflect (subset_of columns x ∈ seen)) as [Hx|Hx].
  - destruct (IH _ _ Hr) as [Hin Hns]. split; [right; exact Hin|exact Hns].
  - apply elem_of_cons in Hr as [->|Hr]; [split; [left|exact Hx]|].
    destruct (IH _ _ Hr) as [Hin Hns]. split; [right; exact Hin|].
    intros Hs. apply Hns. right. exact Hs.
Qed.

Lemma drop_duplicates_seen_repr (columns : list string) (df : DataFrame) :
  forall seen r, r ∈ df -> subset_of columns r ∉ seen ->
    exists r', r' ∈ drop_duplicates_seen columns seen df
               /\ subset_of columns r' = subset_of columns r.
Proof.
  induction df as [|x df IH]; intros seen r Hr Hns; [apply elem_of_nil in Hr; contradiction|].
  simpl. destruct (bool_decide_reflect (subset_of columns x ∈ seen)) as [Hx|Hx].
  - apply elem_of_cons in Hr as [->|Hr]; [contradiction|].
    apply IH; assumption.
  - destruct (decide (subset_of columns r = subset_of columns x)) as [Heq|Hne].
    + exists x. split; [left|symmetry; exact Heq].
    + apply elem_of_cons in Hr as [->|Hr]; [contradiction|].
      destruct (IH (subset_of columns x :: seen) r Hr) as (r' & Hr' & Hk).
      * intros Hs. apply elem_of_cons in Hs as [Hs|Hs]; contradiction.
      * exists r'. split; [right; exact Hr'|exact Hk].
Qed.

Lemma drop_duplicates_repr (columns : list string) (df : DataFrame) (r : Row) :
  r ∈ df ->
  exists r', r' ∈ drop_duplicates columns df /\ subset_of columns r' = subset_of columns r.
Proof.
  intros Hr. apply drop_duplicates_seen_repr; [exact Hr|]. apply not_elem_of_nil.
Qed.

Lemma drop_duplicates_seen_sublist (columns : list string) (df : DataFrame) :
  forall seen, sublist (drop_duplicates_seen columns seen df) df.
Proof.
  induction df as [|x df IH]; intros seen; [constructor|].
  simpl. destruct (bool_decide (subset_of columns x ∈ seen)).
  - apply sublist_cons. apply IH.
  - apply sublist_skip. apply IH.
Qed.

Lemma drop_duplicates_seen_NoDup (columns : list string) (df : DataFrame) :
  forall seen, NoDup (subset_of columns <$> drop_duplicates_seen columns seen df).
Proof.
  induction df as [|x df IH]; intros seen; [constructor|].
  simpl. destruct (bool_decide (subset_of columns x ∈ seen)); [apply IH|].
  rewrite fmap_cons. apply NoDup_cons. split; [|apply IH].
  intros Hin. apply list_elem_of_fmap in Hin as (r & Hk & Hr).
  apply drop_duplicates_seen_sub in Hr as [_ Hns]. apply Hns. rewrite <- Hk. left.
Qed.

Lemma drop_duplicates_seen_fmap (columns : list string) (g : Row -> Row) (df : DataFrame) :
  (forall r, subset_of columns (g r) = subset_of columns r) ->
  forall seen,
    drop_duplicates_seen columns seen (g <$> df) = g <$> drop_duplicates_seen columns seen df.
Proof.
  intros Hg. induction df as [|x df IH]; intros seen; [reflexivity|].
  simpl. rewrite Hg. destruct (bool_decide (subset_of columns x ∈ seen)).
  - apply IH.
  - rewrite fmap_cons, IH. reflexivity.
Qed.

Section Resolver.
Context `{Pandas}.

Lemma normalize_fmap (df : DataFrame) : normalize df = normalize_row <$> df.
Proof.
  unfold normalize, assign. rewrite <- !list_fmap_compose. reflexivity.
Qed.

Lemma normalize_row_title (r : Row) :
  normalize_row r !! "title" = Some (VStr (identity_key r).1.1).
Proof.
  unfold normalize_row, identity_key, cell. simpl.
  rewrite lookup_insert_eq. rewrite !lookup_insert_ne by discriminate. reflexivity.
Qed.

Lemma normalize_row_created_at (r : Row) :
  normalize_row r !! "created_at" = Some (VStr (identity_key r).1.2).
Proof.
  unfold normalize_row, identity_key, cell. simpl.
  rewrite !lookup_insert_ne by discriminate. rewrite lookup_insert_eq. reflexivity.
Qed.

Lemma normalize_row_external_link (r : Row) :
  normalize_row r !! "external_link" = Some (VStr (identity_key r).2).
Proof.
  unfold normalize_row, identity_key, cell. simpl.
  rewrite lookup_insert_ne by discriminate. rewrite lookup_insert_eq.
  rewrite lookup_insert_ne by discriminate. reflexivity.
Qed.

Lemma normalize_row_other (r : Row) (column : string) :
  column ∉ key_columns -> normalize_row r !! column = r !! column.
Proof.
  intros Hc. unfold normalize_row. simpl.
  rewrite !lookup_insert_ne; [reflexivity| | |];
    intros <-; apply Hc; unfold key_columns; set_solver.
Qed.

Lemma entity_not_key : "entity" ∉ key_columns.
Proof.
  unfold key_columns. intros Hin.
  repeat (apply elem_of_cons in Hin as [Hin|Hin]; [discriminate|]).
  apply elem_of_nil in Hin. exact Hin.
Qed.

Lemma subset_of_normalize_row (r : Row) :
  subset_of key_columns (normalize_row r) =
  [VStr (identity_key r).1.1; VStr (identity_key r).1.2; VStr (identity_key r).2].
Proof.
  unfold subset_of, key_columns, cell. simpl.
  rewrite normalize_row_title, normalize_row_created_at, normalize_row_external_link.
  reflexivity.
Qed.

Lemma unique_key_normalize_row (r : Row) :
  unique_key (normalize_row r) = join_key (identity_key r).
Proof.
  unfold unique_key, join_key, cell.
  rewrite normalize_row_title, normalize_row_created_at, normalize_row_external_link.
  reflexivity.
Qed.

Lemma unique_key_subset (r r' : Row) :
  subset_of key_columns r = subset_of key_columns r' -> unique_key r = unique_key r'.
Proof.
  unfold subset_of, key_columns, unique_key. simpl. intros Heq.
  injection Heq as -> -> ->. reflexivity.
Qed.

Lemma mark_subset (existing_keys : list scalar) (r : Row) :
  subset_of key_columns (mark existing_keys r) = subset_of key_columns r.
Proof.
  unfold subset_of, key_columns, mark, cell. simpl.
  rewrite !lookup_insert_ne by discriminate. reflexivity.
Qed.

Lemma strip_aux_mark (existing_keys : list scalar) (r : Row) :
  strip_aux (mark existing_keys r) = strip_aux r.
Proof.
  unfold strip_aux, mark. simpl. apply map_eq. intros i.
  destruct (decide (i = "is_duplicate")) as [->|Hi1].
  { rewrite !lookup_delete_eq. reflexivity. }
  rewrite !(lookup_delete_ne _ "is_duplicate") by congruence.
  destruct (decide (i = "unique_key")) as [->|Hi2].
  { rewrite !lookup_delete_eq. reflexivity. }
  rewrite !(lookup_delete_ne _ "unique_key") by congruence.
  rewrite !lookup_insert_ne by congruence. reflexivity.
Qed.

Lemma existing_keys_eq (db_df : DataFrame) :
  (fun r => cell r "unique_key") <$> assign "unique_key" (fun r => VStr (unique_key r)) db_df
  = (fun r => VStr (unique_key r)) <$> db_df.
Proof.
  unfold assign. rewrite <- list_fmap_compose. apply list_fmap_ext.
  intros i r _. unfold compose, cell. rewrite lookup_insert_eq. reflexivity.
Qed.

Lemma mark_is_duplicate (db_df : DataFrame) (r : Row) :
  cell (mark ((fun r => VStr (unique_key r)) <$> db_df) r) "is_duplicate" = VBool false
  <-> unique_key r ∉ unique_key <$> db_df.
Proof.
  unfold mark, cell. cbv zeta. rewrite !lookup_insert_eq. simpl.
  split.
  - intros Hd Hin. injection Hd as Hd. apply bool_decide_eq_false in Hd. apply Hd.
    apply list_elem_of_fmap in Hin as (r' & Hk & Hr').
    apply list_elem_of_fmap. exists r'. split; [rewrite Hk; reflexivity|exact Hr'].
  - intros Hnot. f_equal. apply bool_decide_eq_false. intros Hin. apply Hnot.
    apply list_elem_of_fmap in Hin as (r' & Hk & Hr').
    apply list_elem_of_fmap. exists r'. split; [congruence|exact Hr'].
Qed.

Lemma identify_duplicates_cons (x : Row) (db_df entity_df : DataFrame) :
  (identify_duplicates (x :: db_df) entity_df).1 =
  mark ((fun r => VStr (unique_key r)) <$> (x :: db_df))
    <$> filter (fun r => unique_key r ∉ unique_key <$> (x :: db_df)) entity_df.
Proof.
  unfold identify_duplicates. cbv zeta. cbn [fst].
  rewrite existing_keys_eq.
  set (existing_keys := (fun r => VStr (unique_key r)) <$> (x :: db_df)).
  assert (Hmark : assign "is_duplicate"
            (fun r => VBool (bool_decide (cell r "unique_key" ∈ existing_keys)))
            (assign "unique_key" (fun r => VStr (unique_key r)) entity_df)
          = mark existing_keys <$> entity_df).
  { unfold assign. rewrite <- list_fmap_compose. reflexivity. }
  rewrite Hmark, filter_fmap. f_equal.
  apply list_filter_iff. intros r. apply mark_is_duplicate.
Qed.

(** Steps 2 to 6 in one formula: among the normalised candidates of the
    entity, the fresh ones, the first of every key, without the helper
    columns. *)
Lemma select_new_records_batch (db_df df : DataFrame) (entity : string) :
  (select_new_records db_df df entity).1 =
  strip_aux <$> drop_duplicates key_columns
    (filter (fresh db_df) (normalize (filter (fun r => cell r "entity" = VStr entity) df))).
Proof.
  unfold select_new_records.
  set (entity_df := normalize (filter (fun r => cell r "entity" = VStr entity) df)).
  destruct db_df as [|x db_df].
  - cbn [identify_duplicates fst]. unfold drop_column.
    rewrite <- list_fmap_compose. f_equal. f_equal.
    symmetry. clear. induction entity_df as [|r l IH]; [reflexivity|].
    rewrite filter_cons_True by (left; reflexivity). rewrite IH. reflexivity.
  - assert (Hnz : exists y l, normalize (x :: db_df) = y :: l).
    { rewrite normalize_fmap. rewrite fmap_cons. eauto. }
    destruct Hnz as (y & l & Hnz).
    assert (Hfresh : filter (fresh (x :: db_df)) entity_df
              = filter (fun r => unique_key r ∉ unique_key <$> (y :: l)) entity_df).
    { apply list_filter_iff. intros r. unfold fresh. rewrite Hnz.
      split; [intros [Hnil|Hnot]; [discriminate|exact Hnot]|intros Hnot; right; exact Hnot]. }
    rewrite Hfresh, Hnz.
    pose proof (identify_duplicates_cons y l entity_df) as Hid.
    destruct (identify_duplicates (y :: l) entity_df) as [new_records duplicates_found].
    cbn [fst] in Hid |- *. subst new_records.
    unfold drop_duplicates, drop_column.
    rewrite (drop_duplicates_seen_fmap _ _ _ (mark_subset _)).
    rewrite <- !list_fmap_compose.
    apply list_fmap_ext. intros i r _. apply strip_aux_mark.
Qed.
End Resolver.

Lemma stored_as_data (rows : list Row) : forall first_id, data <$> stored_as first_id rows = rows.
Proof.
  induction rows as [|r rows IH]; intros first_id; [reflexivity|].
  simpl. rewrite IH. reflexivity.
Qed.

Lemma table_append_row_eq (t : table_name) (r : StoredRow) (db : Database) :
  table t (append_row t r db) = table t db ++ [r].
Proof. destruct t; reflexivity. Qed.

Lemma table_append_row_ne (t t' : table_name) (r : StoredRow) (db : Database) :
  t' <> t -> table t' (append_row t r db) = table t' db.
Proof. destruct t, t'; intros Hne; try contradiction; reflexivity. Qed.

(** ** The columns of a frame *)

Lemma getitem_present (df : DataFrame) (column : string) (r : Row) :
  r ∈ df -> is_Some (r !! column) -> getitem df column = Return tt.
Proof.
  intros Hr Hsome. unfold getitem. rewrite bool_decide_eq_true_2; [reflexivity|].
  unfold columns_of. apply elem_of_union_list. exists (dom r). split.
  - apply list_elem_of_fmap. exists r. auto.
  - apply elem_of_dom. exact Hsome.
Qed.

(** A frame with a record of the entity has the column [entity]. *)
Lemma getitem_entity (df : DataFrame) (entity : string) :
  filter (fun r => cell r "entity" = VStr entity) df <> [] ->
  getitem df "entity" = Return tt.
Proof.
  intros Hne.
  destruct (filter (fun r => cell r "entity" = VStr entity) df) as [|r l] eqn:Hf;
    [contradiction|].
  assert (Hr : r ∈ filter (fun r => cell r "entity" = VStr entity) df)
    by (rewrite Hf; left).
  apply list_elem_of_filter in Hr as [Hent Hr].
  apply (getitem_present df "entity" r Hr).
  unfold cell in Hent. destruct (r !! "entity"); [eauto|discriminate].
Qed.

Lemma getitem_key_columns (df : DataFrame) :
  has_key_columns df ->
  getitem df "title" = Return tt /\ getitem df "created_at" = Return tt
  /\ getitem df "external_link" = Return tt.
Proof.
  unfold has_key_columns, key_columns. intros Hcols.
  inversion Hcols as [|? ? Ht Hcols1]; subst.
  inversion Hcols1 as [|? ? Hc Hcols2]; subst.
  inversion Hcols2 as [|? ? Hl _]; subst.
  unfold getitem. rewrite !bool_decide_eq_true_2 by assumption. auto.
Qed.

Lemma getitem_cases (df : DataFrame) (column : string) :
  getitem df column = Return tt \/ getitem df column = Raise (KeyError column).
Proof. unfold getitem. destruct (bool_decide _); auto. Qed.

Section ResolverFacts.
Context `{Pandas}.

(** *** A second run finds every candidate in the store *)

Lemma db_frame_data (entity : string) (db : Database) :
  db_frame entity db =
  summary_of <$> filter (fun r => r !! "entity" = Some (VStr entity))
                        (data <$> regulations_table db).
Proof.
  unfold db_frame, fetchall, DataFrame_of_rows.
  rewrite filter_fmap, <- !list_fmap_compose.
  assert (Hfil : filter (fun r => has_entity entity r = true) (regulations_table db)
                 = filter (fun r => data r !! "entity" = Some (VStr entity))
                          (regulations_table db)).
  { apply list_filter_iff. intros r. unfold has_entity. apply bool_decide_eq_true. }
  rewrite Hfil. apply list_fmap_ext. intros i r _. reflexivity.
Qed.

Lemma entity_cell_lookup (r : Row) (entity : string) :
  cell r "entity" = VStr entity -> r !! "entity" = Some (VStr entity).
Proof. unfold cell. destruct (r !! "entity"); simpl; [congruence|discriminate]. Qed.

Lemma strip_aux_lookup (r : Row) (column : string) :
  column <> "unique_key" -> column <> "is_duplicate" ->
  strip_aux r !! column = r !! column.
Proof.
  intros H1 H2. unfold strip_aux. rewrite !lookup_delete_ne by congruence. reflexivity.
Qed.

(** A normalised row that went through the store reads back with the same
    joined key. *)
Lemma summary_roundtrip (x : Row) :
  unique_key (normalize_row
                (summary_of (fillna VNone <$> strip_aux (normalize_row x))))
  = unique_key (normalize_row x).
Proof.
  rewrite !unique_key_normalize_row. f_equal.
  set (s := fillna VNone <$> strip_aux (normalize_row x)).
  assert (Ht : s !! "title" = Some (VStr (identity_key x).1.1)).
  { subst s. rewrite lookup_fmap, strip_aux_lookup by discriminate.
    rewrite normalize_row_title. reflexivity. }
  assert (Hc : s !! "created_at" = Some (VStr (identity_key x).1.2)).
  { subst s. rewrite lookup_fmap, strip_aux_lookup by discriminate.
    rewrite normalize_row_created_at. reflexivity. }
  assert (Hl : s !! "external_link" = Some (VStr (identity_key x).2)).
  { subst s. rewrite lookup_fmap, strip_aux_lookup by discriminate.
    rewrite normalize_row_external_link. reflexivity. }
  unfold identity_key at 1, summary_of, cell, summary_columns. simpl.
  rewrite lookup_insert_eq.
  rewrite lookup_insert_ne by discriminate. rewrite lookup_insert_eq.
  rewrite !lookup_insert_ne by discriminate. rewrite lookup_insert_eq.
  rewrite Ht, Hc, Hl. simpl.
  unfold identity_key. simpl. rewrite strip_idem. reflexivity.
Qed.

Lemma batch_row_shape (db_df df : DataFrame) (entity : string) (b : Row) :
  b ∈ (select_new_records db_df df entity).1 ->
  exists x, x ∈ df /\ cell x "entity" = VStr entity /\ fresh db_df (normalize_row x)
            /\ b = strip_aux (normalize_row x).
Proof.
  rewrite select_new_records_batch. intros Hb.
  apply list_elem_of_fmap in Hb as (y & -> & Hy).
  apply drop_duplicates_seen_sub in Hy as [Hy _].
  apply list_elem_of_filter in Hy as [Hfresh Hy].
  rewrite normalize_fmap in Hy. apply list_elem_of_fmap in Hy as (x & -> & Hx).
  apply list_elem_of_filter in Hx as [Hent Hx]. eauto.
Qed.

(** Once the batch of a first run is in the store, no candidate is fresh. *)
Lemma second_batch_empty (df : DataFrame) (entity : string) (db db' : Database) :
  data <$> regulations_table db'
    = (data <$> regulations_table db) ++ where_notnull (batch_for df entity db) ->
  batch_for df entity db' = [].
Proof.
  intros Hstore. unfold batch_for at 1. rewrite select_new_records_batch.
  rewrite (filter_none (fresh (db_frame entity db'))); [reflexivity|].
  intros r Hr Hfresh.
  assert (Hframe : db_frame entity db' =
            db_frame entity db ++
            (summary_of <$> filter (fun r => r !! "entity" = Some (VStr entity))
                                   (where_notnull (batch_for df entity db)))).
  { rewrite !db_frame_data, Hstore, filter_app, fmap_app. reflexivity. }
  destruct (decide (fresh (db_frame entity db) r)) as [Hf|Hnf].
  - (* fresh in the first run: its representative was inserted *)
    assert (Hin : r ∈ filter (fresh (db_frame entity db))
              (normalize (filter (fun r => cell r "entity" = VStr entity) df))).
    { apply list_elem_of_filter. split; assumption. }
    destruct (drop_duplicates_repr key_columns _ r Hin) as (y & Hy & Hk).
    assert (Hb : strip_aux y ∈ batch_for df entity db).
    { unfold batch_for. rewrite select_new_records_batch.
      apply list_elem_of_fmap. exists y. split; [reflexivity|exact Hy]. }
    destruct (batch_row_shape _ _ _ _ Hb) as (x & Hx & Hent & _ & Hbx).
    assert (Hyk : unique_key y = unique_key (normalize_row x)).
    { apply unique_key_subset.
      assert (Hs : forall z, subset_of key_columns (strip_aux z) = subset_of key_columns z).
      { intros z. unfold subset_of, key_columns, cell. simpl.
        rewrite !strip_aux_lookup by discriminate. reflexivity. }
      rewrite <- (Hs y), Hbx, Hs. reflexivity. }
    destruct Hfresh as [Hnil|Hnot].
    + rewrite Hframe in Hnil. apply app_eq_nil in Hnil as [_ Hnil].
      apply fmap_nil_inv in Hnil.
      eapply (filter_nil_not_elem_of _ _ (fillna VNone <$> strip_aux y)); [exact Hnil| |].
      * cbv beta. rewrite lookup_fmap, Hbx, strip_aux_lookup by discriminate.
        rewrite normalize_row_other by exact entity_not_key.
        rewrite (entity_cell_lookup _ _ Hent). reflexivity.
      * unfold where_notnull. apply list_elem_of_fmap.
        exists (strip_aux y). split; [reflexivity|exact Hb].
    + apply Hnot. rewrite Hframe, normalize_fmap, fmap_app, fmap_app.
      apply elem_of_app. right.
      apply list_elem_of_fmap.
      exists (normalize_row (summary_of (fillna VNone <$> strip_aux (normalize_row x)))).
      split.
      * rewrite summary_roundtrip, <- Hyk. symmetry. apply unique_key_subset. exact Hk.
      * apply list_elem_of_fmap. eexists. split; [reflexivity|].
        apply list_elem_of_fmap. eexists. split; [reflexivity|].
        apply list_elem_of_filter. split.
        -- cbv beta. rewrite lookup_fmap, strip_aux_lookup by discriminate.
           rewrite normalize_row_other by exact entity_not_key.
           rewrite (entity_cell_lookup _ _ Hent). reflexivity.
        -- unfold where_notnull. apply list_elem_of_fmap.
           exists (strip_aux (normalize_row x)). split; [reflexivity|].
           rewrite <- Hbx. exact Hb.
  - (* already in the store at the first run *)
    apply Hnf. destruct Hfresh as [Hnil|Hnot].
    + left. rewrite Hframe in Hnil. apply app_eq_nil in Hnil as [Hnil _]. exact Hnil.
    + right. intros Hin. apply Hnot.
      rewrite Hframe, normalize_fmap, fmap_app, fmap_app. apply elem_of_app. left.
      rewrite normalize_fmap in Hin. exact Hin.
Qed.
(** *** What the resolver keeps *)

Lemma strip_aux_subset (r : Row) :
  subset_of key_columns (strip_aux r) = subset_of key_columns r.
Proof.
  unfold subset_of, key_columns, cell. simpl.
  rewrite !strip_aux_lookup by discriminate. reflexivity.
Qed.

(** X22.  A candidate whose Identity Key is that of a stored record of the
    entity is dropped: no row of the batch has its key. *)
Lemma stored_duplicate_is_dropped (db_df df : DataFrame) (entity : string) (x s b : Row) :
  s ∈ db_df -> identity_key x = identity_key s ->
  b ∈ (select_new_records db_df df entity).1 ->
  subset_of key_columns b <> subset_of key_columns (normalize_row x).
Proof.
  intros Hs Hkey Hb Heq.
  destruct (batch_row_shape _ _ _ _ Hb) as (x' & _ & _ & Hfresh & ->).
  rewrite strip_aux_subset in Heq. apply unique_key_subset in Heq.
  destruct Hfresh as [Hnil|Hnot].
  - subst db_df. apply elem_of_nil in Hs. exact Hs.
  - apply Hnot. rewrite Heq, normalize_fmap.
    apply list_elem_of_fmap. exists (normalize_row s). split.
    + rewrite !unique_key_normalize_row, Hkey. reflexivity.
    + apply list_elem_of_fmap. exists s. split; [reflexivity|exact Hs].
Qed.

(** X23.  No two rows of the batch handed to [bulk_insert] agree on title,
    creation date and link. *)
Lemma batch_keys_distinct (db_df df : DataFrame) (entity : string) :
  NoDup (subset_of key_columns <$> (select_new_records db_df df entity).1).
Proof.
  rewrite select_new_records_batch, <- list_fmap_compose.
  erewrite list_fmap_ext; [apply drop_duplicates_seen_NoDup|].
  intros i r _. apply strip_aux_subset.
Qed.

(** X24.  The batch keeps the order of the input: it is a subsequence of the
    normalised records of the entity. *)
Lemma batch_in_order (db_df df : DataFrame) (entity : string) :
  sublist (select_new_records db_df df entity).1
          ((fun r => strip_aux (normalize_row r))
             <$> filter (fun r => cell r "entity" = VStr entity) df).
Proof.
  rewrite select_new_records_batch.
  assert (Heq : forall l : DataFrame,
            (fun r => strip_aux (normalize_row r)) <$> l = strip_aux <$> normalize l).
  { intros l. rewrite normalize_fmap, <- list_fmap_compose. reflexivity. }
  rewrite Heq. apply fmap_sublist. etrans; [apply drop_duplicates_seen_sublist|].
  apply sublist_filter.
Qed.

(** X25.  In a frame that has the columns of the Identity Key, the column
    lookups of steps 2 and 3 succeed, and a candidate whose joined key is
    not in the store has a representative in the batch: a row with its
    title, creation date and link. *)
Lemma fresh_candidate_is_kept (db_df df : DataFrame) (entity : string) (x : Row) :
  has_key_columns df ->
  x ∈ df -> cell x "entity" = VStr entity -> fresh db_df (normalize_row x) ->
  Forall (fun column => getitem df column = Return tt) ("entity" :: key_columns)
  /\ exists b, b ∈ (select_new_records db_df df entity).1
               /\ subset_of key_columns b = subset_of key_columns (normalize_row x).
Proof.
  intros Hcols Hx Hent Hfresh. split.
  { destruct (getitem_key_columns df Hcols) as (Ht & Hc & Hl).
    repeat constructor; try assumption.
    apply (getitem_present df "entity" x Hx).
    unfold cell in Hent. destruct (x !! "entity"); [eauto|discriminate]. }
  rewrite select_new_records_batch.
  assert (Hin : normalize_row x ∈ filter (fresh db_df)
            (normalize (filter (fun r => cell r "entity" = VStr entity) df))).
  { apply list_elem_of_filter. split; [exact Hfresh|].
    rewrite normalize_fmap. apply list_elem_of_fmap. exists x. split; [reflexivity|].
    apply list_elem_of_filter. split; assumption. }
  destruct (drop_duplicates_repr key_columns _ _ Hin) as (y & Hy & Hk).
  exists (strip_aux y). split.
  - apply list_elem_of_fmap. exists y. split; [reflexivity|exact Hy].
  - rewrite strip_aux_subset. exact Hk.
Qed.

(** C2 (evaluation at the failing input).  The stored record and the
    candidate differ in title, date and link, so the candidate is new; yet
    step 4 joins both to the same text and the candidate is dropped as a
    duplicate of the stored record: nothing is left to insert. *)
Theorem joined_key_drops_new_record :
  let stored :=
    regulation (VStr "Decreto 1") (VStr "2024-05-05") (VStr "http://a|2024-01-01|http://b")
      ENTITY_VALUE in
  let candidate :=
    regulation (VStr "Decreto 1|2024-05-05|http://a") (VStr "2024-01-01") (VStr "http://b")
      ENTITY_VALUE in
  identity_key stored = ("Decreto 1", "2024-05-05", "http://a|2024-01-01|http://b")
  /\ identity_key candidate = ("Decreto 1|2024-05-05|http://a", "2024-01-01", "http://b")
  /\ unique_key (normalize_row stored) = "Decreto 1|2024-05-05|http://a|2024-01-01|http://b"
  /\ unique_key (normalize_row candidate) = "Decreto 1|2024-05-05|http://a|2024-01-01|http://b"
  /\ select_new_records [stored] [candidate] ENTITY_VALUE = ([], 1%nat).
Proof. repeat split. Qed.

(** C10.  The key that step 4 compares with the store is the three parts
    of the Identity Key joined with "|", and the joining is not injective:
    there are a candidate and a stored record that differ in each of the
    three parts, whose joined keys are equal, and the candidate is counted
    as a duplicate of the stored record and dropped. *)
Theorem unique_key_not_injective :
  (forall r, unique_key (normalize_row r) =
             (identity_key r).1.1 +:+ "|" +:+ (identity_key r).1.2 +:+ "|"
             +:+ (identity_key r).2)
  /\ exists candidate stored : Row,
       (identity_key candidate).1.1 <> (identity_key stored).1.1
       /\ (identity_key candidate).1.2 <> (identity_key stored).1.2
       /\ (identity_key candidate).2 <> (identity_key stored).2
       /\ unique_key (normalize_row candidate) = unique_key (normalize_row stored)
       /\ identify_duplicates (normalize [stored]) (normalize [candidate]) = ([], 1%nat)
       /\ select_new_records [stored] [candidate] ENTITY_VALUE = ([], 1%nat).
Proof.
  split; [intros r; apply unique_key_normalize_row|].
  exists (regulation (VStr "a|b") (VStr "c") (VStr "d|e") ENTITY_VALUE),
         (regulation (VStr "a") (VStr "b|c|d") (VStr "e") ENTITY_VALUE).
  repeat split; discriminate.
Qed.
End ResolverFacts.
(** ** Transactions *)

Lemma stored_as_length (rows : list Row) :
  forall first_id, List.length (stored_as first_id rows) = List.length rows.
Proof. induction rows as [|r rows IH]; intros first_id; simpl; [|rewrite IH]; reflexivity. Qed.

Lemma where_notnull_length (df : DataFrame) : List.length (where_notnull df) = List.length df.
Proof. unfold where_notnull. apply length_fmap. Qed.

Lemma set_connection_same (w : World) (c : Connection) :
  connection w = c -> set_connection c w = w.
Proof. destruct w as [d c0 n]. simpl. intros ->. reflexivity. Qed.

Lemma session_usable (w : World) (txn : Database) :
  session w = Some txn <-> connection w = usable txn.
Proof.
  unfold session. destruct (connection w); split; intros Heq; congruence.
Qed.

Section Transactions.
Context `{Postgres}.

(** The insertions of [executemany], one after the other: either the server
    takes every row, and the transaction holds them after what it held; or
    the first failure is raised. *)
Lemma execute_inserts_spec (t : table_name) (rows : list Row) :
  forall (w : World) (txn : Database),
    connection w = usable txn ->
    match first_failure t txn (next_id w) rows with
    | None =>
        exists txn',
          execute_inserts t rows w
          = (Return tt, {| durable := durable w; connection := usable txn';
                           next_id := next_id w + Z.of_nat (List.length rows) |})
          /\ table t txn' = table t txn ++ stored_as (next_id w) rows
          /\ forall t', t' <> t -> table t' txn' = table t' txn
    | Some f =>
        exists txn' next,
          execute_inserts t rows w
          = (Raise (DatabaseError (reason f)),
             {| durable := durable w; connection := after_failure f txn'; next_id := next |})
    end.
Proof.
  induction rows as [|r rows IH]; intros w txn Hc.
  - simpl. exists txn. rewrite app_nil_r, Z.add_0_r. split; [|auto].
    destruct w as [d c n]. simpl in *. subst c. reflexivity.
  - simpl. unfold mbind, M_bind, execute_insert. rewrite Hc.
    destruct (insert_error t txn r) as [f|].
    + exists txn, (next_id w). reflexivity.
    + match goal with
      | |- context [execute_inserts t rows ?w1] =>
          specialize (IH w1 (append_row t {| id := next_id w; data := r |} txn) eq_refl)
      end.
      simpl in IH.
      destruct (first_failure t _ (next_id w + 1) rows) as [f|].
      * exact IH.
      * destruct IH as (txn' & Hrun & Ht & Hother). exists txn'. split; [|split].
        -- rewrite Hrun. do 2 f_equal. lia.
        -- rewrite Ht, table_append_row_eq, <- app_assoc. reflexivity.
        -- intros t' Hne. rewrite (Hother t' Hne). apply table_append_row_ne. exact Hne.
Qed.

(** [bulk_insert] on an open connection. *)
Lemma bulk_insert_spec (df : DataFrame) (t : table_name) (w : World) (txn : Database) :
  connection w = usable txn ->
  match first_failure t txn (next_id w) (where_notnull df) with
  | None =>
      exists txn',
        bulk_insert df t w
        = (Return (List.length df),
           {| durable := txn'; connection := usable txn';
              next_id := next_id w + Z.of_nat (List.length df) |})
        /\ table t txn' = table t txn ++ stored_as (next_id w) (where_notnull df)
        /\ forall t', t' <> t -> table t' txn' = table t' txn
  | Some f =>
      exists next,
        bulk_insert df t w
        = (Raise (if connection_lost f
                  then DatabaseError "connection already closed"
                  else RuntimeError ("Error insertando en " +:+ table_name_str t +:+ ": "
                                     +:+ reason f)),
           {| durable := durable w;
              connection := if connection_lost f then unusable else usable (durable w);
              next_id := next |})
  end.
Proof.
  intros Hc. unfold bulk_insert. rewrite Hc.
  unfold try_except, mbind, M_bind, executemany. rewrite Hc.
  pose proof (execute_inserts_spec t (where_notnull df) w txn Hc) as Hex.
  destruct (first_failure t txn (next_id w) (where_notnull df)) as [f|].
  - destruct Hex as (txn' & next & ->). exists next.
    unfold rollback, raise, after_failure. simpl.
    destruct (connection_lost f); reflexivity.
  - destruct Hex as (txn' & -> & Ht & Hother). exists txn'.
    rewrite where_notnull_length. split; [reflexivity|]. auto.
Qed.

Lemma bulk_insert_no_connection (df : DataFrame) (t : table_name) (w : World) :
  connection w = no_connection ->
  bulk_insert df t w = (Raise (RuntimeError "Base de datos no conectada"), w).
Proof. intros Hc. unfold bulk_insert. rewrite Hc. reflexivity. Qed.

Lemma bulk_insert_unusable (df : DataFrame) (t : table_name) (w : World) :
  connection w = unusable ->
  bulk_insert df t w = (Raise (DatabaseError "connection already closed"), w).
Proof.
  intros Hc. unfold bulk_insert. rewrite Hc.
  unfold try_except, mbind, M_bind, executemany, rollback. rewrite !Hc. reflexivity.
Qed.

(** When [bulk_insert] returns, it returns the number of rows of the batch,
    no row of it was refused, and the committed table is what the
    transaction held followed by every row of the batch. *)
Lemma bulk_insert_returns (df : DataFrame) (t : table_name) (w w' : World) (n : nat) :
  bulk_insert df t w = (Return n, w') ->
  n = List.length df
  /\ exists txn, connection w = usable txn
       /\ first_failure t txn (next_id w) (where_notnull df) = None
       /\ connection w' = usable (durable w')
       /\ table t (durable w') = table t txn ++ stored_as (next_id w) (where_notnull df)
       /\ forall t', t' <> t -> table t' (durable w') = table t' txn.
Proof.
  intros Hrun. destruct (connection w) as [|txn|] eqn:Hc.
  - rewrite (bulk_insert_no_connection df t w Hc) in Hrun. discriminate.
  - pose proof (bulk_insert_spec df t w txn Hc) as Hspec.
    destruct (first_failure t txn (next_id w) (where_notnull df)) as [f|] eqn:Hff.
    + destruct Hspec as (next & Hspec). rewrite Hspec in Hrun. discriminate.
    + destruct Hspec as (txn' & Hspec & Ht & Hother). rewrite Hspec in Hrun.
      injection Hrun as <- <-. split; [reflexivity|]. exists txn. simpl.
      split; [reflexivity|]. split; [exact Hff|]. split; [reflexivity|]. split; assumption.
  - rewrite (bulk_insert_unusable df t w Hc) in Hrun. discriminate.
Qed.

(** When [bulk_insert] raises, the committed contents are those from before
    the call and the transaction holds nothing else. *)
Lemma bulk_insert_raises (df : DataFrame) (t : table_name) (w w' : World) (e : exn) :
  bulk_insert df t w = (Raise e, w') ->
  durable w' = durable w
  /\ ((connection w = no_connection /\ w' = w
       /\ e = RuntimeError "Base de datos no conectada")
      \/ (connection w <> no_connection /\ connection w' = unusable
          /\ e = DatabaseError "connection already closed")
      \/ (is_Some (session w) /\ connection w' = usable (durable w')
          /\ exists message,
               e = RuntimeError ("Error insertando en " +:+ table_name_str t +:+ ": "
                                 +:+ message))).
Proof.
  intros Hrun. destruct (connection w) as [|txn|] eqn:Hc.
  - rewrite (bulk_insert_no_connection df t w Hc) in Hrun. injection Hrun as <- <-.
    split; [reflexivity|]. left. auto.
  - pose proof (bulk_insert_spec df t w txn Hc) as Hspec.
    destruct (first_failure t txn (next_id w) (where_notnull df)) as [f|].
    + destruct Hspec as (next & Hspec). rewrite Hspec in Hrun. injection Hrun as <- <-.
      split; [reflexivity|]. right. destruct (connection_lost f).
      * left. split; [discriminate|]. auto.
      * right. split; [unfold session; rewrite Hc; eauto|]. split; [reflexivity|]. eauto.
    + destruct Hspec as (txn' & Hspec & _). rewrite Hspec in Hrun. discriminate.
  - rewrite (bulk_insert_unusable df t w Hc) in Hrun. injection Hrun as <- <-.
    split; [reflexivity|]. right. left. split; [discriminate|]. auto.
Qed.

(** C3.  [bulk_insert] is all or nothing.  On an open connection, when the
    server takes every row of the batch, [bulk_insert] returns the number of
    rows and every row of the batch is committed, after what the transaction
    held.  When the insertion of a row fails, [bulk_insert] raises, the
    committed contents are those from before the call and the transaction is
    rolled back, so that no row of the batch is committed, then or later:
    the error raised is the [RuntimeError] that carries the message of the
    failure, or, when the failure took the connection away, the error of the
    rollback.  Without a connection, or on a closed one, [bulk_insert] raises
    and touches nothing. *)
Theorem bulk_insert_atomic (df : DataFrame) (t : table_name) (w : World) :
  match connection w with
  | no_connection =>
      bulk_insert df t w = (Raise (RuntimeError "Base de datos no conectada"), w)
  | unusable =>
      bulk_insert df t w = (Raise (DatabaseError "connection already closed"), w)
  | usable txn =>
      match first_failure t txn (next_id w) (where_notnull df) with
      | None =>
          exists w',
            bulk_insert df t w = (Return (List.length df), w')
            /\ session w' = Some (durable w')
            /\ table t (durable w') = table t txn ++ stored_as (next_id w) (where_notnull df)
            /\ forall t', t' <> t -> table t' (durable w') = table t' txn
      | Some f =>
          exists w',
            bulk_insert df t w
            = (Raise (if connection_lost f
                      then DatabaseError "connection already closed"
                      else RuntimeError ("Error insertando en " +:+ table_name_str t +:+ ": "
                                         +:+ reason f)), w')
            /\ durable w' = durable w
            /\ session w' = (if connection_lost f then None else Some (durable w))
      end
  end.
Proof.
  destruct (connection w) as [|txn|] eqn:Hc.
  - apply bulk_insert_no_connection. exact Hc.
  - pose proof (bulk_insert_spec df t w txn Hc) as Hspec.
    destruct (first_failure t txn (next_id w) (where_notnull df)) as [f|].
    + destruct Hspec as (next & ->). eexists. split; [reflexivity|].
      split; [reflexivity|]. unfold session. simpl. destruct (connection_lost f); reflexivity.
    + destruct Hspec as (txn' & -> & Ht & Hother). eexists. split; [reflexivity|].
      unfold session. simpl. auto.
  - apply bulk_insert_unusable. exact Hc.
Qed.
End Transactions.

(** ** The write stage *)

Section WriteStage.
Context `{Pandas} `{Postgres}.

Lemma first_failure_accepted (t : table_name) :
  (forall db r, insert_error t db r = None) ->
  forall rows db next, first_failure t db next rows = None.
Proof.
  intros Hok. induction rows as [|r rows IH]; intros db next; [reflexivity|].
  simpl. rewrite Hok. apply IH.
Qed.

(** The handler of [insert_new_records]: it returns, unless the connection
    is closed or lost, in which case its rollback raises. *)
Lemma handle_error_spec (entity : string) (e : exn) (w : World) :
  handle_error entity e w =
  match connection w with
  | no_connection =>
      (Return (0%nat, "Error procesando entidad " +:+ entity +:+ ": " +:+ exn_str e), w)
  | usable _ =>
      (Return (0%nat, "Error procesando entidad " +:+ entity +:+ ": " +:+ exn_str e),
       set_connection (usable (durable w)) w)
  | unusable => (Raise (DatabaseError "connection already closed"), w)
  end.
Proof.
  unfold handle_error, mbind, M_bind, rollback_if_connected, rollback.
  destruct (connection w) eqn:Hc; rewrite ?Hc; reflexivity.
Qed.

Lemma select_new_records_nil (db_df df : DataFrame) (entity : string) :
  filter (fun r => cell r "entity" = VStr entity) df = [] ->
  (select_new_records db_df df entity).1 = [].
Proof.
  intros Hnil. unfold select_new_records. rewrite Hnil.
  destruct db_df as [|r0 db_df]; reflexivity.
Qed.

(** Step 7 in terms of what [bulk_insert] does. *)
Lemma insert_batch_unfold (new_records : DataFrame) (entity : string) (w : World) :
  insert_batch new_records entity w =
  match bulk_insert new_records regulations w with
  | (Return total_rows, w') =>
      (Return (if (total_rows =? 0)%nat
               then inl (0%nat, "No se insertaron registros para " +:+ entity)
               else inr total_rows), w')
  | (Raise insert_error, w') =>
      if mentions_duplicate (exn_str insert_error)
      then (Return (inl (0%nat, "Algunos registros de " +:+ entity
                                +:+ " eran duplicados y se omitieron")), w')
      else (Raise insert_error, w')
  end.
Proof.
  unfold insert_batch, try_except, mbind, M_bind.
  destruct (bulk_insert new_records regulations w) as [[total_rows|e] w'].
  - destruct (total_rows =? 0)%nat; reflexivity.
  - destruct (mentions_duplicate (exn_str e)); reflexivity.
Qed.

(** [insert_regulations_component] catches whatever its insertion raises,
    and does not touch the table of regulations. *)
Lemma insert_regulations_component_spec (new_ids : list scalar) (w : World) :
  connection w = usable (durable w) ->
  exists n message w',
    insert_regulations_component new_ids w = (Return (n, message), w')
    /\ regulations_table (durable w') = regulations_table (durable w)
    /\ (connection w' = usable (durable w') \/ connection w' = unusable).
Proof.
  intros Hc. unfold insert_regulations_component. destruct new_ids as [|i new_ids].
  - eexists _, _, w. split; [reflexivity|]. auto.
  - unfold try_except, mbind, M_bind.
    match goal with
    | |- context [bulk_insert ?df regulations_component w] =>
        destruct (bulk_insert df regulations_component w) as [[n|e] w'] eqn:Hrun
    end.
    + destruct (bulk_insert_returns _ _ _ _ _ Hrun) as (_ & txn & Htxn & _ & Hc' & _ & Hother).
      rewrite Hc in Htxn. injection Htxn as <-.
      eexists _, _, w'. split; [reflexivity|]. split; [|auto].
      apply (Hother regulations). discriminate.
    + destruct (bulk_insert_raises _ _ _ _ _ Hrun) as (Hd & Hcases).
      eexists _, _, w'. split; [reflexivity|]. rewrite Hd. split; [reflexivity|].
      destruct Hcases as [(Hno & _)|[(_ & Hun & _)|(_ & Hus & _)]]; [congruence|auto|].
      left. rewrite Hus, Hd. reflexivity.
Qed.

(** Steps 8 to 10: when the query for the identifiers fails, its error is
    raised; else the count of step 7 is returned, and the table of
    regulations is as step 7 left it. *)
Lemma link_components_spec (entity : string) (total_rows processed existing dups : nat)
    (w : World) :
  connection w = usable (durable w) ->
  match query_error (select_new_ids entity total_rows) (durable w) with
  | Some f =>
      link_components entity total_rows processed existing dups w
      = (Raise (DatabaseError (reason f)),
         set_connection (after_failure f (durable w)) w)
  | None =>
      exists message w',
        link_components entity total_rows processed existing dups w
        = (Return (total_rows, message), w')
        /\ regulations_table (durable w') = regulations_table (durable w)
        /\ (connection w' = usable (durable w') \/ connection w' = unusable)
  end.
Proof.
  intros Hc. unfold link_components, mbind, M_bind, execute_query, cursor_execute.
  rewrite Hc.
  destruct (query_error (select_new_ids entity total_rows) (durable w)) as [f|];
    [reflexivity|].
  destruct ((fun row : list scalar => default VNone (row !! 0%nat)) <$>
            fetchall (select_new_ids entity total_rows) (durable w)) as [|i new_ids] eqn:Hids.
  - eexists _, w. split; [reflexivity|]. auto.
  - unfold try_except.
    destruct (insert_regulations_component_spec (i :: new_ids) w Hc)
      as (n & message & w' & Hrun & Hregs & Hc').
    rewrite Hrun. eexists _, w'. split; [reflexivity|]. auto.
Qed.

(** *** The paths through [insert_new_records] *)

Lemma insert_new_records_no_connection (df : DataFrame) (entity : string) (w : World) :
  connection w = no_connection ->
  insert_new_records df entity w
  = (Return (0%nat, "Error procesando entidad " +:+ entity
                    +:+ ": Base de datos no conectada"), w).
Proof.
  intros Hc. unfold insert_new_records, try_except, mbind, M_bind, execute_query.
  rewrite Hc, handle_error_spec, Hc. reflexivity.
Qed.

Lemma insert_new_records_unusable (df : DataFrame) (entity : string) (w : World) :
  connection w = unusable ->
  insert_new_records df entity w = (Raise (DatabaseError "connection already closed"), w).
Proof.
  intros Hc. unfold insert_new_records, try_except, mbind, M_bind, execute_query,
    cursor_execute.
  rewrite Hc, handle_error_spec, Hc. reflexivity.
Qed.

Lemma insert_new_records_query_fails (df : DataFrame) (entity : string) (w : World)
    (txn : Database) (f : failure) :
  connection w = usable txn ->
  query_error (select_existing entity) txn = Some f ->
  insert_new_records df entity w
  = handle_error entity (DatabaseError (reason f))
      (set_connection (after_failure f txn) w).
Proof.
  intros Hc Hq. unfold insert_new_records, try_except, mbind, M_bind, execute_query,
    cursor_execute.
  rewrite Hc, Hq. reflexivity.
Qed.

(** With nothing to insert, or without the columns that step 3 reads,
    [insert_new_records] returns 0 and leaves the world as it is. *)
Lemma insert_new_records_nothing_new (df : DataFrame) (entity : string) (w : World) :
  connection w = usable (durable w) ->
  query_error (select_existing entity) (durable w) = None ->
  batch_for df entity (durable w) = [] \/ ~ has_key_columns df ->
  exists message, insert_new_records df entity w = (Return (0%nat, message), w).
Proof.
  intros Hc Hq Hcase.
  assert (Hhandle : forall e, exists message,
            handle_error entity e w = (Return (0%nat, message), w)).
  { intros e. rewrite handle_error_spec, Hc, (set_connection_same w _ Hc). eauto. }
  unfold insert_new_records, try_except, mbind, M_bind, execute_query, cursor_execute, lift.
  rewrite Hc, Hq.
  destruct (getitem_cases df "entity") as [-> | ->]; [|apply Hhandle].
  destruct (filter (fun r : Row => cell r "entity" = VStr entity) df) as [|r0 entity_df] eqn:Hf;
    [eauto|].
  destruct (getitem_cases df "created_at") as [Hg1 | ->]; [|apply Hhandle].
  destruct (getitem_cases df "external_link") as [Hg2 | ->]; [|rewrite Hg1; apply Hhandle].
  destruct (getitem_cases df "title") as [Hg3 | ->]; [|rewrite Hg1, Hg2; apply Hhandle].
  rewrite Hg1, Hg2, Hg3.
  destruct Hcase as [Hb | Hno].
  - unfold batch_for, db_frame, summary_columns in Hb.
    destruct (select_new_records _ df entity) as [new_records total_duplicates].
    simpl in Hb. subst new_records. eauto.
  - exfalso. apply Hno. unfold has_key_columns, key_columns.
    unfold getitem in Hg1, Hg2, Hg3.
    repeat constructor.
    + destruct (decide ("title" ∈ columns_of df)) as [Hin|Hout]; [exact Hin|].
      rewrite bool_decide_eq_false_2 in Hg3 by exact Hout. discriminate.
    + destruct (decide ("created_at" ∈ columns_of df)) as [Hin|Hout]; [exact Hin|].
      rewrite bool_decide_eq_false_2 in Hg1 by exact Hout. discriminate.
    + destruct (decide ("external_link" ∈ columns_of df)) as [Hin|Hout]; [exact Hin|].
      rewrite bool_decide_eq_false_2 in Hg2 by exact Hout. discriminate.
Qed.

(** With a batch to insert, [insert_new_records] is step 7 followed by
    steps 8 to 10, under its handler. *)
Lemma insert_new_records_batch (df : DataFrame) (entity : string) (w : World)
    (txn : Database) :
  connection w = usable txn ->
  query_error (select_existing entity) txn = None ->
  has_key_columns df ->
  batch_for df entity txn <> [] ->
  exists processed existing dups,
    insert_new_records df entity w =
    match insert_batch (batch_for df entity txn) entity w with
    | (Return (inl result), w1) => (Return result, w1)
    | (Return (inr total_rows), w1) =>
        match link_components entity total_rows processed existing dups w1 with
        | (Return result, w2) => (Return result, w2)
        | (Raise e, w2) => handle_error entity e w2
        end
    | (Raise e, w1) => handle_error entity e w1
    end.
Proof.
  intros Hc Hq Hcols Hb.
  assert (Hf : filter (fun r : Row => cell r "entity" = VStr entity) df <> []).
  { intros Hnil. apply Hb. apply select_new_records_nil. exact Hnil. }
  destruct (getitem_key_columns df Hcols) as (Hg3 & Hg1 & Hg2).
  unfold insert_new_records, try_except, mbind, M_bind, execute_query, cursor_execute, lift.
  rewrite Hc, Hq, (getitem_entity df entity Hf).
  destruct (filter (fun r : Row => cell r "entity" = VStr entity) df) as [|r0 entity_df];
    [contradiction|].
  rewrite Hg1, Hg2, Hg3.
  unfold batch_for, db_frame, summary_columns in Hb |- *.
  destruct (select_new_records _ df entity) as [new_records total_duplicates].
  simpl in Hb |- *. destruct new_records as [|r1 new_records]; [contradiction|].
  eexists _, _, _.
  destruct (insert_batch (r1 :: new_records) entity w) as [[[result|k]|e] w1]; reflexivity.
Qed.

(** What [insert_new_records] does when the insertion of its batch
    raises. *)
Lemma insert_new_records_on_failure (df : DataFrame) (entity : string) (w w' : World)
    (txn : Database) (e : exn) :
  connection w = usable txn ->
  query_error (select_existing entity) txn = None ->
  has_key_columns df ->
  batch_for df entity txn <> [] ->
  bulk_insert (batch_for df entity txn) regulations w = (Raise e, w') ->
  insert_new_records df entity w =
    if mentions_duplicate (exn_str e)
    then (Return (0%nat, "Algunos registros de " +:+ entity
                         +:+ " eran duplicados y se omitieron"), w')
    else handle_error entity e w'.
Proof.
  intros Hc Hq Hcols Hb Hins.
  destruct (insert_new_records_batch df entity w txn Hc Hq Hcols Hb)
    as (processed & existing & dups & ->).
  rewrite insert_batch_unfold, Hins.
  destruct (mentions_duplicate (exn_str e)); reflexivity.
Qed.

(** C5.  When the insertion of the batch fails with an error whose message
    mentions a duplicate or unique violation, [insert_new_records] does not
    raise: it returns the count 0 with the message that says that some
    records of the entity were duplicates and were left out, and nothing of
    the batch is committed.  It returns the count 0 for every other error
    too, as long as the connection is still usable. *)
Theorem duplicate_violation_reports_zero (df : DataFrame) (entity : string) (w w' : World)
    (txn : Database) (e : exn) :
  session w = Some txn ->
  query_error (select_existing entity) txn = None ->
  has_key_columns df ->
  batch_for df entity txn <> [] ->
  bulk_insert (batch_for df entity txn) regulations w = (Raise e, w') ->
  (mentions_duplicate (exn_str e) = true \/ is_Some (session w') ->
   exists message, insert_new_records df entity w = (Return (0%nat, message), w'))
  /\ (mentions_duplicate (exn_str e) = true ->
      insert_new_records df entity w =
        (Return (0%nat,
                 "Algunos registros de " +:+ entity +:+ " eran duplicados y se omitieron"), w'))
  /\ durable w' = durable w.
Proof.
  intros Hs Hq Hcols Hb Hins. apply session_usable in Hs.
  pose proof (insert_new_records_on_failure df entity w w' txn e Hs Hq Hcols Hb Hins) as Hrun.
  destruct (bulk_insert_raises _ _ _ _ _ Hins) as (Hd & Hcases).
  split; [|split; [|exact Hd]].
  - rewrite Hrun. destruct (mentions_duplicate (exn_str e)); [eauto|].
    intros [Hdup|[txn' Hs']]; [discriminate|].
    apply session_usable in Hs'. rewrite handle_error_spec, Hs'.
    destruct Hcases as [(Hno & _)|[(_ & Hun & _)|(_ & Hus & _)]]; [congruence|congruence|].
    rewrite Hs' in Hus. injection Hus as ->.
    rewrite (set_connection_same w' _ Hs'). eauto.
  - intros Hdup. rewrite Hrun, Hdup. reflexivity.
Qed.

(** C4, amended.  When the insertion of the batch fails with any other
    error, nothing of the batch is committed and the error is not re-raised
    to the caller.  As long as the connection is usable, the transaction is
    rolled back and [insert_new_records] returns the count 0 with the error
    in its message.  When the connection is lost, the rollback of the
    handler raises, and it is that error that leaves [insert_new_records]. *)
Theorem other_insert_error_is_reported (df : DataFrame) (entity : string) (w w' : World)
    (txn : Database) (e : exn) :
  session w = Some txn ->
  query_error (select_existing entity) txn = None ->
  has_key_columns df ->
  batch_for df entity txn <> [] ->
  bulk_insert (batch_for df entity txn) regulations w = (Raise e, w') ->
  mentions_duplicate (exn_str e) = false ->
  durable w' = durable w
  /\ match session w' with
     | Some _ =>
         insert_new_records df entity w =
           (Return (0%nat, "Error procesando entidad " +:+ entity +:+ ": " +:+ exn_str e), w')
         /\ session w' = Some (durable w')
     | None =>
         insert_new_records df entity w
         = (Raise (DatabaseError "connection already closed"), w')
     end.
Proof.
  intros Hs Hq Hcols Hb Hins Hdup. apply session_usable in Hs.
  rewrite (insert_new_records_on_failure df entity w w' txn e Hs Hq Hcols Hb Hins), Hdup.
  destruct (bulk_insert_raises _ _ _ _ _ Hins) as (Hd & Hcases).
  split; [exact Hd|]. rewrite handle_error_spec. unfold session.
  destruct Hcases as [(Hno & _)|[(_ & Hun & _)|(_ & Hus & _)]]; [congruence| |].
  - rewrite Hun. reflexivity.
  - rewrite Hus. rewrite (set_connection_same w' _ Hus). auto.
Qed.

(** *** A first run, and a second one *)

(** The table after step 7, in terms of the rows of the batch. *)
Lemma stored_batch_data (db db' : Database) (first_id : Z) (rows : list Row) :
  regulations_table db' = regulations_table db ++ stored_as first_id rows ->
  data <$> regulations_table db' = (data <$> regulations_table db) ++ rows.
Proof. intros ->. rewrite fmap_app, stored_as_data. reflexivity. Qed.

(** When the server answers the queries and takes the batch,
    [insert_new_records] returns the size of the batch and the table has
    grown by exactly its rows. *)
Lemma insert_new_records_inserts (df : DataFrame) (entity : string) (w : World) :
  connection w = usable (durable w) ->
  has_key_columns df ->
  query_error (select_existing entity) (durable w) = None ->
  (forall db, query_error
                (select_new_ids entity (List.length (batch_for df entity (durable w)))) db
              = None) ->
  first_failure regulations (durable w) (next_id w)
    (where_notnull (batch_for df entity (durable w))) = None ->
  batch_for df entity (durable w) <> [] ->
  exists message w1,
    insert_new_records df entity w
      = (Return (List.length (batch_for df entity (durable w)), message), w1)
    /\ regulations_table (durable w1)
       = regulations_table (durable w)
         ++ stored_as (next_id w) (where_notnull (batch_for df entity (durable w)))
    /\ (connection w1 = usable (durable w1) \/ connection w1 = unusable).
Proof.
  intros Hc Hcols Hq Hq2 Hok Hb.
  destruct (insert_new_records_batch df entity w _ Hc Hq Hcols Hb)
    as (processed & existing & dups & ->).
  rewrite insert_batch_unfold.
  pose proof (bulk_insert_spec (batch_for df entity (durable w)) regulations w _ Hc) as Hspec.
  rewrite Hok in Hspec. destruct Hspec as (txn' & -> & Ht & _).
  assert (Hlen : (List.length (batch_for df entity (durable w)) =? 0)%nat = false).
  { apply Nat.eqb_neq. intros Hz. apply Hb. apply nil_length_inv. exact Hz. }
  rewrite Hlen.
  match goal with
  | |- context [link_components ?a ?b ?c ?d ?e ?w1] =>
      pose proof (link_components_spec a b c d e w1 eq_refl) as Hlink
  end.
  simpl durable in Hlink. rewrite Hq2 in Hlink.
  destruct Hlink as (message & w2 & -> & Hregs & Hc2).
  exists message, w2. split; [reflexivity|]. split; [|exact Hc2].
  rewrite Hregs. exact Ht.
Qed.

(** A run that finds nothing to insert changes nothing: it returns the
    count 0, or, on a connection that is closed or lost, it raises. *)
Lemma insert_new_records_second_run (df : DataFrame) (entity : string) (w : World) :
  connection w = usable (durable w) \/ connection w = unusable ->
  query_error (select_existing entity) (durable w) = None ->
  batch_for df entity (durable w) = [] ->
  match session w with
  | Some _ => exists message, insert_new_records df entity w = (Return (0%nat, message), w)
  | None =>
      insert_new_records df entity w = (Raise (DatabaseError "connection already closed"), w)
  end.
Proof.
  intros [Hc|Hc] Hq Hnil; unfold session; rewrite Hc.
  - apply insert_new_records_nothing_new; auto.
  - apply insert_new_records_unusable. exact Hc.
Qed.

(** C7.  The write stage is idempotent.  On a frame that has the columns of
    the Identity Key, from a connection with no pending change and a server
    that answers the queries and takes the deduplicated batch, a first run
    returns the size of that batch and adds exactly its rows to the table.
    A second run on the same input, against the store the first run left,
    inserts nothing and changes nothing: it returns 0, or, when the first run
    lost the connection while it inserted the component rows, it raises. *)
Theorem write_stage_idempotent (df : DataFrame) (entity : string) (w : World) :
  session w = Some (durable w) ->
  has_key_columns df ->
  (forall q db, query_error q db = None) ->
  first_failure regulations (durable w) (next_id w)
    (where_notnull (batch_for df entity (durable w))) = None ->
  exists message1 w1,
    insert_new_records df entity w
      = (Return (List.length (batch_for df entity (durable w)), message1), w1)
    /\ data <$> regulations_table (durable w1)
       = (data <$> regulations_table (durable w))
         ++ where_notnull (batch_for df entity (durable w))
    /\ match session w1 with
       | Some _ =>
           exists message2, insert_new_records df entity w1 = (Return (0%nat, message2), w1)
       | None =>
           insert_new_records df entity w1
           = (Raise (DatabaseError "connection already closed"), w1)
       end.
Proof.
  intros Hs Hcols Hq Hok. apply session_usable in Hs.
  destruct (decide (batch_for df entity (durable w) = [])) as [Hnil|Hb].
  - destruct (insert_new_records_nothing_new df entity w Hs (Hq _ _) (or_introl Hnil))
      as [message Hrun].
    exists message, w. rewrite Hnil. simpl. rewrite app_nil_r.
    split; [exact Hrun|]. split; [reflexivity|].
    apply insert_new_records_second_run; auto.
  - destruct (insert_new_records_inserts df entity w Hs Hcols (Hq _ _) (fun db => Hq _ db)
                Hok Hb) as (message1 & w1 & Hrun & Hregs & Hc1).
    pose proof (stored_batch_data _ _ _ _ Hregs) as Hdata.
    exists message1, w1. split; [exact Hrun|]. split; [exact Hdata|].
    apply insert_new_records_second_run; [exact Hc1|apply Hq|].
    apply (second_batch_empty df entity _ _ Hdata).
Qed.
End WriteStage.
(** * Properties of the scraper *)

(** ** Facts about the methods of [str] *)

Lemma str_lstrip_split (s : unicode) :
  exists p, s = p ++ str_lstrip s /\ Forall (fun c => isspace c = true) p.
Proof.
  induction s as [|c s IH]; [exists []; split; [reflexivity|constructor]|].
  simpl. destruct (isspace c) eqn:Hc.
  - destruct IH as (p & Hp & Hsp). exists (c :: p). split.
    + simpl. f_equal. exact Hp.
    + constructor; assumption.
  - exists []. split; [reflexivity|constructor].
Qed.

Lemma str_rstrip_split (s : unicode) :
  exists q, s = str_rstrip s ++ q /\ Forall (fun c => isspace c = true) q.
Proof.
  unfold str_rstrip. destruct (str_lstrip_split (rev s)) as (p & Hp & Hsp).
  exists (rev p). split.
  - rewrite <- rev_app_distr, <- Hp, rev_involutive. reflexivity.
  - apply Forall_forall. intros x Hx. rewrite Forall_forall in Hsp. apply Hsp.
    apply list_elem_of_In. apply in_rev.
    apply list_elem_of_In. exact Hx.
Qed.

Lemma split_words_spaces (sp : unicode) :
  Forall (fun c => isspace c = true) sp ->
  forall word, split_words word sp = split_words word [].
Proof.
  induction 1 as [|c sp Hc _ IH]; intros word; [reflexivity|].
  simpl. rewrite Hc. destruct word; rewrite IH; reflexivity.
Qed.

Lemma split_words_trailing (sp : unicode) :
  Forall (fun c => isspace c = true) sp ->
  forall s word, split_words word (s ++ sp) = split_words word s.
Proof.
  intros Hsp. induction s as [|c s IH]; intros word.
  - apply split_words_spaces. exact Hsp.
  - simpl. destruct (isspace c); [destruct word|]; rewrite IH; reflexivity.
Qed.

Lemma split_words_leading (sp : unicode) :
  Forall (fun c => isspace c = true) sp ->
  forall s, split_words [] (sp ++ s) = split_words [] s.
Proof.
  induction 1 as [|c sp Hc _ IH]; intros s; [reflexivity|].
  simpl. rewrite Hc. apply IH.
Qed.

(** [split] does not see the whitespace that [strip] removes. *)
Lemma str_split_strip (s : unicode) : str_split (str_strip s) = str_split s.
Proof.
  unfold str_split, str_strip.
  destruct (str_lstrip_split s) as (p & Hp & Hsp).
  destruct (str_rstrip_split (str_lstrip s)) as (q & Hq & Hsq).
  rewrite Hp at 2. rewrite (split_words_leading _ Hsp).
  rewrite Hq at 2. rewrite (split_words_trailing _ Hsq). reflexivity.
Qed.

Lemma split_words_run (w : unicode) :
  Forall (fun c => isspace c = false) w ->
  forall word s, split_words word (w ++ s) = split_words (word ++ w) s.
Proof.
  induction 1 as [|c w Hc _ IH]; intros word s.
  - rewrite app_nil_r. reflexivity.
  - simpl. rewrite Hc, IH, <- app_assoc. reflexivity.
Qed.

(** The words of a text are not empty and hold no whitespace. *)
Lemma split_words_good (s : unicode) :
  forall word,
    Forall (fun c => isspace c = false) word ->
    Forall (fun w => w <> [] /\ Forall (fun c => isspace c = false) w) (split_words word s).
Proof.
  induction s as [|c s IH]; intros word Hword.
  - simpl. destruct word; [constructor|]. constructor; [|constructor].
    split; [discriminate|exact Hword].
  - simpl. destruct (isspace c) eqn:Hc.
    + destruct word as [|c0 word]; [apply IH; constructor|].
      constructor; [split; [discriminate|exact Hword]|apply IH; constructor].
    + apply IH. apply Forall_app. split; [exact Hword|]. constructor; [exact Hc|constructor].
Qed.

(** The words, put end to end, are the characters that are not
    whitespace. *)
Lemma split_words_mjoin (s : unicode) :
  forall word,
    mjoin (split_words word s) = word ++ filter (fun c => isspace c = false) s.
Proof.
  induction s as [|c s IH]; intros word.
  - simpl. destruct word; simpl; rewrite ?app_nil_r; reflexivity.
  - simpl. destruct (isspace c) eqn:Hc.
    + rewrite filter_cons_False by (rewrite Hc; discriminate).
      destruct word; [apply IH|]. simpl. rewrite IH. reflexivity.
    + rewrite filter_cons_True by exact Hc. rewrite IH, <- app_assoc. reflexivity.
Qed.

Lemma split_words_space (word : unicode) (c : N) (s : unicode) :
  isspace c = true -> word <> [] ->
  split_words word (c :: s) = word :: split_words [] s.
Proof. intros Hc Hne. simpl. rewrite Hc. destruct word; [contradiction|reflexivity]. Qed.

(** Splitting what [join] made of words gives the words back. *)
Lemma str_split_join (words : list unicode) :
  Forall (fun w => w <> [] /\ Forall (fun c => isspace c = false) w) words ->
  str_split (str_join (u " ") words) = words.
Proof.
  unfold str_split. induction 1 as [|w words [Hne Hw] Hwords IH]; [reflexivity|].
  destruct words as [|w2 words].
  - simpl. rewrite <- (app_nil_r w) at 1. rewrite (split_words_run _ Hw). simpl.
    destruct w; [contradiction|reflexivity].
  - change (str_join (u " ") (w :: w2 :: words))
      with (w ++ 32%N :: str_join (u " ") (w2 :: words)).
    rewrite (split_words_run _ Hw), app_nil_l.
    rewrite split_words_space by (reflexivity || exact Hne).
    rewrite IH. reflexivity.
Qed.

Lemma str_join_elem_of (sep : unicode) (words : list unicode) (c : N) :
  c ∈ str_join sep words -> c ∈ sep \/ exists w, w ∈ words /\ c ∈ w.
Proof.
  induction words as [|w words IH]; [intros Hc; apply elem_of_nil in Hc; contradiction|].
  destruct words as [|w2 words].
  - simpl. intros Hc. right. exists w. split; [left|exact Hc].
  - change (str_join sep (w :: w2 :: words)) with (w ++ sep ++ str_join sep (w2 :: words)).
    rewrite !elem_of_app. intros [Hc|[Hc|Hc]].
    + right. exists w. split; [left|exact Hc].
    + left. exact Hc.
    + destruct (IH Hc) as [Hs|(w' & Hw' & Hcw)]; [left; exact Hs|].
      right. exists w'. split; [right; exact Hw'|exact Hcw].
Qed.

(** ** clean_quotes *)

Lemma str_replace_remove (old : N) (s : unicode) :
  str_replace old [] s = filter (fun c => c <> old) s.
Proof.
  unfold str_replace. induction s as [|c s IH]; [reflexivity|].
  change ((c :: s) ≫= _)
    with ((if (c =? old)%N then [] else [c])
          ++ (s ≫= (fun c => if (c =? old)%N then [] else [c]))).
  rewrite IH. destruct (N.eqb_spec c old) as [->|Hne].
  - rewrite filter_cons_False by (intros Hc; apply Hc; reflexivity). reflexivity.
  - rewrite filter_cons_True by exact Hne. reflexivity.
Qed.

Lemma replace_all_remove (items : list (N * unicode)) :
  Forall (fun item => item.2 = []) items ->
  forall text,
    foldl (fun cleaned_text '(quote_char, replacement) =>
             str_replace quote_char replacement cleaned_text) text items
    = filter (fun c => c ∉ items.*1) text.
Proof.
  induction 1 as [|[quote_char replacement] items Hr _ IH]; intros text.
  - simpl. symmetry. clear. induction text as [|c text IH]; [reflexivity|].
    rewrite filter_cons_True by apply not_elem_of_nil. rewrite IH. reflexivity.
  - simpl in Hr. subst replacement. simpl. rewrite IH, str_replace_remove.
    rewrite list_filter_filter. apply list_filter_iff. intros c.
    rewrite not_elem_of_cons. tauto.
Qed.

Lemma quote_characters_spec (c : N) :
  ((c ∉ quotes_pattern) /\ (c ∉ quotes_map.*1)) <-> (c ∉ quote_characters).
Proof.
  assert (Hset : list_to_set (C := gset N) (quotes_pattern ++ quotes_map.*1)
                 = list_to_set quote_characters) by (vm_compute; reflexivity).
  rewrite <- not_elem_of_app.
  rewrite <- (elem_of_list_to_set (C := gset N) c (quotes_pattern ++ _)).
  rewrite <- (elem_of_list_to_set (C := gset N) c quote_characters).
  rewrite Hset. reflexivity.
Qed.

(** [clean_quotes] in one step: take the quotation marks out, split into
    words, join the words with one space. *)
Lemma clean_quotes_words (text : unicode) :
  clean_quotes text
  = str_join (u " ") (str_split (filter (fun c => c ∉ quote_characters) text)).
Proof.
  destruct text as [|c text]; [reflexivity|].
  unfold clean_quotes. cbv zeta.
  rewrite replace_all_remove by (repeat constructor).
  rewrite str_split_strip. unfold re_sub_class. rewrite list_filter_filter.
  do 2 f_equal. apply list_filter_iff. intros x. apply quote_characters_spec.
Qed.

Lemma split_words_of_filter (P : N -> Prop) `{!forall c, Decision (P c)} (s : unicode) :
  Forall (fun w => Forall P w) (str_split (filter P s)).
Proof.
  assert (Hall : Forall P (mjoin (str_split (filter P s)))).
  { unfold str_split. rewrite split_words_mjoin, app_nil_l.
    apply Forall_forall. intros c Hc.
    apply list_elem_of_filter in Hc as [_ Hc]. apply list_elem_of_filter in Hc as [Hc _].
    exact Hc. }
  apply Forall_forall. intros w Hw. apply Forall_forall. intros c Hc.
  rewrite Forall_forall in Hall. apply Hall. apply list_elem_of_join.
  exists w. split; assumption.
Qed.

Lemma str_join_Forall (P : N -> Prop) (words : list unicode) :
  P 32%N -> Forall (fun w => Forall P w) words -> Forall P (str_join (u " ") words).
Proof.
  intros Hsp Hwords. apply Forall_forall. intros c Hc.
  apply str_join_elem_of in Hc as [Hc|(w & Hw & Hcw)].
  - change (u " ") with [32%N] in Hc. apply list_elem_of_singleton in Hc. subst c. exact Hsp.
  - rewrite Forall_forall in Hwords. specialize (Hwords w Hw).
    rewrite Forall_forall in Hwords. apply Hwords. exact Hcw.
Qed.

Lemma space_is_no_quote : 32%N ∉ quote_characters.
Proof. apply (bool_decide_unpack (32%N ∉ quote_characters)). vm_compute. exact I. Qed.

(** X1.  The text that [clean_quotes] returns holds none of the sixteen
    quotation marks. *)
Theorem clean_quotes_removes_quotes (text : unicode) :
  Forall (fun c => c ∉ quote_characters) (clean_quotes text).
Proof.
  rewrite clean_quotes_words.
  apply str_join_Forall.
  - exact space_is_no_quote.
  - apply (split_words_of_filter (fun c => c ∉ quote_characters)).
Qed.

Lemma str_join_spaced (words : list unicode) :
  Forall (fun w => w <> [] /\ Forall (fun c => isspace c = false) w) words ->
  (forall c, head (str_join (u " ") words) = Some c -> isspace c = false)
  /\ forall i c,
       str_join (u " ") words !! i = Some c -> isspace c = true ->
       c = 32%N
       /\ exists c', str_join (u " ") words !! S i = Some c' /\ isspace c' = false.
Proof.
  induction 1 as [|w words [Hne Hw] Hwords IH].
  - split; [discriminate|]. intros i c Hi. destruct i; discriminate.
  - assert (Hin : forall i c, w !! i = Some c -> isspace c = true -> False).
    { intros i c Hi Hc. rewrite Forall_forall in Hw.
      rewrite (Hw c) in Hc; [discriminate|]. eapply list_elem_of_lookup_2. exact Hi. }
    destruct words as [|w2 words].
    + simpl. split.
      * intros c Hc. destruct w as [|c0 w]; [discriminate|]. injection Hc as <-.
        apply Forall_cons in Hw as [Hc0 _]. exact Hc0.
      * intros i c Hi Hc. exfalso. eapply Hin; eauto.
    + change (str_join (u " ") (w :: w2 :: words))
        with (w ++ 32%N :: str_join (u " ") (w2 :: words)).
      destruct IH as [IHhead IH]. split.
      * intros c Hc. destruct w as [|c0 w]; [contradiction|]. injection Hc as <-.
        apply Forall_cons in Hw as [Hc0 _]. exact Hc0.
      * intros i c Hi Hc.
        destruct (decide (i < List.length w)%nat) as [Hlt|Hge].
        { exfalso. rewrite lookup_app_l in Hi by exact Hlt. eapply Hin; eauto. }
        rewrite lookup_app_r in Hi by lia.
        replace (S i) with (List.length w + S (i - List.length w))%nat by lia.
        rewrite lookup_app_r by lia.
        replace (List.length w + S (i - List.length w) - List.length w)%nat
          with (S (i - List.length w)) by lia.
        destruct (i - List.length w)%nat as [|j] eqn:Hj.
        -- simpl in Hi. injection Hi as <-. split; [reflexivity|].
           change (exists c', str_join (u " ") (w2 :: words) !! 0%nat = Some c'
                              /\ isspace c' = false).
           destruct (str_join (u " ") (w2 :: words)) as [|c' rest] eqn:Hjoin.
           ++ exfalso. apply Forall_cons in Hwords as [[Hne2 _] _].
              destruct words; simpl in Hjoin; destruct w2; try contradiction; discriminate.
           ++ exists c'. split; [reflexivity|]. apply IHhead. reflexivity.
        -- change (str_join (u " ") (w2 :: words) !! j = Some c) in Hi.
           change (c = 32%N /\ exists c', str_join (u " ") (w2 :: words) !! S j = Some c'
                                          /\ isspace c' = false).
           apply IH; assumption.
Qed.

(** X2.  The text that [clean_quotes] returns does not start with
    whitespace, and every whitespace character in it is one U+0020 followed
    by a character that is not whitespace: no blank at either end, no two
    blanks in a row, no tab or line break. *)
Theorem clean_quotes_single_spaced (text : unicode) :
  (forall c, head (clean_quotes text) = Some c -> isspace c = false)
  /\ forall i c,
       clean_quotes text !! i = Some c -> isspace c = true ->
       c = 32%N
       /\ exists c', clean_quotes text !! S i = Some c' /\ isspace c' = false.
Proof.
  rewrite clean_quotes_words. apply str_join_spaced.
  apply split_words_good. constructor.
Qed.

Lemma filter_Forall_id {A : Type} (P : A -> Prop) `{!forall x, Decision (P x)} (l : list A) :
  Forall P l -> filter P l = l.
Proof.
  induction 1 as [|x l Hx _ IH]; [reflexivity|].
  rewrite filter_cons_True by exact Hx. rewrite IH. reflexivity.
Qed.

(** X3.  [clean_quotes] is idempotent: cleaning a cleaned text changes
    nothing. *)
Theorem clean_quotes_idempotent (text : unicode) :
  clean_quotes (clean_quotes text) = clean_quotes text.
Proof.
  rewrite (clean_quotes_words (clean_quotes text)).
  rewrite (clean_quotes_words text) at 1.
  rewrite filter_Forall_id.
  2: { apply str_join_Forall; [exact space_is_no_quote|].
       apply (split_words_of_filter (fun c => c ∉ quote_characters)). }
  rewrite str_split_join by (apply split_words_good; constructor).
  symmetry. apply clean_quotes_words.
Qed.

(** X4.  Apart from quotation marks and whitespace, [clean_quotes] keeps
    the text: the words of the result are the words of the text without its
    quotation marks, in the same order. *)
Theorem clean_quotes_keeps_words (text : unicode) :
  str_split (clean_quotes text)
  = str_split (filter (fun c => c ∉ quote_characters) text).
Proof.
  rewrite clean_quotes_words.
  apply str_split_join.
  apply split_words_good. constructor.
Qed.

(** ** is_valid_created_at *)

Lemma str_lstrip_head (s : unicode) (c : N) (t : unicode) :
  str_lstrip s = c :: t -> isspace c = false.
Proof.
  induction s as [|c0 s IH]; [discriminate|].
  simpl. destruct (isspace c0) eqn:Hc0; [exact IH|].
  intros Heq. injection Heq as <- <-. exact Hc0.
Qed.

(** A text is blank after [strip] exactly when all its characters are
    whitespace. *)
Lemma str_strip_blank (s : unicode) :
  str_strip s = [] <-> Forall (fun c => isspace c = true) s.
Proof.
  unfold str_strip.
  destruct (str_lstrip_split s) as (p & Hp & Hsp).
  destruct (str_rstrip_split (str_lstrip s)) as (q & Hq & Hsq).
  split.
  - intros Hnil. rewrite Hnil in Hq. simpl in Hq. rewrite Hp, Hq.
    apply Forall_app. split; assumption.
  - intros Hall. destruct (str_lstrip s) as [|c t] eqn:Hl; [reflexivity|].
    exfalso. apply str_lstrip_head in Hl.
    rewrite Hp in Hall. apply Forall_app in Hall as [_ Hall].
    apply Forall_cons in Hall as [Hc _]. congruence.
Qed.

Lemma is_valid_created_at_str (created_at_value : object) :
  is_valid_created_at created_at_value = true ->
  (exists s c, created_at_value = PStr s /\ c ∈ s /\ isspace c = false)
  \/ (exists dt, created_at_value = PDatetime dt).
Proof.
  intros Hvalid. unfold is_valid_created_at in Hvalid.
  destruct created_at_value as [|s|z|b|dt]; simpl in Hvalid;
    [discriminate| |destruct (negb (z =? 0)); discriminate|destruct b; discriminate|].
  - left. destruct (bool_decide (s = [])); simpl in Hvalid; [discriminate|].
    destruct (bool_decide (str_strip s = [])) eqn:Hstrip; simpl in Hvalid; [discriminate|].
    apply bool_decide_eq_false in Hstrip. rewrite str_strip_blank in Hstrip.
    apply not_Forall_Exists in Hstrip; [|intros c; apply _].
    apply Exists_exists in Hstrip as (c & Hc & Hsp).
    exists s, c. split; [reflexivity|]. split; [exact Hc|].
    simpl in Hsp. destruct (isspace c); [exfalso; apply Hsp; reflexivity|reflexivity].
  - right. eauto.
Qed.

Lemma is_valid_created_at_nonblank (s : unicode) (c : N) :
  c ∈ s -> isspace c = false -> is_valid_created_at (PStr s) = true.
Proof.
  intros Hc Hsp. unfold is_valid_created_at. simpl.
  assert (Hstrip : str_strip s <> []).
  { rewrite str_strip_blank. intros Hall. rewrite Forall_forall in Hall.
    rewrite (Hall c Hc) in Hsp. discriminate. }
  assert (Hne : s <> []) by (intros ->; apply elem_of_nil in Hc; exact Hc).
  rewrite (bool_decide_eq_false_2 _ Hne). simpl.
  rewrite (bool_decide_eq_false_2 _ Hstrip). reflexivity.
Qed.

(** X5.  [is_valid_created_at] accepts a [datetime], and a [str] that has
    a character other than whitespace; it accepts nothing else: not [None],
    not the empty or a blank string, not a number. *)
Theorem is_valid_created_at_iff (created_at_value : object) :
  is_valid_created_at created_at_value = true <->
  (exists s c, created_at_value = PStr s /\ c ∈ s /\ isspace c = false)
  \/ (exists dt, created_at_value = PDatetime dt).
Proof.
  split.
  - apply is_valid_created_at_str.
  - intros [(s & c & -> & Hc & Hsp)|(dt & ->)].
    + eapply is_valid_created_at_nonblank; eassumption.
    + reflexivity.
Qed.

(** ** normalize_datetime *)

(** [normalize_datetime] keeps the wall-clock time and drops the zone; a
    second pass changes nothing. *)
Lemma normalize_datetime_idempotent (dt : object) :
  normalize_datetime (normalize_datetime dt) = normalize_datetime dt
  /\ forall d, normalize_datetime dt = PDatetime d ->
               tzinfo d = None /\ exists d0, dt = PDatetime d0 /\ wall_clock d = wall_clock d0.
Proof.
  destruct dt as [| | | |[clock [zone|]]]; simpl; (split; [reflexivity|]);
    intros d Hd; try discriminate; injection Hd as <-; simpl; eauto.
Qed.

(** ** The date of a row *)

Lemma str_contains_char (c : N) (s : unicode) : str_contains [c] s = true <-> c ∈ s.
Proof.
  induction s as [|x s IH].
  - simpl. split; [discriminate|]. intros Hc. apply elem_of_nil in Hc. contradiction.
  - simpl. rewrite orb_true_iff, IH, elem_of_cons, andb_true_r, N.eqb_eq. reflexivity.
Qed.

Lemma str_contains_char_false (c : N) (s : unicode) : c ∉ s -> str_contains [c] s = false.
Proof.
  intros Hc. destruct (str_contains [c] s) eqn:Hs; [|reflexivity].
  apply str_contains_char in Hs. contradiction.
Qed.

Lemma str_split_on_whole (sep : N) (s : unicode) : sep ∉ s -> str_split_on sep s = [s].
Proof.
  induction s as [|c s IH]; [reflexivity|].
  intros Hs. apply not_elem_of_cons in Hs as [Hne Hs].
  simpl. rewrite (proj2 (N.eqb_neq c sep)) by congruence. rewrite IH by exact Hs. reflexivity.
Qed.

Lemma str_split_on_first (sep : N) (piece s : unicode) :
  sep ∉ piece -> str_split_on sep (piece ++ sep :: s) = piece :: str_split_on sep s.
Proof.
  induction piece as [|c piece IH]; intros Hp.
  - simpl. rewrite N.eqb_refl. reflexivity.
  - apply not_elem_of_cons in Hp as [Hne Hp].
    simpl. rewrite (proj2 (N.eqb_neq c sep)) by congruence. rewrite IH by exact Hp. reflexivity.
Qed.

Lemma str_split_on_pieces (sep : N) (s : unicode) :
  forall piece c, piece ∈ str_split_on sep s -> c ∈ piece -> c ∈ s.
Proof.
  induction s as [|x s IH]; intros piece c Hp Hc.
  - simpl in Hp. apply list_elem_of_singleton in Hp. subst piece. exact Hc.
  - simpl in Hp. destruct (x =? sep)%N.
    + apply elem_of_cons in Hp as [->|Hp]; [apply elem_of_nil in Hc; contradiction|].
      right. eapply IH; eauto.
    + destruct (str_split_on sep s) as [|p0 ps] eqn:Hsplit.
      * apply list_elem_of_singleton in Hp. subst piece.
        apply list_elem_of_singleton in Hc. subst c. left.
      * apply elem_of_cons in Hp as [->|Hp].
        -- apply elem_of_cons in Hc as [->|Hc]; [left|].
           right. apply (IH p0); [left|exact Hc].
        -- right. apply (IH piece); [right; exact Hp|exact Hc].
Qed.

Lemma str_zfill_elem_of (width : nat) (s : unicode) (c : N) :
  c ∈ str_zfill width s -> c = 48%N \/ c ∈ s.
Proof.
  unfold str_zfill. destruct (width - List.length s)%nat as [|fill]; [right; assumption|].
  assert (Hzeros : forall n, c ∈ repeat 48%N n -> c = 48%N).
  { intros n Hn. apply list_elem_of_In, repeat_spec in Hn. exact Hn. }
  destruct s as [|x rest].
  - intros Hc. left. eapply Hzeros. exact Hc.
  - destruct ((x =? 43) || (x =? 45))%N.
    + rewrite elem_of_cons, elem_of_app.
      intros [->|[Hc|Hc]]; [right; left|left; eapply Hzeros; exact Hc|right; right; exact Hc].
    + rewrite elem_of_app. intros [Hc|Hc]; [left; eapply Hzeros; exact Hc|right; exact Hc].
Qed.

(** X6.  A date written day/month/year is stored year-month-day, with day
    and month filled to two characters: "7/3/2016" becomes "2016-03-07".
    (The three parts hold no "/" and no "T".) *)
Theorem created_at_of_slash_date (day month year : unicode) :
  str_contains (u "/") (day ++ month ++ year) = false ->
  str_contains (u "T") (day ++ month ++ year) = false ->
  created_at_of (day ++ u "/" ++ month ++ u "/" ++ year)
  = year ++ u "-" ++ str_zfill 2 month ++ u "-" ++ str_zfill 2 day.
Proof.
  intros Hslash HT.
  assert (Hparts : forall c, str_contains [c] (day ++ month ++ year) = false ->
            (c ∉ day) /\ (c ∉ month) /\ (c ∉ year)).
  { intros c Hc.
    assert (Hnot : c ∉ day ++ month ++ year).
    { intros Hin. apply str_contains_char in Hin. congruence. }
    rewrite !not_elem_of_app in Hnot. exact Hnot. }
  destruct (Hparts _ Hslash) as (Hd & Hm & Hy).
  destruct (Hparts _ HT) as (HdT & HmT & HyT).
  unfold created_at_of.
  change (u "T") with [84%N]. change (u "/") with [47%N].
  rewrite str_contains_char_false.
  2: { rewrite !not_elem_of_app, !not_elem_of_cons. repeat split; try assumption;
         try discriminate; apply not_elem_of_nil. }
  rewrite (proj2 (str_contains_char 47 _)).
  2: { rewrite elem_of_app. right. left. }
  change (day ++ [47%N] ++ month ++ [47%N] ++ year) with (day ++ 47%N :: month ++ 47%N :: year).
  rewrite (str_split_on_first _ _ _ Hd), (str_split_on_first _ _ _ Hm).
  rewrite (str_split_on_whole _ _ Hy). reflexivity.
Qed.

(** X7.  The date taken from a date span never holds a "T": of a
    timestamp only what stands before the first "T" is kept. *)
Theorem created_at_of_drops_time (created_at_raw : unicode) :
  str_contains (u "T") (created_at_of created_at_raw) = false
  /\ (str_contains (u "T") created_at_raw = true ->
      exists time, created_at_raw = created_at_of created_at_raw ++ u "T" ++ time).
Proof.
  assert (Hmain : (84%N ∉ created_at_of created_at_raw)
                  /\ (84%N ∈ created_at_raw ->
                      exists time,
                        created_at_raw = created_at_of created_at_raw ++ 84%N :: time)).
  { unfold created_at_of. change (u "T") with [84%N]. change (u "/") with [47%N].
    destruct (str_contains [84%N] created_at_raw) eqn:HT.
    - apply str_contains_char in HT.
      apply list_elem_of_split_l in HT as (date & time & -> & Hdate).
      rewrite (str_split_on_first _ _ _ Hdate). simpl. split; [exact Hdate|]. eauto.
    - assert (Hraw : 84%N ∉ created_at_raw).
      { intros Hin. apply str_contains_char in Hin. congruence. }
      split; [|intros Hin; contradiction].
      destruct (str_contains [47%N] created_at_raw); [|exact Hraw].
      destruct (str_split_on 47 created_at_raw) as [|day [|month [|year [|]]]] eqn:Hsplit;
        try exact Hraw.
      assert (Hpiece : forall piece, piece ∈ [day; month; year] -> 84%N ∉ piece).
      { intros piece Hp Hin. apply Hraw. rewrite <- Hsplit in Hp.
        eapply str_split_on_pieces; eauto. }
      assert (Hfill : forall piece, piece ∈ [day; month; year] -> 84%N ∉ str_zfill 2 piece).
      { intros piece Hp Hin. apply str_zfill_elem_of in Hin as [Hin|Hin]; [discriminate|].
        eapply Hpiece; eauto. }
      rewrite !not_elem_of_app. repeat split.
      + apply Hpiece. do 2 right. left.
      + change (u "-") with [45%N]. rewrite not_elem_of_cons.
        split; [discriminate|apply not_elem_of_nil].
      + apply Hfill. right. left.
      + change (u "-") with [45%N]. rewrite not_elem_of_cons.
        split; [discriminate|apply not_elem_of_nil].
      + apply Hfill. left. }
  destruct Hmain as [Hnot Hcut]. change (u "T") with [84%N]. split.
  - apply str_contains_char_false. exact Hnot.
  - intros HT. apply str_contains_char in HT. exact (Hcut HT).
Qed.

(** ** The rows of a page *)

Section ExtractionProperties.
Context `{Unicode} `{Web}.

Lemma subscript_insert_eq (d : Norma) (key : string) (v : object) :
  subscript (<[key := v]> d) key = v.
Proof. unfold subscript. rewrite lookup_insert_eq. reflexivity. Qed.

Lemma subscript_insert_ne (d : Norma) (key key' : string) (v : object) :
  key <> key' -> subscript (<[key := v]> d) key' = subscript d key'.
Proof. intros Hne. unfold subscript. rewrite lookup_insert_ne by exact Hne. reflexivity. Qed.

Lemma site_prefix_is_absolute (link : unicode) :
  str_startswith (u "http") (u "https://www.ani.gov.co" ++ link) = true.
Proof. reflexivity. Qed.

(** What [extract_title_and_link] leaves in the record of a row it keeps. *)
Lemma extract_title_and_link_kept (row : Tag) (norma_data norma_data' : Norma) :
  extract_title_and_link row norma_data = (true, norma_data') ->
  exists title link,
    norma_data' = <["gtype" := PStr (u "link")]>
                    (<["external_link" := PStr link]> (<["title" := PStr title]> norma_data))
    /\ (List.length title <= 65)%nat
    /\ (exists raw_title, title = clean_quotes raw_title)
    /\ str_startswith (u "http") link = true.
Proof.
  unfold extract_title_and_link.
  destruct (tag_find row "td" _) as [title_cell|]; [|discriminate].
  destruct (tag_find title_cell "a" None) as [title_link|]; [|discriminate].
  destruct (65 <? List.length (clean_quotes (tag_get_text title_link)))%nat eqn:Hlen;
    [discriminate|].
  apply Nat.ltb_ge in Hlen. cbv zeta.
  rewrite subscript_insert_ne by discriminate. rewrite subscript_insert_eq.
  destruct (tag_get title_link "href") as [[|c href]|]; cbn [object_of];
    [discriminate| |discriminate].
  destruct (str_startswith (u "http") (c :: href)) eqn:Hhttp.
  - intros Heq. injection Heq as <-.
    exists (clean_quotes (tag_get_text title_link)), (c :: href).
    split; [reflexivity|]. split; [exact Hlen|]. split; [eauto|exact Hhttp].
  - intros Heq. injection Heq as <-.
    exists (clean_quotes (tag_get_text title_link)), (u "https://www.ani.gov.co" ++ c :: href).
    split; [reflexivity|]. split; [exact Hlen|].
    split; [eauto|apply site_prefix_is_absolute].
Qed.

(** X8.  Which rows [extract_title_and_link] keeps: those with a title cell
    that holds a link whose cleaned text has at most 65 characters and whose
    [href] is present and not empty. *)
Theorem extract_title_and_link_keeps (row : Tag) (norma_data : Norma) :
  (extract_title_and_link row norma_data).1 = true <->
  exists title_cell title_link href,
    tag_find row "td" (Some "views-field views-field-title") = Some title_cell
    /\ tag_find title_cell "a" None = Some title_link
    /\ (List.length (clean_quotes (tag_get_text title_link)) <= 65)%nat
    /\ tag_get title_link "href" = Some href
    /\ href <> [].
Proof.
  unfold extract_title_and_link. split.
  - destruct (tag_find row "td" _) as [title_cell|] eqn:Hcell; [|discriminate].
    destruct (tag_find title_cell "a" None) as [title_link|] eqn:Hlink; [|discriminate].
    destruct (65 <? List.length (clean_quotes (tag_get_text title_link)))%nat eqn:Hlen;
      [discriminate|].
    apply Nat.ltb_ge in Hlen. cbv zeta.
    rewrite subscript_insert_ne by discriminate. rewrite subscript_insert_eq.
    destruct (tag_get title_link "href") as [[|c href]|] eqn:Hhref; cbn [object_of];
      [discriminate| |discriminate].
    intros _. exists title_cell, title_link, (c :: href).
    split; [reflexivity|]. split; [exact Hlink|]. split; [exact Hlen|].
    split; [exact Hhref|discriminate].
  - intros (title_cell & title_link & href & -> & -> & Hlen & Hhref & Hne).
    apply Nat.ltb_ge in Hlen. rewrite Hlen. cbv zeta.
    rewrite subscript_insert_ne by discriminate. rewrite subscript_insert_eq.
    rewrite Hhref. destruct href as [|c href]; [contradiction|]. cbn [object_of].
    destruct (str_startswith (u "http") (c :: href)); reflexivity.
Qed.

(** What [extract_creation_date] leaves in the record of a row it keeps. *)
Lemma extract_creation_date_kept (row : Tag) (norma_data norma_data' : Norma) :
  extract_creation_date row norma_data = (true, norma_data') ->
  exists created_at c,
    norma_data' = <["created_at" := PStr created_at]> norma_data
    /\ c ∈ created_at /\ isspace c = false.
Proof.
  unfold extract_creation_date.
  set (nd := match tag_find row "td" _ with Some _ => _ | None => _ end).
  destruct (is_valid_created_at (subscript nd "created_at")) eqn:Hvalid; [|discriminate].
  intros Heq. injection Heq as <-.
  apply is_valid_created_at_str in Hvalid.
  subst nd. destruct (tag_find row "td" _) as [fecha_cell|].
  - destruct (tag_find fecha_cell "span" _) as [fecha_span|];
      rewrite subscript_insert_eq in Hvalid;
      destruct Hvalid as [(s & c & Heq & Hc & Hsp)|(dt & Heq)]; try discriminate;
      injection Heq as <-; eauto.
  - rewrite subscript_insert_eq in Hvalid.
    destruct Hvalid as [(s & c & Heq & Hc & Hsp)|(dt & Heq)]; discriminate.
Qed.

(** X27.  Which rows [extract_creation_date] keeps: those with a date cell
    whose date (what [created_at_of] makes of the content of the date span,
    or of its text when it has no content; the text of the cell when there
    is no span) has a character other than whitespace.  The record then
    holds that date. *)
Theorem extract_creation_date_keeps (row : Tag) (norma_data : Norma) :
  (extract_creation_date row norma_data).1 = true <->
  exists fecha_cell created_at c,
    tag_find row "td" (Some "views-field views-field-field-fecha--1") = Some fecha_cell
    /\ created_at
       = match tag_find fecha_cell "span" (Some "date-display-single") with
         | Some fecha_span =>
             created_at_of (default (tag_get_text fecha_span) (tag_get fecha_span "content"))
         | None => tag_get_text fecha_cell
         end
    /\ c ∈ created_at /\ isspace c = false
    /\ (extract_creation_date row norma_data).2
       = <["created_at" := PStr created_at]> norma_data.
Proof.
  unfold extract_creation_date.
  destruct (tag_find row "td" _) as [fecha_cell|].
  - set (created_at := match tag_find fecha_cell "span" (Some "date-display-single") with
                       | Some fecha_span =>
                           created_at_of
                             (default (tag_get_text fecha_span) (tag_get fecha_span "content"))
                       | None => tag_get_text fecha_cell
                       end).
    assert (Hnd : match tag_find fecha_cell "span" (Some "date-display-single") with
                  | Some fecha_span =>
                      <["created_at" :=
                          PStr (created_at_of
                                  (default (tag_get_text fecha_span)
                                     (tag_get fecha_span "content")))]> norma_data
                  | None => <["created_at" := PStr (tag_get_text fecha_cell)]> norma_data
                  end = <["created_at" := PStr created_at]> norma_data).
    { subst created_at. destruct (tag_find fecha_cell "span" _); reflexivity. }
    cbv zeta. rewrite Hnd, subscript_insert_eq. split.
    + destruct (is_valid_created_at (PStr created_at)) eqn:Hvalid; [|discriminate].
      intros _. apply is_valid_created_at_str in Hvalid
        as [(s & c & Heq & Hc & Hsp)|(dt & Heq)]; [|discriminate].
      injection Heq as <-. exists fecha_cell, created_at, c. auto.
    + intros (fecha_cell' & created_at' & c & Hcell & -> & Hc & Hsp & _).
      injection Hcell as <-. fold created_at in Hc.
      rewrite (is_valid_created_at_nonblank created_at c Hc Hsp). reflexivity.
  - cbv zeta. rewrite subscript_insert_eq. simpl. split; [discriminate|].
    intros (fecha_cell & _ & _ & Hcell & _). discriminate.
Qed.

Lemma scrape_row_returns (row : Tag) (net : Net) :
  exists scraped net', scrape_row row net = (Return scraped, net').
Proof.
  unfold scrape_row, try_except.
  match goal with |- context [match ?body net with _ => _ end] => destruct (body net) as [[scraped|e] net'] end;
    eauto.
Qed.

(** How a record comes out of the body of the loop. *)
Lemma scrape_row_some (row : Tag) (net net' : Net) (norma_data : Norma) :
  scrape_row row net = (Return (Some norma_data), net') ->
  exists update_at with_title with_date title,
    extract_title_and_link row (blank_norma update_at) = (true, with_title)
    /\ extract_creation_date row (extract_summary row with_title) = (true, with_date)
    /\ subscript with_date "title" = PStr title
    /\ norma_data = <["rtype_id" := PInt (get_rtype_id title)]> with_date.
Proof.
  unfold scrape_row, try_except, mbind, M_bind, mret, M_ret, raise.
  destruct (now net) as [[update_at|e] net1]; [|discriminate].
  fold (blank_norma update_at).
  destruct (extract_title_and_link row (blank_norma update_at)) as [[] with_title] eqn:Htl;
    [|discriminate].
  cbn [negb]. cbv iota.
  destruct (extract_creation_date row (extract_summary row with_title))
    as [[] with_date] eqn:Hdate; [|discriminate].
  cbn [negb]. cbv iota.
  destruct (subscript with_date "title") as [|title| | |] eqn:Htitle; try discriminate.
  intros Heq. injection Heq as <- <-.
  exists update_at, with_title, with_date, title. auto.
Qed.

Lemma scrape_rows_spec (P : Norma -> Prop) (rows : list Tag) :
  (forall row net net' norma_data,
      scrape_row row net = (Return (Some norma_data), net') -> P norma_data) ->
  forall page_data net,
    Forall P page_data ->
    exists page_data' net',
      scrape_rows rows page_data net = (Return page_data', net') /\ Forall P page_data'.
Proof.
  intros Hrow. induction rows as [|row rows IH]; intros page_data net Hpage.
  - exists page_data, net. split; [reflexivity|exact Hpage].
  - simpl. unfold mbind, M_bind.
    destruct (scrape_row_returns row net) as (scraped & net1 & Hscraped). rewrite Hscraped.
    destruct scraped as [norma_data|]; [|apply IH; exact Hpage].
    apply IH. apply Forall_app. split; [exact Hpage|].
    constructor; [|constructor]. eapply Hrow. exact Hscraped.
Qed.

Lemma scrape_page_spec (P : Norma -> Prop) (page_num : Z) (net : Net) :
  (forall row net net' norma_data,
      scrape_row row net = (Return (Some norma_data), net') -> P norma_data) ->
  exists page_data net',
    scrape_page page_num net = (Return page_data, net') /\ Forall P page_data.
Proof.
  intros Hrow. unfold scrape_page, try_except, mbind, M_bind, lift, mret, M_ret.
  destruct (requests_get (page_url_of page_num) net) as [[response|e] net1];
    [|exists [], net1; split; [reflexivity|constructor]].
  destruct (raise_for_status response) as [[]|e];
    [|exists [], net1; split; [reflexivity|constructor]].
  destruct (tag_find (BeautifulSoup response) "tbody" None) as [tbody|];
    [|exists [], net1; split; [reflexivity|constructor]].
  destruct (scrape_rows_spec P (tag_find_all tbody "tr") Hrow [] net1)
    as (page_data & net' & Hrows & Hall); [constructor|].
  rewrite Hrows. eauto.
Qed.

Lemma extract_pages_spec (P : Norma -> Prop) (pages : list Z) :
  (forall row net net' norma_data,
      scrape_row row net = (Return (Some norma_data), net') -> P norma_data) ->
  forall all_records net,
    Forall P all_records ->
    exists records net',
      extract_pages pages all_records net = (Return records, net') /\ Forall P records.
Proof.
  intros Hrow. induction pages as [|page_num pages IH]; intros all_records net Hall.
  - exists all_records, net. split; [reflexivity|exact Hall].
  - simpl. unfold mbind, M_bind.
    destruct (scrape_page_spec P page_num net Hrow) as (page_data & net1 & Hpage & Hdata).
    rewrite Hpage. apply IH. apply Forall_app. split; assumption.
Qed.

(** [run_extraction] returns, and every record it returns came out of the
    body of the loop of [scrape_page]. *)
Lemma run_extraction_spec (P : Norma -> Prop) (num_pages : Z) (net : Net) :
  (forall row net net' norma_data,
      scrape_row row net = (Return (Some norma_data), net') -> P norma_data) ->
  exists records net',
    run_extraction num_pages net = (Return records, net') /\ Forall P records.
Proof.
  intros Hrow. unfold run_extraction. apply extract_pages_spec; [exact Hrow|constructor].
Qed.
End ExtractionProperties.

Section ExtractionInvariants.
Context `{Unicode} `{Web}.

Lemma extract_summary_insert (row : Tag) (norma_data : Norma) :
  exists summary, extract_summary row norma_data = <["summary" := summary]> norma_data.
Proof. unfold extract_summary. destruct (tag_find row "td" _); eauto. Qed.

Lemma get_rtype_id_range (title : unicode) : get_rtype_id title = 14 \/ get_rtype_id title = 15.
Proof.
  unfold get_rtype_id, CLASSIFICATION_KEYWORDS, first_keyword, DEFAULT_RTYPE_ID.
  repeat match goal with |- context [str_contains ?k ?s] => destruct (str_contains k s) end;
    simpl; auto.
Qed.

(** The shape of a record that comes out of the body of the loop. *)
Lemma scrape_row_shape (row : Tag) (net net' : Net) (norma_data : Norma) :
  scrape_row row net = (Return (Some norma_data), net') ->
  exists update_at title link summary created_at c,
    norma_data =
      <["rtype_id" := PInt (get_rtype_id title)]>
        (<["created_at" := PStr created_at]>
           (<["summary" := summary]>
              (<["gtype" := PStr (u "link")]>
                 (<["external_link" := PStr link]>
                    (<["title" := PStr title]> (blank_norma update_at))))))
    /\ (List.length title <= 65)%nat
    /\ (exists raw_title, title = clean_quotes raw_title)
    /\ str_startswith (u "http") link = true
    /\ c ∈ created_at /\ isspace c = false.
Proof.
  intros Hrow.
  apply scrape_row_some in Hrow as (update_at & with_title & with_date & title0 & Htl & Hdate
                                    & Htitle & ->).
  apply extract_title_and_link_kept in Htl as (title & link & -> & Hlen & Hclean & Hhttp).
  destruct (extract_summary_insert row
              (<["gtype" := PStr (u "link")]>
                 (<["external_link" := PStr link]>
                    (<["title" := PStr title]> (blank_norma update_at)))))
    as [summary Hsummary].
  rewrite Hsummary in Hdate.
  apply extract_creation_date_kept in Hdate as (created_at & c & -> & Hc & Hsp).
  unfold subscript in Htitle.
  do 4 rewrite lookup_insert_ne in Htitle by discriminate.
  rewrite lookup_insert_eq in Htitle. simpl in Htitle. injection Htitle as <-.
  exists update_at, title, link, summary, created_at, c. auto 10.
Qed.

(** X9.  Every record that [run_extraction] returns has a title of at
    most 65 characters that [clean_quotes] produced, and a link that starts
    with "http" (a relative one was prefixed with the address of the site),
    marked with [gtype] "link". *)
Theorem scraped_titles_and_links (num_pages : Z) (net net' : Net) (records : list Norma) :
  run_extraction num_pages net = (Return records, net') ->
  Forall (fun norma_data =>
            exists title link,
              norma_data !! "title" = Some (PStr title)
              /\ (List.length title <= 65)%nat
              /\ (exists raw_title, title = clean_quotes raw_title)
              /\ norma_data !! "external_link" = Some (PStr link)
              /\ str_startswith (u "http") link = true
              /\ norma_data !! "gtype" = Some (PStr (u "link")))
         records.
Proof.
  intros Hrun.
  edestruct (run_extraction_spec
               (fun norma_data =>
                  exists title link,
                    norma_data !! "title" = Some (PStr title)
                    /\ (List.length title <= 65)%nat
                    /\ (exists raw_title, title = clean_quotes raw_title)
                    /\ norma_data !! "external_link" = Some (PStr link)
                    /\ str_startswith (u "http") link = true
                    /\ norma_data !! "gtype" = Some (PStr (u "link")))
               num_pages net) as (records' & net1 & Hrun' & Hall).
  - intros row net0 net0' norma_data Hrow.
    apply scrape_row_shape in Hrow
      as (update_at & title & link & summary & created_at & c & -> & Hlen & Hclean & Hhttp & _).
    exists title, link.
    split; [repeat (rewrite lookup_insert_ne by discriminate); apply lookup_insert_eq|].
    split; [exact Hlen|]. split; [exact Hclean|].
    split; [repeat (rewrite lookup_insert_ne by discriminate); apply lookup_insert_eq|].
    split; [exact Hhttp|].
    repeat (rewrite lookup_insert_ne by discriminate); apply lookup_insert_eq.
  - rewrite Hrun in Hrun'. injection Hrun' as <- <-. exact Hall.
Qed.

(** X10.  Every record that [run_extraction] returns has exactly the ten
    keys of a record, a creation date that is a string with a character
    other than whitespace, the [rtype_id] that [get_rtype_id] gives for its
    title (14 or 15), the entity and the classification of the agency, and
    is active. *)
Theorem scraped_records_are_complete (num_pages : Z) (net net' : Net)
    (records : list Norma) :
  run_extraction num_pages net = (Return records, net') ->
  Forall (fun norma_data =>
            dom norma_data = norma_keys
            /\ (exists created_at c,
                  norma_data !! "created_at" = Some (PStr created_at)
                  /\ c ∈ created_at /\ isspace c = false)
            /\ (exists title,
                  norma_data !! "title" = Some (PStr title)
                  /\ norma_data !! "rtype_id" = Some (PInt (get_rtype_id title)))
            /\ (norma_data !! "rtype_id" = Some (PInt 14)
                \/ norma_data !! "rtype_id" = Some (PInt 15))
            /\ norma_data !! "entity" = Some (PStr (u ENTITY_VALUE))
            /\ norma_data !! "classification_id" = Some (PInt 13)
            /\ norma_data !! "is_active" = Some (PBool true))
         records.
Proof.
  intros Hrun.
  edestruct (run_extraction_spec
               (fun norma_data =>
                  dom norma_data = norma_keys
                  /\ (exists created_at c,
                        norma_data !! "created_at" = Some (PStr created_at)
                        /\ c ∈ created_at /\ isspace c = false)
                  /\ (exists title,
                        norma_data !! "title" = Some (PStr title)
                        /\ norma_data !! "rtype_id" = Some (PInt (get_rtype_id title)))
                  /\ (norma_data !! "rtype_id" = Some (PInt 14)
                      \/ norma_data !! "rtype_id" = Some (PInt 15))
                  /\ norma_data !! "entity" = Some (PStr (u ENTITY_VALUE))
                  /\ norma_data !! "classification_id" = Some (PInt 13)
                  /\ norma_data !! "is_active" = Some (PBool true))
               num_pages net) as (records' & net1 & Hrun' & Hall).
  - intros row net0 net0' norma_data Hrow.
    apply scrape_row_shape in Hrow
      as (update_at & title & link & summary & created_at & c & -> & _ & _ & _ & Hc & Hsp).
    split.
    { rewrite !dom_insert_L. unfold blank_norma, norma_keys.
      rewrite !dom_insert_L, dom_singleton_L. simpl. set_solver. }
    split.
    { exists created_at, c. split; [|split; assumption].
      rewrite lookup_insert_ne by discriminate. apply lookup_insert_eq. }
    split.
    { exists title. split; [|apply lookup_insert_eq].
      repeat (rewrite lookup_insert_ne by discriminate). apply lookup_insert_eq. }
    split.
    { rewrite lookup_insert_eq. destruct (get_rtype_id_range title) as [-> | ->]; auto. }
    unfold blank_norma.
    repeat split; repeat (rewrite lookup_insert_ne by discriminate);
      apply lookup_insert_eq.
  - rewrite Hrun in Hrun'. injection Hrun' as <- <-. exact Hall.
Qed.

End ExtractionInvariants.
(** * Further properties of the validation engine *)

Section ValidationInvariants.
Context `{Builtins}.

(** What a constructor returns is an instance of its type. *)
Lemma construct_isinstance (t : pytype) (value v : scalar) :
  construct t value = Return v -> isinstance v t = true /\ v <> VNone.
Proof.
  destruct t; simpl.
  - unfold py_str. destruct value as [|s|z|f|[]]; try (intros Heq; injection Heq as <-; split; [reflexivity|discriminate]).
    destruct (str_of_int z); [|discriminate].
    intros Heq; injection Heq as <-; split; [reflexivity|discriminate].
  - unfold py_int. destruct value as [|s|z|[| | |]|b]; try discriminate;
      try (intros Heq; injection Heq as <-; split; [reflexivity|discriminate]).
    destruct (int_of_str s); [|discriminate].
    intros Heq; injection Heq as <-; split; [reflexivity|discriminate].
  - unfold py_float. destruct value as [|s|z|f|b]; try discriminate;
      try (intros Heq; injection Heq as <-; split; [reflexivity|discriminate]).
    + destruct (float_of_str s); [|discriminate].
      intros Heq; injection Heq as <-; split; [reflexivity|discriminate].
    + destruct (binary64_of_Z z); try discriminate;
        intros Heq; injection Heq as <-; split; try reflexivity; discriminate.
  - unfold py_bool. intros Heq; injection Heq as <-; split; [reflexivity|discriminate].
Qed.

(** The value that the type step hands on passes the type step
    unchanged. *)
Lemma check_type_stable (value v : scalar) (rule : Rule) :
  value <> VNone ->
  check_type value rule = Return (Some v) ->
  v <> VNone
  /\ check_type v rule = Return (Some v)
  /\ forall name t, type rule = Some name -> _TYPE_MAP name = Some t -> isinstance v t = true.
Proof.
  intros Hnn. unfold check_type.
  destruct (type rule) as [name|] eqn:Hty.
  2: { intros Heq. injection Heq as <-. split; [exact Hnn|]. split; [reflexivity|discriminate]. }
  destruct (truthy (Some name)) eqn:Htruthy.
  2: { intros Heq. injection Heq as <-. split; [exact Hnn|]. split; [reflexivity|].
       intros name' t Hname Ht. injection Hname as <-.
       exfalso. unfold truthy in Htruthy.
       destruct (String.eqb_spec name ""); [subst; discriminate|discriminate]. }
  destruct (_TYPE_MAP name) as [t|] eqn:Hmap.
  2: { intros Heq. injection Heq as <-. split; [exact Hnn|]. split; [reflexivity|].
       intros name' t Hname Ht. congruence. }
  destruct (isinstance value t) eqn:Hinst; simpl.
  - intros Heq. injection Heq as <-. rewrite Hinst. simpl.
    split; [exact Hnn|]. split; [reflexivity|].
    intros name' t' Hname Ht. congruence.
  - destruct (construct t value) as [v0|e] eqn:Hc; [|destruct e; discriminate].
    intros Heq. injection Heq as <-.
    destruct (construct_isinstance _ _ _ Hc) as [Hv Hvn]. rewrite Hv. simpl.
    split; [exact Hvn|]. split; [reflexivity|].
    intros name' t' Hname Ht. congruence.
Qed.

(** What the checks of a field establish about the value it keeps. *)
Lemma validated_value (value v : scalar) (rule : Rule) :
  _validate_field value rule = Return (true, v) ->
  v <> VNone
  /\ check_type v rule = Return (Some v)
  /\ check_regex v rule = true
  /\ forall name t, type rule = Some name -> _TYPE_MAP name = Some t -> isinstance v t = true.
Proof.
  unfold _validate_field. intros Hv.
  assert (Hnn : value <> VNone) by (intros ->; discriminate).
  assert (Hcheck : exists v1, check_type value rule = Return (Some v1)
                              /\ check_regex v1 rule = true /\ v = v1).
  { destruct value; try contradiction;
      (destruct (check_type _ rule) as [[v1|]|e]; try discriminate;
       destruct (check_regex v1 rule) eqn:Hre; try discriminate;
       injection Hv as <-; eauto). }
  destruct Hcheck as (v1 & Hty & Hre & ->).
  destruct (check_type_stable _ _ _ Hnn Hty) as (Hvn & Hstable & Hinst).
  auto.
Qed.

(** A validated value is a fixed point of [_validate_field]. *)
Lemma validated_value_is_fixed (value v : scalar) (rule : Rule) :
  _validate_field value rule = Return (true, v) ->
  _validate_field v rule = Return (true, v).
Proof.
  intros Hv. destruct (validated_value _ _ _ Hv) as (Hvn & Hty & Hre & _).
  unfold _validate_field. rewrite Hty, Hre. destruct v; try contradiction; reflexivity.
Qed.

(** A dict in which every ruled field already holds what its check gives
    goes through the loop unchanged. *)
Lemma rewrite_fields_fixed (rules : list (string * Rule)) (d : Dict) :
  (forall f rule, (f, rule) ∈ rules ->
     (exists v, field_verdict d f rule = Return (true, v) /\ d !! f = Some v)
     \/ (field_verdict d f rule = Return (false, VNone)
         /\ required rule = false /\ d !! f = Some VNone)) ->
  rewrite_fields d rules = (Return true, d).
Proof.
  induction rules as [|[f0 rule0] rules IH]; intros Hstable; [reflexivity|].
  assert (Hin0 : (f0, rule0) ∈ (f0, rule0) :: rules) by left.
  simpl. destruct (Hstable f0 rule0 Hin0) as [(v & Hv & Hd)|(Hv & Hreq & Hd)].
  - rewrite Hv, (insert_id _ _ _ Hd). apply IH.
    intros f rule Hin. apply Hstable. right. exact Hin.
  - rewrite Hv, Hreq, (insert_id _ _ _ Hd). apply IH.
    intros f rule Hin. apply Hstable. right. exact Hin.
Qed.

(** The dict of a retained record is stable under its rules. *)
Lemma retained_is_stable (rules : list (string * Rule)) (d d' : Dict) :
  NoDup rules.*1 ->
  rewrite_fields d rules = (Return true, d') ->
  forall f rule, (f, rule) ∈ rules ->
    (exists v, field_verdict d' f rule = Return (true, v) /\ d' !! f = Some v)
    \/ (field_verdict d' f rule = Return (false, VNone)
        /\ required rule = false /\ d' !! f = Some VNone).
Proof.
  intros Hnd Hrw f rule Hin.
  pose proof (rewrite_fields_kept rules d Hnd) as Hk. rewrite Hrw in Hk.
  specialize (Hk eq_refl f rule Hin). simpl in Hk.
  destruct (field_verdict d f rule) as [[[] v]|e] eqn:Hv; [| |contradiction].
  - left. exists v. split; [|exact Hk].
    unfold field_verdict in *. rewrite Hk. simpl. eapply validated_value_is_fixed. exact Hv.
  - right. destruct Hk as [Hreq Hk]. unfold field_verdict. rewrite Hk. auto.
Qed.

Lemma validate_record_retained (record cleaned : ref) (rules : list (string * Rule))
    (h h' : Heap) :
  validate_record record rules h = (Return (Some cleaned), h') ->
  cleaned = List.length h
  /\ h' = h ++ [deref h' cleaned]
  /\ rewrite_fields (deref h record) rules = (Return true, deref h' cleaned).
Proof.
  rewrite validate_record_rewrite. intros Hrun.
  destruct (rewrite_fields (deref h record) rules) as [[[]|e] d'] eqn:Hrw;
    simpl in Hrun; try discriminate.
  injection Hrun as <- <-.
  assert (Hd : deref (h ++ [d']) (List.length h) = d').
  { apply deref_lookup. rewrite lookup_app_r by lia. rewrite Nat.sub_diag. reflexivity. }
  rewrite Hd. auto.
Qed.

(** X12.  Validation is idempotent: a record that [validate_record] returned
    is retained when it is validated again under the same rules, and the
    dict returned then has the same items. *)
Theorem validate_record_idempotent (record cleaned : ref) (rules : list (string * Rule))
    (h h' : Heap) :
  NoDup rules.*1 ->
  validate_record record rules h = (Return (Some cleaned), h') ->
  validate_record cleaned rules h'
  = (Return (Some (List.length h')), h' ++ [deref h' cleaned]).
Proof.
  intros Hnd Hrun.
  destruct (validate_record_retained _ _ _ _ _ Hrun) as (_ & _ & Hrw).
  rewrite validate_record_rewrite.
  rewrite (rewrite_fields_fixed rules (deref h' cleaned)); [reflexivity|].
  apply (retained_is_stable rules (deref h record)); assumption.
Qed.

(** X13.  A record that [validate_record] returns satisfies its rules: each
    ruled field is present; it is [None] only if the rule is optional;
    otherwise it is an instance of the declared type, when the rule names
    one of the four types, and when it is a string it matches the pattern of
    the rule, when the rule has one. *)
Theorem cleaned_record_satisfies_rules (record cleaned : ref) (rules : list (string * Rule))
    (h h' : Heap) (f : string) (rule : Rule) :
  NoDup rules.*1 ->
  validate_record record rules h = (Return (Some cleaned), h') ->
  (f, rule) ∈ rules ->
  exists v,
    deref h' cleaned !! f = Some v
    /\ (v = VNone -> required rule = false)
    /\ (v <> VNone ->
        (forall name t, type rule = Some name -> _TYPE_MAP name = Some t ->
                        isinstance v t = true)
        /\ (forall r s, regex rule = Some r -> r <> ""%string -> v = VStr s ->
                        re_match r s = true)).
Proof.
  intros Hnd Hrun Hin.
  destruct (validate_record_retained _ _ _ _ _ Hrun) as (_ & _ & Hrw).
  pose proof (rewrite_fields_kept rules (deref h record) Hnd) as Hk. rewrite Hrw in Hk.
  specialize (Hk eq_refl f rule Hin). simpl in Hk.
  destruct (field_verdict (deref h record) f rule) as [[[] v]|e] eqn:Hv; [| |contradiction].
  - exists v. split; [exact Hk|].
    destruct (validated_value _ _ _ Hv) as (Hvn & _ & Hre & Hinst).
    split; [intros ->; contradiction|]. intros _. split; [exact Hinst|].
    intros r s Hr Hne ->. unfold check_regex in Hre. rewrite Hr in Hre.
    unfold truthy in Hre. destruct (String.eqb_spec r ""); [contradiction|exact Hre].
  - destruct Hk as [Hreq Hk]. exists VNone. split; [exact Hk|].
    split; [intros _; exact Hreq|]. intros Hne. contradiction.
Qed.

(** X14.  A rule of type "bool" accepts every value that is not null,
    whatever its pattern: the value is converted with [bool], so that a
    string becomes [True] unless it is empty ("false" too). *)
Theorem bool_rule_accepts_every_value (value : scalar) (req : bool) (re : option string) :
  value <> VNone ->
  exists b,
    _validate_field value {| type := Some "bool"%string; required := req; regex := re |}
    = Return (true, VBool b)
    /\ (forall s, value = VStr s -> b = negb (String.eqb s ""))
    /\ (forall b', value = VBool b' -> b = b').
Proof.
  intros Hnn.
  destruct value as [|s|z|f|b']; [contradiction| | | |];
    unfold _validate_field, check_type, check_regex; simpl; destruct re; simpl;
    eexists; (split; [reflexivity|]); split; intros x Hx; try discriminate;
    injection Hx as <-; reflexivity.
Qed.
End ValidationInvariants.

Section ValidationEdges.
Context `{Builtins}.

Lemma validate_all_without_rules (records : list ref) :
  forall (h : Heap) (valid_records : list ref),
    Forall (fun r => (r < List.length h)%nat) records ->
    validate_all records [] valid_records h
    = (Return (valid_records ++ seq (List.length h) (List.length records)),
       h ++ (deref h <$> records)).
Proof.
  induction records as [|record records IH]; intros h valid_records Hrefs.
  - simpl. rewrite !app_nil_r. reflexivity.
  - apply Forall_cons in Hrefs as [Hr Hrefs].
    simpl. unfold mbind, M_bind. rewrite validate_record_rewrite. simpl.
    rewrite IH.
    + rewrite length_app. simpl. rewrite <- !app_assoc. simpl.
      replace (List.length h + 1)%nat with (S (List.length h)) by lia.
      f_equal. f_equal. f_equal.
      apply list_fmap_ext. intros i r Hi.
      apply deref_app_l. rewrite Forall_forall in Hrefs. apply Hrefs.
      eapply list_elem_of_lookup_2. exact Hi.
    + eapply Forall_impl; [exact Hrefs|]. intros r Hlt. simpl in Hlt.
      rewrite length_app. simpl. lia.
Qed.

(** X15.  With an empty rules mapping (a rules document without fields),
    [run_validation] retains every record: it returns, in order, one new
    dict for each record, with the items of that record. *)
Theorem run_validation_without_rules (records : list ref) (h : Heap) :
  Forall (fun r => (r < List.length h)%nat) records ->
  run_validation records [] h
  = (Return (seq (List.length h) (List.length records)), h ++ (deref h <$> records)).
Proof.
  intros Hrefs. unfold run_validation.
  rewrite validate_all_without_rules by exact Hrefs. reflexivity.
Qed.

Lemma retained_validate_record (rules : list (string * Rule)) (h : Heap) (r : ref) :
  retained rules (deref h r)
  = match validate_record r rules h with
    | (Return (Some cleaned), h1) => Some (deref h1 cleaned)
    | _ => None
    end.
Proof.
  rewrite validate_record_rewrite. unfold retained.
  destruct (rewrite_fields (deref h r) rules) as [[[]|e] d']; simpl; try reflexivity.
  f_equal. symmetry. apply deref_lookup.
  rewrite lookup_app_r by lia. rewrite Nat.sub_diag. reflexivity.
Qed.

(** X16.  When [run_validation] returns, its list holds, in the order of the
    input, one new dict for each record that [validate_record] retains, with
    the items that [validate_record] gives it, and nothing for a record that
    it discards. *)
Theorem run_validation_keeps_order (rules : list (string * Rule)) (records out : list ref)
    (h h' : Heap) :
  Forall (fun r => (r < List.length h)%nat) records ->
  run_validation records rules h = (Return out, h') ->
  Forall2 (fun cleaned d => h' !! cleaned = Some d) out
    (omap (fun r => match validate_record r rules h with
                    | (Return (Some cleaned), h1) => Some (deref h1 cleaned)
                    | _ => None
                    end) records).
Proof.
  intros Hrefs Hrun.
  pose proof (run_validation_output rules records out h h' Hrefs Hrun) as Hout.
  erewrite omap_ext_Forall; [exact Hout|].
  apply Forall_forall. intros r _. symmetry. apply retained_validate_record.
Qed.
End ValidationEdges.
(** * Further properties of the write stage *)

Lemma fmap_fst_graph {A B : Type} (g : A -> B) (l : list A) :
  ((fun x => (x, g x)) <$> l).*1 = l.
Proof. induction l as [|x l IH]; [reflexivity|]. rewrite !fmap_cons, IH. reflexivity. Qed.

Section FrameOfRecords.
Context `{Pandas}.

(** [pd.DataFrame(records)] has the keys of the records as its columns. *)
Lemma DataFrame_of_records_columns (records : list Row) :
  columns_of (DataFrame_of_records records) = columns_of records.
Proof.
  destruct records as [|r0 records]; [reflexivity|].
  set (l := r0 :: records).
  assert (Hrows : forall row, row ∈ DataFrame_of_records l -> dom row = columns_of l).
  { intros row Hrow. unfold DataFrame_of_records in Hrow.
    apply elem_of_lookup_imap in Hrow as (i & r & -> & _).
    rewrite dom_list_to_map_L, fmap_fst_graph. apply list_to_set_elements_L. }
  unfold columns_of at 1. apply set_eq. intros column. rewrite elem_of_union_list. split.
  - intros (X & HX & Hin). apply list_elem_of_fmap in HX as (row & -> & Hrow).
    rewrite (Hrows row Hrow) in Hin. exact Hin.
  - intros Hin. unfold DataFrame_of_records. subst l. simpl.
    eexists. split; [left|].
    rewrite dom_list_to_map_L, fmap_fst_graph, list_to_set_elements_L. exact Hin.
Qed.
End FrameOfRecords.
Section WriteStageOutcome.
Context `{Pandas} `{Postgres}.

(** The error that leaves [insert_new_records] is that of the rollback of
    its handler. *)
Lemma insert_new_records_raises (df : DataFrame) (entity : string) (w w' : World) (e : exn) :
  insert_new_records df entity w = (Raise e, w') ->
  e = DatabaseError "connection already closed" /\ connection w' = unusable.
Proof.
  unfold insert_new_records, try_except.
  match goal with
  | |- context [match ?body w with _ => _ end] => destruct (body w) as [[r|e0] w0]
  end; [discriminate|].
  rewrite handle_error_spec. destruct (connection w0) eqn:Hc0; try discriminate.
  intros Hrun. injection Hrun as <- <-. auto.
Qed.

(** X17.  One error only leaves [insert_new_records]: the one that the
    rollback of its handler raises on a connection that is closed or lost.
    Whatever else goes wrong inside is turned into the count 0 and a
    message.  Without a connection the function returns 0 and touches
    nothing; on a closed connection it raises. *)
Theorem insert_new_records_error_escape (df : DataFrame) (entity : string) (w : World) :
  (forall e w', insert_new_records df entity w = (Raise e, w') ->
                e = DatabaseError "connection already closed" /\ connection w' = unusable)
  /\ (connection w = no_connection ->
      insert_new_records df entity w
      = (Return (0%nat, "Error procesando entidad " +:+ entity
                        +:+ ": Base de datos no conectada"), w))
  /\ (connection w = unusable ->
      insert_new_records df entity w
      = (Raise (DatabaseError "connection already closed"), w)).
Proof.
  split; [|split].
  - intros e w'. apply insert_new_records_raises.
  - apply insert_new_records_no_connection.
  - apply insert_new_records_unusable.
Qed.

(** What a run from a connection with no pending change leaves behind:
    either the committed contents are as they were and no count other than 0
    is returned, or the batch was committed, and the count is its size,
    unless the query for the new identifiers failed. *)
Lemma insert_new_records_outcome (df : DataFrame) (entity : string) (w w' : World)
    (out : outcome (nat * string)) :
  connection w = usable (durable w) ->
  insert_new_records df entity w = (out, w') ->
  (connection w' = usable (durable w') \/ connection w' = unusable)
  /\ ((durable w' = durable w /\ forall n message, out = Return (n, message) -> n = 0%nat)
      \/ (batch_for df entity (durable w) <> []
          /\ regulations_table (durable w')
             = regulations_table (durable w)
               ++ stored_as (next_id w) (where_notnull (batch_for df entity (durable w)))
          /\ ((exists message,
                 out = Return (List.length (batch_for df entity (durable w)), message))
              \/ (query_error
                    (select_new_ids entity (List.length (batch_for df entity (durable w))))
                    (durable w') <> None
                  /\ forall n message, out = Return (n, message) -> n = 0%nat)))).
Proof.
  intros Hc.
  assert (Hhandled : forall e w0,
            durable w0 = durable w ->
            connection w0 = usable (durable w0) \/ connection w0 = unusable ->
            handle_error entity e w0 = (out, w') ->
            (connection w' = usable (durable w') \/ connection w' = unusable)
            /\ durable w' = durable w
            /\ forall n message, out = Return (n, message) -> n = 0%nat).
  { intros e w0 Hd [Hc0|Hc0] Hrun; rewrite handle_error_spec, Hc0 in Hrun;
      injection Hrun as <- <-.
    - split; [left; reflexivity|]. split; [exact Hd|].
      intros n message Heq. injection Heq as <- _. reflexivity.
    - split; [right; exact Hc0|]. split; [exact Hd|]. intros n message Heq. discriminate. }
  destruct (query_error (select_existing entity) (durable w)) as [f|] eqn:Hq.
  { rewrite (insert_new_records_query_fails df entity w _ f Hc Hq). intros Hrun.
    apply Hhandled in Hrun as (Hc' & Hd & Hzero); [auto|reflexivity|].
    simpl. unfold after_failure. destruct (connection_lost f); auto. }
  destruct (decide (batch_for df entity (durable w) = [])) as [Hnil|Hb].
  { destruct (insert_new_records_nothing_new df entity w Hc Hq (or_introl Hnil))
      as [message ->].
    intros Hrun. injection Hrun as <- <-. split; [auto|]. left. split; [reflexivity|].
    intros n message0 Heq. injection Heq as <- _. reflexivity. }
  destruct (decide (has_key_columns df)) as [Hcols|Hno].
  2: { destruct (insert_new_records_nothing_new df entity w Hc Hq (or_intror Hno))
         as [message ->].
       intros Hrun. injection Hrun as <- <-. split; [auto|]. left. split; [reflexivity|].
       intros n message0 Heq. injection Heq as <- _. reflexivity. }
  destruct (insert_new_records_batch df entity w _ Hc Hq Hcols Hb)
    as (processed & existing & dups & ->).
  rewrite insert_batch_unfold.
  pose proof (bulk_insert_spec (batch_for df entity (durable w)) regulations w _ Hc) as Hspec.
  destruct (first_failure regulations (durable w) (next_id w)
              (where_notnull (batch_for df entity (durable w)))) as [f|].
  - destruct Hspec as (next & ->).
    assert (Hc0 : forall w0 : World,
              w0 = {| durable := durable w;
                      connection := if connection_lost f then unusable
                                    else usable (durable w);
                      next_id := next |} ->
              connection w0 = usable (durable w0) \/ connection w0 = unusable).
    { intros w0 ->. simpl. destruct (connection_lost f); auto. }
    match goal with
    | |- context [mentions_duplicate ?m] => destruct (mentions_duplicate m)
    end.
    + intros Hrun. injection Hrun as <- <-. split; [apply Hc0; reflexivity|].
      left. split; [reflexivity|]. intros n message Heq. injection Heq as <- _. reflexivity.
    + intros Hrun. apply Hhandled in Hrun as (Hc' & Hd & Hzero);
        [auto|reflexivity|apply Hc0; reflexivity].
  - destruct Hspec as (txn' & -> & Ht & _).
    assert (Hlen : (List.length (batch_for df entity (durable w)) =? 0)%nat = false).
    { apply Nat.eqb_neq. intros Hz. apply Hb. apply nil_length_inv. exact Hz. }
    rewrite Hlen.
    match goal with
    | |- context [link_components ?a ?b ?c ?d ?e ?w1] =>
        pose proof (link_components_spec a b c d e w1 eq_refl) as Hlink
    end.
    simpl durable in Hlink.
    destruct (query_error
                (select_new_ids entity (List.length (batch_for df entity (durable w)))) txn')
      as [f|] eqn:Hq2.
    + rewrite Hlink. rewrite handle_error_spec. simpl.
      unfold after_failure. destruct (connection_lost f); simpl;
        intros Hrun; injection Hrun as <- <-; simpl.
      * split; [auto|]. right. split; [exact Hb|]. split; [exact Ht|]. right.
        split; [rewrite Hq2; discriminate|]. intros n message Heq. discriminate.
      * split; [auto|]. right. split; [exact Hb|]. split; [exact Ht|]. right.
        split; [rewrite Hq2; discriminate|].
        intros n message Heq. injection Heq as <- _. reflexivity.
    + destruct Hlink as (message & w2 & -> & Hregs & Hc2).
      intros Hrun. injection Hrun as <- <-. split; [exact Hc2|]. right.
      split; [exact Hb|]. split; [rewrite Hregs; exact Ht|]. left. eauto.
Qed.

(** X18.  What the count that [insert_new_records] returns says about the
    table of regulations.  A count other than 0 is the number of rows that
    the call added: the table has grown by exactly the rows of the batch.
    With the count 0 the table is as it was, save in one case: the batch was
    committed and the query for the new identifiers failed. *)
Theorem insert_new_records_count (df : DataFrame) (entity : string)
    (w w' : World) (n : nat) (message : string) :
  session w = None \/ session w = Some (durable w) ->
  insert_new_records df entity w = (Return (n, message), w') ->
  (n <> 0%nat ->
   n = List.length (batch_for df entity (durable w))
   /\ data <$> regulations_table (durable w')
      = (data <$> regulations_table (durable w))
        ++ where_notnull (batch_for df entity (durable w)))
  /\ (n = 0%nat ->
      regulations_table (durable w') = regulations_table (durable w)
      \/ (data <$> regulations_table (durable w')
          = (data <$> regulations_table (durable w))
            ++ where_notnull (batch_for df entity (durable w))
          /\ query_error
               (select_new_ids entity (List.length (batch_for df entity (durable w))))
               (durable w') <> None)).
Proof.
  intros [Hs|Hs] Hrun.
  - assert (Hsame : n = 0%nat /\ w' = w).
    { unfold session in Hs. destruct (connection w) as [|txn|] eqn:Hc; [|discriminate|].
      - rewrite (insert_new_records_no_connection df entity w Hc) in Hrun.
        injection Hrun as <- _ <-. auto.
      - rewrite (insert_new_records_unusable df entity w Hc) in Hrun. discriminate. }
    destruct Hsame as [-> ->]. split; [intros Hne; contradiction|]. intros _. left. reflexivity.
  - apply session_usable in Hs.
    destruct (insert_new_records_outcome df entity w w' _ Hs Hrun)
      as (_ & [(Hd & Hzero)|(Hb & Hregs & Hcount)]).
    + specialize (Hzero n message eq_refl). subst n.
      split; [intros Hne; contradiction|]. intros _. left. rewrite Hd. reflexivity.
    + pose proof (stored_batch_data _ _ _ _ Hregs) as Hdata.
      destruct Hcount as [(message0 & Heq)|(Hq2 & Hzero)].
      * injection Heq as -> _. split; [intros _; split; [reflexivity|exact Hdata]|].
        intros Hz. exfalso. apply Hb. apply nil_length_inv. exact Hz.
      * specialize (Hzero n message eq_refl). subst n.
        split; [intros Hne; contradiction|]. intros _. right. auto.
Qed.

(** * The entry point *)

Lemma run_writing_unfold (r : Row) (records : list Row) (w : World) :
  accepts_connections = true ->
  run_writing (r :: records) w =
  match insert_new_records (DataFrame_of_records (r :: records)) ENTITY_VALUE
          (set_connection (usable (durable w)) w) with
  | (Return (inserted_count, _), w') => (Return inserted_count, set_connection unusable w')
  | (Raise e, w') => (Raise e, set_connection unusable w')
  end.
Proof.
  intros Hup.
  unfold run_writing, DatabaseManager_init, connect, mbind, M_bind, try_finally, close.
  rewrite Hup. cbn [negb]. cbv beta iota.
  change (durable (set_connection no_connection w)) with (durable w).
  change (set_connection (usable (durable w)) (set_connection no_connection w))
    with (set_connection (usable (durable w)) w).
  set (w0 := set_connection (usable (durable w)) w).
  pose proof (insert_new_records_outcome (DataFrame_of_records (r :: records)) ENTITY_VALUE
                w0) as Hout.
  destruct (insert_new_records (DataFrame_of_records (r :: records)) ENTITY_VALUE w0)
    as [[[n message]|e] w'].
  - destruct (Hout _ _ eq_refl eq_refl) as ([Hc|Hc] & _); simpl; rewrite Hc; reflexivity.
  - destruct (Hout _ _ eq_refl eq_refl) as ([Hc|Hc] & _); simpl; rewrite Hc; reflexivity.
Qed.

(** X19.  [run_writing] raises in two cases only: when it cannot connect,
    and then it has changed nothing; and when the connection is lost during
    the run.  When it returns a count other than 0, the table of regulations
    has grown by that many rows.  With no record to write it touches
    nothing; else it leaves the connection closed, if it had one. *)
Theorem run_writing_outcome (records : list Row) (w : World) :
  match run_writing records w with
  | (Return n, w') =>
      (n <> 0%nat ->
       List.length (regulations_table (durable w'))
       = (List.length (regulations_table (durable w)) + n)%nat)
      /\ match records with
         | [] => n = 0%nat /\ w' = w
         | _ => connection w' = unusable
         end
  | (Raise e, w') =>
      records <> []
      /\ ((e = RuntimeError "No se pudo conectar a la base de datos"
           /\ accepts_connections = false
           /\ durable w' = durable w /\ connection w' = no_connection)
          \/ (e = DatabaseError "connection already closed"
              /\ accepts_connections = true /\ connection w' = unusable))
  end.
Proof.
  destruct records as [|r records].
  - simpl. split; [intros Hne; contradiction|]. auto.
  - destruct accepts_connections eqn:Hup.
    + rewrite (run_writing_unfold r records w Hup).
      set (df := DataFrame_of_records (r :: records)).
      set (w0 := set_connection (usable (durable w)) w).
      pose proof (insert_new_records_outcome df ENTITY_VALUE w0) as Hout.
      pose proof (insert_new_records_raises df ENTITY_VALUE w0) as Hescape.
      destruct (insert_new_records df ENTITY_VALUE w0) as [[[n message]|e] w'].
      * split; [|reflexivity]. intros Hne.
        destruct (Hout _ _ eq_refl eq_refl) as (_ & [(_ & Hzero)|(Hb & Hregs & Hcount)]).
        -- specialize (Hzero n message eq_refl). contradiction.
        -- destruct Hcount as [(message0 & Heq)|(_ & Hzero)].
           ++ injection Heq as -> _. simpl. change (durable w0) with (durable w) in Hregs.
              rewrite Hregs, length_app, stored_as_length, where_notnull_length. reflexivity.
           ++ specialize (Hzero n message eq_refl). contradiction.
      * split; [discriminate|]. right.
        destruct (Hescape w' e eq_refl) as [-> _]. auto.
    + unfold run_writing, DatabaseManager_init, connect, mbind, M_bind, raise.
      rewrite Hup. simpl. split; [discriminate|]. left. auto.
Qed.

(** X20.  The records of another entity have no effect on
    [insert_new_records]: two frames with the same columns and the same
    records of the entity are treated alike. *)
Theorem insert_new_records_ignores_other_entities (df df' : DataFrame) (entity : string)
    (w : World) :
  columns_of df' = columns_of df ->
  filter (fun r => cell r "entity" = VStr entity) df'
  = filter (fun r => cell r "entity" = VStr entity) df ->
  insert_new_records df' entity w = insert_new_records df entity w.
Proof.
  intros Hcols Hrows.
  assert (Hsel : forall db_df,
            select_new_records db_df df' entity = select_new_records db_df df entity).
  { intros db_df. unfold select_new_records. rewrite Hrows. reflexivity. }
  assert (Hget : forall column, getitem df' column = getitem df column).
  { intros column. unfold getitem. rewrite Hcols. reflexivity. }
  unfold insert_new_records, try_except, mbind, M_bind, lift.
  destruct (execute_query (select_existing entity) w) as [[existing_records|e] w0];
    [|reflexivity].
  rewrite !Hget, Hrows, Hsel. reflexivity.
Qed.

(** X21.  [insert_regulations_component] never raises.  From a connection
    with no pending change it leaves the table of regulations as it is, and
    the component table either grows by one row for each identifier, each
    with component 7, the count returned being their number, or stays as it
    is, the count being 0. *)
Theorem insert_regulations_component_outcome (new_ids : list scalar) (w : World) :
  exists n message w',
    insert_regulations_component new_ids w = (Return (n, message), w')
    /\ (session w = Some (durable w) ->
        regulations_table (durable w') = regulations_table (durable w)
        /\ ((n = List.length new_ids
             /\ data <$> regulations_component_table (durable w')
                = (data <$> regulations_component_table (durable w))
                  ++ where_notnull
                       ((fun i => <["components_id" := VInt 7]> {["regulations_id" := i]})
                          <$> new_ids))
            \/ (n = 0%nat
                /\ regulations_component_table (durable w')
                   = regulations_component_table (durable w)))).
Proof.
  unfold insert_regulations_component. destruct new_ids as [|i new_ids].
  - exists 0%nat, "No se proporcionaron IDs de regulación nuevos", w.
    split; [reflexivity|]. intros _. split; [reflexivity|]. right. auto.
  - unfold try_except, mbind, M_bind.
    match goal with
    | |- context [bulk_insert ?df regulations_component w] =>
        destruct (bulk_insert df regulations_component w) as [[n|e] w'] eqn:Hrun
    end.
    + destruct (bulk_insert_returns _ _ _ _ _ Hrun)
        as (-> & txn & Htxn & _ & _ & Hdata & Hother).
      eexists _, _, w'. split; [reflexivity|]. intros Hs. apply session_usable in Hs.
      rewrite Hs in Htxn. injection Htxn as <-.
      split; [apply (Hother regulations); discriminate|].
      left. split; [rewrite length_fmap; reflexivity|].
      unfold table in Hdata. rewrite Hdata, fmap_app, stored_as_data. reflexivity.
    + destruct (bulk_insert_raises _ _ _ _ _ Hrun) as (Hd & _).
      eexists 0%nat, _, w'. split; [reflexivity|]. intros _. rewrite Hd.
      split; [reflexivity|]. right. auto.
Qed.

(** X26.  Idempotence at the entry point.  When the records carry the
    three keys of the Identity Key, and the server accepts the connection,
    answers the queries and takes the deduplicated batch,
    [run_writing] returns the size of that batch and adds exactly its rows
    to the table; run again on the same records against the resulting store
    it returns 0 and changes nothing. *)
Theorem run_writing_idempotent (records : list Row) (w : World) :
  accepts_connections = true ->
  has_key_columns records ->
  (forall q db, query_error q db = None) ->
  first_failure regulations (durable w) (next_id w)
    (where_notnull (batch_for (DataFrame_of_records records) ENTITY_VALUE (durable w)))
  = None ->
  exists w1,
    run_writing records w
      = (Return (List.length (batch_for (DataFrame_of_records records) ENTITY_VALUE (durable w))),
         w1)
    /\ data <$> regulations_table (durable w1)
       = (data <$> regulations_table (durable w))
         ++ where_notnull (batch_for (DataFrame_of_records records) ENTITY_VALUE (durable w))
    /\ run_writing records w1 = (Return 0%nat, w1).
Proof.
  intros Hup Hcols Hq Hok. destruct records as [|r records].
  { exfalso. unfold has_key_columns, key_columns in Hcols.
    inversion Hcols as [|? ? Hin _]; subst. simpl in Hin.
    unfold columns_of in Hin. simpl in Hin. set_solver. }
  unfold has_key_columns in Hcols. rewrite <- DataFrame_of_records_columns in Hcols.
  fold (has_key_columns (DataFrame_of_records (r :: records))) in Hcols.
  set (df := DataFrame_of_records (r :: records)) in *.
  set (w0 := set_connection (usable (durable w)) w).
  assert (exists message1 w1,
            insert_new_records df ENTITY_VALUE w0
              = (Return (List.length (batch_for df ENTITY_VALUE (durable w0)), message1), w1)
            /\ data <$> regulations_table (durable w1)
               = (data <$> regulations_table (durable w0))
                 ++ where_notnull (batch_for df ENTITY_VALUE (durable w0)))
    as (message1 & w1 & Hrun1 & Hdata).
  { destruct (decide (batch_for df ENTITY_VALUE (durable w0) = [])) as [Hnil|Hb].
    - destruct (insert_new_records_nothing_new df ENTITY_VALUE w0 eq_refl (Hq _ _)
                  (or_introl Hnil)) as [message Hrun].
      exists message, w0. rewrite Hnil. simpl. rewrite app_nil_r. auto.
    - destruct (insert_new_records_inserts df ENTITY_VALUE w0 eq_refl Hcols (Hq _ _)
                  (fun db => Hq _ db) Hok Hb) as (message1 & w1 & Hrun & Hregs & _).
      exists message1, w1. split; [exact Hrun|]. exact (stored_batch_data _ _ _ _ Hregs). }
  pose proof (insert_new_records_outcome df ENTITY_VALUE w0 w1 _ eq_refl Hrun1) as (Hc1 & _).
  exists (set_connection unusable w1). split; [|split].
  - rewrite (run_writing_unfold r records w Hup). fold df. fold w0. rewrite Hrun1. reflexivity.
  - exact Hdata.
  - rewrite (run_writing_unfold r records _ Hup). fold df.
    change (durable (set_connection unusable w1)) with (durable w1).
    change (set_connection (usable (durable w1)) (set_connection unusable w1))
      with (set_connection (usable (durable w1)) w1).
    assert (Hnil : batch_for df ENTITY_VALUE (durable w1) = [])
      by exact (second_batch_empty df ENTITY_VALUE _ _ Hdata).
    destruct (insert_new_records_nothing_new df ENTITY_VALUE
                (set_connection (usable (durable w1)) w1) eq_refl (Hq _ _) (or_introl Hnil))
      as [message2 ->].
    reflexivity.
Qed.
End WriteStageOutcome.
(** * The component rows of the new regulations *)

Section Linking.
Context `{Pandas} `{Postgres}.

Lemma stored_as_ids (rows : list Row) :
  forall first_id,
    Forall (fun r => first_id <= id r) (stored_as first_id rows)
    /\ StronglySorted descending (reverse (id <$> stored_as first_id rows)).
Proof.
  induction rows as [|r rows IH]; intros first_id.
  - split; constructor.
  - destruct (IH (first_id + 1)) as [Hids Hsorted]. simpl. split.
    + constructor; [simpl; lia|].
      eapply Forall_impl; [exact Hids|]. intros x Hx. simpl in Hx. lia.
    + rewrite reverse_cons. apply StronglySorted_app_2.
      * intros x1 x2 Hx1 Hx2. apply list_elem_of_singleton in Hx2. subst x2.
        rewrite elem_of_reverse in Hx1. apply list_elem_of_fmap in Hx1 as (x & -> & Hx).
        rewrite Forall_forall in Hids. specialize (Hids x Hx). unfold descending. lia.
      * exact Hsorted.
      * repeat constructor.
Qed.

(** In a list sorted from the newest, the identifiers that are larger than
    all the others come first. *)
Lemma take_newest (old new sorted : list Z) :
  (forall x y, x ∈ old -> y ∈ new -> x < y) ->
  StronglySorted descending (reverse new) ->
  StronglySorted descending sorted ->
  sorted ≡ₚ old ++ new ->
  take (List.length new) sorted = reverse new.
Proof.
  intros Hcross Hnew Hsorted Hperm.
  assert (Heq : sorted = reverse new ++ merge_sort descending old).
  { apply (StronglySorted_unique descending); [exact Hsorted| |].
    - apply StronglySorted_app_2.
      + intros x1 x2 Hx1 Hx2. rewrite elem_of_reverse in Hx1.
        rewrite merge_sort_Permutation in Hx2.
        specialize (Hcross x2 x1 Hx2 Hx1). unfold descending. lia.
      + exact Hnew.
      + apply StronglySorted_merge_sort; apply _.
    - rewrite Hperm, reverse_Permutation, merge_sort_Permutation.
      apply Permutation_app_comm. }
  rewrite Heq. rewrite <- (length_reverse new). apply take_app_length.
Qed.

(** The query for the new identifiers returns those of the rows just
    inserted, the newest first, when the identifiers the store hands out
    are larger than those it holds. *)
Lemma new_ids_query (entity : string) (db : Database) (older : list StoredRow)
    (first_id : Z) (rows : list Row) :
  regulations_table db = older ++ stored_as first_id rows ->
  Forall (fun r => id r < first_id) older ->
  Forall (fun r => r !! "entity" = Some (VStr entity)) rows ->
  (fun row : list scalar => default VNone (row !! 0%nat))
    <$> fetchall (select_new_ids entity (List.length rows)) db
  = VInt <$> reverse (id <$> stored_as first_id rows).
Proof.
  intros Htable Holder Hentity. unfold fetchall. rewrite Htable.
  rewrite <- list_fmap_compose.
  assert (Hfilter : filter (fun r => has_entity entity r = true)
                      (older ++ stored_as first_id rows)
                    = filter (fun r => has_entity entity r = true) older
                      ++ stored_as first_id rows).
  { rewrite filter_app. f_equal. clear Htable Holder. revert first_id.
    induction Hentity as [|r rows Hr _ IH]; intros first_id; [reflexivity|].
    simpl. rewrite filter_cons_True.
    - rewrite IH. reflexivity.
    - unfold has_entity. simpl. apply bool_decide_eq_true_2. exact Hr. }
  rewrite Hfilter.
  set (kept := filter (fun r => has_entity entity r = true) older).
  set (sorted := by_id_desc (kept ++ stored_as first_id rows)).
  assert (Hids : id <$> take (List.length rows) sorted
                 = reverse (id <$> stored_as first_id rows)).
  { rewrite fmap_take.
    rewrite <- (stored_as_length rows first_id), <- (length_fmap id).
    apply (take_newest (id <$> kept)).
    - intros x y Hx Hy.
      apply list_elem_of_fmap in Hx as (rx & -> & Hrx).
      apply list_elem_of_fmap in Hy as (ry & -> & Hry).
      apply list_elem_of_filter in Hrx as [_ Hrx].
      rewrite Forall_forall in Holder. specialize (Holder rx Hrx).
      destruct (stored_as_ids rows first_id) as [Hge _].
      rewrite Forall_forall in Hge. specialize (Hge ry Hry). lia.
    - apply stored_as_ids.
    - apply (StronglySorted_fmap id newer_first descending).
      + intros x y Hxy. exact Hxy.
      + subst sorted. unfold by_id_desc. apply StronglySorted_merge_sort; apply _.
    - subst sorted. unfold by_id_desc. rewrite merge_sort_Permutation, fmap_app. reflexivity. }
  rewrite <- Hids, <- list_fmap_compose. reflexivity.
Qed.

Lemma where_notnull_link_rows (ids : list Z) :
  where_notnull ((fun i => <["components_id" := VInt 7]> {["regulations_id" := i]})
                   <$> (VInt <$> ids))
  = link_row <$> ids.
Proof.
  unfold where_notnull. rewrite <- !list_fmap_compose. apply list_fmap_ext.
  intros i x _. simpl. unfold link_row. rewrite fmap_insert, map_fmap_singleton. reflexivity.
Qed.

(** Steps 8 and 9 link the rows just inserted. *)
Lemma link_components_links (entity : string) (processed existing dups : nat) (w : World)
    (older : list StoredRow) (first_id : Z) (rows : list Row) :
  (forall db r, insert_error regulations_component db r = None) ->
  query_error (select_new_ids entity (List.length rows)) (durable w) = None ->
  connection w = usable (durable w) ->
  regulations_table (durable w) = older ++ stored_as first_id rows ->
  Forall (fun r => id r < first_id) older ->
  Forall (fun r => r !! "entity" = Some (VStr entity)) rows ->
  exists message w',
    link_components entity (List.length rows) processed existing dups w
    = (Return (List.length rows, message), w')
    /\ regulations_table (durable w') = regulations_table (durable w)
    /\ data <$> regulations_component_table (durable w')
       = (data <$> regulations_component_table (durable w))
         ++ (link_row <$> reverse (id <$> stored_as first_id rows)).
Proof.
  intros Hok Hq Hc Htable Holder Hentity.
  unfold link_components, mbind, M_bind, execute_query, cursor_execute. rewrite Hc, Hq.
  rewrite (new_ids_query entity (durable w) older first_id rows Htable Holder Hentity).
  destruct (reverse (id <$> stored_as first_id rows)) as [|i ids].
  - simpl. eexists _, w. split; [reflexivity|]. split; [reflexivity|].
    rewrite app_nil_r. reflexivity.
  - change (VInt <$> i :: ids) with (VInt i :: (VInt <$> ids)). cbv beta iota.
    unfold try_except at 1. unfold insert_regulations_component. cbv beta iota.
    change (VInt i :: (VInt <$> ids)) with (VInt <$> i :: ids).
    unfold try_except, mbind, M_bind.
    match goal with
    | |- context [bulk_insert ?df regulations_component w] =>
        pose proof (bulk_insert_spec df regulations_component w _ Hc) as Hspec;
        rewrite (first_failure_accepted regulations_component Hok) in Hspec;
        destruct Hspec as (txn' & Hrun & Hcomp & Hother)
    end.
    rewrite Hrun. cbv beta iota. eexists _, _. split; [reflexivity|]. simpl durable.
    split; [apply (Hother regulations); discriminate|].
    unfold table in Hcomp. rewrite Hcomp, fmap_app, stored_as_data.
    rewrite (where_notnull_link_rows (i :: ids)). reflexivity.
Qed.

Lemma batch_rows_entity (df : DataFrame) (entity : string) (db : Database) :
  Forall (fun r => r !! "entity" = Some (VStr entity))
         (where_notnull (batch_for df entity db)).
Proof.
  apply Forall_forall. intros r Hr. unfold where_notnull in Hr.
  apply list_elem_of_fmap in Hr as (b & -> & Hb).
  unfold batch_for in Hb. apply batch_row_shape in Hb as (x & _ & Hent & _ & ->).
  rewrite lookup_fmap, strip_aux_lookup by discriminate.
  rewrite normalize_row_other by apply entity_not_key.
  rewrite (entity_cell_lookup _ _ Hent). reflexivity.
Qed.

(** A count other than 0 comes from steps 8 to 10, run after the batch was
    committed. *)
Lemma insert_new_records_inserted (df : DataFrame) (entity : string) (w w' : World)
    (n : nat) (message : string) :
  connection w = usable (durable w) ->
  insert_new_records df entity w = (Return (n, message), w') ->
  n <> 0%nat ->
  exists txn' processed existing dups,
    regulations_table txn'
    = regulations_table (durable w)
      ++ stored_as (next_id w) (where_notnull (batch_for df entity (durable w)))
    /\ regulations_component_table txn' = regulations_component_table (durable w)
    /\ query_error (select_new_ids entity (List.length (batch_for df entity (durable w)))) txn'
       = None
    /\ link_components entity (List.length (batch_for df entity (durable w)))
         processed existing dups
         {| durable := txn'; connection := usable txn';
            next_id := next_id w
                       + Z.of_nat (List.length (batch_for df entity (durable w))) |}
       = (Return (n, message), w').
Proof.
  intros Hc Hrun Hn.
  assert (Hhandled : forall e w0,
            handle_error entity e w0 = (Return (n, message), w') -> False).
  { intros e w0. rewrite handle_error_spec.
    destruct (connection w0); intros Heq; [| |discriminate];
      injection Heq as Hz _ _; apply Hn; symmetry; exact Hz. }
  destruct (query_error (select_existing entity) (durable w)) as [f|] eqn:Hq.
  { rewrite (insert_new_records_query_fails df entity w _ f Hc Hq) in Hrun.
    exfalso. exact (Hhandled _ _ Hrun). }
  destruct (decide (batch_for df entity (durable w) = [])) as [Hnil|Hb].
  { destruct (insert_new_records_nothing_new df entity w Hc Hq (or_introl Hnil))
      as [message0 Hrun0].
    rewrite Hrun in Hrun0. injection Hrun0 as -> _. contradiction. }
  destruct (decide (has_key_columns df)) as [Hcols|Hno].
  2: { destruct (insert_new_records_nothing_new df entity w Hc Hq (or_intror Hno))
         as [message0 Hrun0].
       rewrite Hrun in Hrun0. injection Hrun0 as -> _. contradiction. }
  destruct (insert_new_records_batch df entity w _ Hc Hq Hcols Hb)
    as (processed & existing & dups & Hbatch).
  rewrite Hbatch, insert_batch_unfold in Hrun.
  pose proof (bulk_insert_spec (batch_for df entity (durable w)) regulations w _ Hc) as Hspec.
  destruct (first_failure regulations (durable w) (next_id w)
              (where_notnull (batch_for df entity (durable w)))) as [f|].
  - destruct Hspec as (next & Hins). rewrite Hins in Hrun.
    match type of Hrun with
    | context [mentions_duplicate ?m] => destruct (mentions_duplicate m)
    end.
    + injection Hrun as Hz _ _. exfalso. apply Hn. symmetry. exact Hz.
    + exfalso. exact (Hhandled _ _ Hrun).
  - destruct Hspec as (txn' & Hins & Ht & Hother). rewrite Hins in Hrun.
    assert (Hlen : (List.length (batch_for df entity (durable w)) =? 0)%nat = false).
    { apply Nat.eqb_neq. intros Hz. apply Hb. apply nil_length_inv. exact Hz. }
    rewrite Hlen in Hrun.
    exists txn', processed, existing, dups.
    split; [exact Ht|]. split; [apply (Hother regulations_component); discriminate|].
    match type of Hrun with
    | context [link_components ?a ?b ?c ?d ?e ?w1] =>
        pose proof (link_components_spec a b c d e w1 eq_refl) as Hlink;
        destruct (link_components a b c d e w1) as [[result|e0] w2] eqn:Hrun2
    end.
    + simpl durable in Hlink.
      destruct (query_error
                  (select_new_ids entity (List.length (batch_for df entity (durable w))))
                  txn') as [f|]; [discriminate|].
      split; [reflexivity|]. rewrite <- Hrun. reflexivity.
    + exfalso. exact (Hhandled _ _ Hrun).
Qed.

(** X28.  The component rows link the regulations just inserted.  From a
    connection with no pending change, when the identifiers of the stored
    regulations lie below the next identifier of the store and the server
    refuses no component row: if [insert_new_records] returns a count other
    than 0, the table of regulations has grown by the rows of the batch,
    numbered from that identifier on, and the component table by one row
    for each of them, with its identifier and component 7, the newest
    first. *)
Theorem new_regulations_are_linked (df : DataFrame) (entity : string) (w w' : World)
    (n : nat) (message : string) :
  (forall db r, insert_error regulations_component db r = None) ->
  session w = Some (durable w) ->
  Forall (fun r => id r < next_id w) (regulations_table (durable w)) ->
  insert_new_records df entity w = (Return (n, message), w') ->
  n <> 0%nat ->
  let inserted :=
    stored_as (next_id w) (where_notnull (batch_for df entity (durable w))) in
  regulations_table (durable w') = regulations_table (durable w) ++ inserted
  /\ data <$> regulations_component_table (durable w')
     = (data <$> regulations_component_table (durable w))
       ++ (link_row <$> reverse (id <$> inserted)).
Proof.
  intros Hok Hs Hids Hrun Hn inserted. apply session_usable in Hs.
  destruct (insert_new_records_inserted df entity w w' n message Hs Hrun Hn)
    as (txn' & processed & existing & dups & Hregs & Hcomps & Hq2 & Hlink).
  fold inserted in Hregs.
  rewrite <- (where_notnull_length (batch_for df entity (durable w))) in Hq2, Hlink.
  match type of Hlink with
  | link_components _ _ _ _ _ ?w1 = _ =>
      destruct (link_components_links entity processed existing dups w1
                  (regulations_table (durable w)) (next_id w)
                  (where_notnull (batch_for df entity (durable w)))
                  Hok Hq2 eq_refl Hregs Hids (batch_rows_entity df entity (durable w)))
        as (message1 & w2 & Hlink2 & Hregs2 & Hcomps2)
  end.
  rewrite Hlink2 in Hlink. injection Hlink as _ _ <-.
  simpl durable in Hregs2, Hcomps2. split.
  - rewrite Hregs2. exact Hregs.
  - fold inserted in Hcomps2. rewrite Hcomps2, Hcomps. reflexivity.
Qed.
End Linking.

(** * The theorems at concrete records *)

Ltac rule_cases Hin :=
  repeat (apply elem_of_cons in Hin as [Hin|Hin]; [injection Hin as -> ->|]);
  try (apply elem_of_nil in Hin; contradiction).

Lemma validate_record_preserves_input_witness :
  validate_record 0%nat sample_rules [sample_record]
    = (Return (Some 1%nat), [sample_record; sample_cleaned])
  /\ ((forall r d, [sample_record] !! r = Some d ->
         [sample_record; sample_cleaned] !! r = Some d)
      /\ (forall cleaned, Return (Some 1%nat) = Return (Some cleaned) ->
            [sample_record] !! cleaned = None
            /\ is_Some ([sample_record; sample_cleaned] !! cleaned)
            /\ dom (deref [sample_record] 0%nat)
               ⊆ dom (deref [sample_record; sample_cleaned] cleaned)
            /\ forall f, f ∉ sample_rules.*1 ->
                 deref [sample_record; sample_cleaned] cleaned !! f
                 = deref [sample_record] 0%nat !! f)).
Proof.
  assert (Hrun : validate_record 0%nat sample_rules [sample_record]
                 = (Return (Some 1%nat), [sample_record; sample_cleaned]))
    by (vm_compute; reflexivity).
  split; [exact Hrun|].
  exact (validate_record_preserves_input 0%nat sample_rules [sample_record]
           [sample_record; sample_cleaned] (Return (Some 1%nat)) Hrun).
Defined.

Lemma optional_field_nulled_witness :
  NoDup sample_rules.*1
  /\ (forall f rule, (f, rule) ∈ sample_rules -> required rule = true ->
        exists v, field_verdict (deref [sample_record] 0%nat) f rule = Return (true, v))
  /\ (forall f rule e, (f, rule) ∈ sample_rules ->
        field_verdict (deref [sample_record] 0%nat) f rule <> Raise e)
  /\ exists cleaned h',
       validate_record 0%nat sample_rules [sample_record] = (Return (Some cleaned), h')
       /\ (forall f rule, (f, rule) ∈ sample_rules -> required rule = false ->
             field_verdict (deref [sample_record] 0%nat) f rule = Return (false, VNone) ->
             deref h' cleaned !! f = Some VNone)
       /\ (forall f rule v, (f, rule) ∈ sample_rules ->
             field_verdict (deref [sample_record] 0%nat) f rule = Return (true, v) ->
             deref h' cleaned !! f = Some v)
       /\ (forall f, f ∉ sample_rules.*1 ->
             deref h' cleaned !! f = deref [sample_record] 0%nat !! f).
Proof.
  assert (Hnd : NoDup sample_rules.*1) by (apply (bool_decide_unpack (NoDup (sample_rules.*1))); vm_compute; exact I).
  assert (Hreq : forall f rule, (f, rule) ∈ sample_rules -> required rule = true ->
            exists v, field_verdict (deref [sample_record] 0%nat) f rule = Return (true, v)).
  { intros f rule Hin Hr. unfold sample_rules in Hin. rule_cases Hin; try discriminate.
    eexists. vm_compute. reflexivity. }
  assert (Hsafe : forall f rule e, (f, rule) ∈ sample_rules ->
            field_verdict (deref [sample_record] 0%nat) f rule <> Raise e).
  { intros f rule e Hin. unfold sample_rules in Hin. rule_cases Hin; vm_compute; discriminate. }
  split; [exact Hnd|]. split; [exact Hreq|]. split; [exact Hsafe|].
  exact (optional_field_nulled 0%nat sample_rules [sample_record] Hnd Hreq Hsafe).
Defined.

(** C6 as stated fails: an optional field that is null does not keep the
    record when a required field fails too. *)
Lemma optional_nulling_counterexample :
  let rules := [("summary"%string, rule_of "str" false);
                ("title"%string, rule_of "str" true)] in
  let record : Dict := {[ "summary"%string := VNone; "title"%string := VNone ]} in
  required (rule_of "str" false) = false
  /\ field_verdict record "summary" (rule_of "str" false) = Return (false, VNone)
  /\ (validate_record 0%nat rules [record]).1 = Return None.
Proof. repeat split. Qed.

(** ** The write stage on a small store *)

(** The second row of the batch is refused: the first is not committed
    either. *)
Example scenario_partial_failure :
  let w := connected_to stocked_database 2 in
  let run := bulk_insert [resolucion_9; decreto_124_same_link] regulations w in
  run.1 = Raise unique_violation
  /\ durable run.2 = stocked_database
  /\ session run.2 = Some stocked_database.
Proof. repeat split; vm_compute; reflexivity. Qed.

(** Both rows are accepted: both are committed. *)
Example scenario_batch_committed :
  let w := connected_to empty_database 1 in
  let run := bulk_insert [decreto_123; resolucion_9] regulations w in
  run.1 = Return 2%nat
  /\ data <$> regulations_table (durable run.2) = [decreto_123; resolucion_9]
  /\ session run.2 = Some (durable run.2).
Proof. repeat split; vm_compute; reflexivity. Qed.

Lemma duplicate_violation_reports_zero_witness :
  let w := connected_to stocked_database 2 in
  session w = Some stocked_database
  /\ query_error (select_existing ENTITY_VALUE) stocked_database = None
  /\ has_key_columns [decreto_124_same_link]
  /\ batch_for [decreto_124_same_link] ENTITY_VALUE stocked_database <> []
  /\ bulk_insert (batch_for [decreto_124_same_link] ENTITY_VALUE stocked_database) regulations w
     = (Raise unique_violation, w)
  /\ mentions_duplicate (exn_str unique_violation) = true
  /\ ((mentions_duplicate (exn_str unique_violation) = true \/ is_Some (session w) ->
       exists message,
         insert_new_records [decreto_124_same_link] ENTITY_VALUE w
         = (Return (0%nat, message), w))
      /\ (mentions_duplicate (exn_str unique_violation) = true ->
          insert_new_records [decreto_124_same_link] ENTITY_VALUE w
          = (Return (0%nat,
                     "Algunos registros de " +:+ ENTITY_VALUE
                     +:+ " eran duplicados y se omitieron"), w))
      /\ durable w = durable w).
Proof.
  intros w.
  assert (Hs : session w = Some stocked_database) by reflexivity.
  assert (Hq : query_error (select_existing ENTITY_VALUE) stocked_database = None)
    by reflexivity.
  assert (Hcols : has_key_columns [decreto_124_same_link])
    by (apply (bool_decide_unpack _); vm_compute; exact I).
  assert (Hb : batch_for [decreto_124_same_link] ENTITY_VALUE stocked_database <> [])
    by (vm_compute; discriminate).
  assert (Hins : bulk_insert (batch_for [decreto_124_same_link] ENTITY_VALUE stocked_database)
                   regulations w = (Raise unique_violation, w))
    by (vm_compute; reflexivity).
  assert (Hdup : mentions_duplicate (exn_str unique_violation) = true)
    by (vm_compute; reflexivity).
  split; [exact Hs|]. split; [exact Hq|]. split; [exact Hcols|]. split; [exact Hb|].
  split; [exact Hins|]. split; [exact Hdup|].
  exact (duplicate_violation_reports_zero [decreto_124_same_link] ENTITY_VALUE w w
           stocked_database unique_violation Hs Hq Hcols Hb Hins).
Defined.

Lemma other_insert_error_is_reported_witness :
  let w := connected_to stocked_database 2 in
  session w = Some stocked_database
  /\ query_error (select_existing ENTITY_VALUE) stocked_database = None
  /\ has_key_columns [long_title_regulation]
  /\ batch_for [long_title_regulation] ENTITY_VALUE stocked_database <> []
  /\ bulk_insert (batch_for [long_title_regulation] ENTITY_VALUE stocked_database) regulations w
     = (Raise too_long, w)
  /\ mentions_duplicate (exn_str too_long) = false
  /\ (durable w = durable w
      /\ match session w with
         | Some _ =>
             insert_new_records [long_title_regulation] ENTITY_VALUE w
             = (Return (0%nat,
                        "Error procesando entidad " +:+ ENTITY_VALUE +:+ ": "
                        +:+ exn_str too_long), w)
             /\ session w = Some (durable w)
         | None =>
             insert_new_records [long_title_regulation] ENTITY_VALUE w
             = (Raise (DatabaseError "connection already closed"), w)
         end).
Proof.
  intros w.
  assert (Hs : session w = Some stocked_database) by reflexivity.
  assert (Hq : query_error (select_existing ENTITY_VALUE) stocked_database = None)
    by reflexivity.
  assert (Hcols : has_key_columns [long_title_regulation])
    by (apply (bool_decide_unpack _); vm_compute; exact I).
  assert (Hb : batch_for [long_title_regulation] ENTITY_VALUE stocked_database <> [])
    by (vm_compute; discriminate).
  assert (Hins : bulk_insert (batch_for [long_title_regulation] ENTITY_VALUE stocked_database)
                   regulations w = (Raise too_long, w))
    by (vm_compute; reflexivity).
  assert (Hdup : mentions_duplicate (exn_str too_long) = false)
    by (vm_compute; reflexivity).
  split; [exact Hs|]. split; [exact Hq|]. split; [exact Hcols|]. split; [exact Hb|].
  split; [exact Hins|]. split; [exact Hdup|].
  exact (other_insert_error_is_reported [long_title_regulation] ENTITY_VALUE w w
           stocked_database too_long Hs Hq Hcols Hb Hins Hdup).
Defined.

(** C4 as stated fails: the insertion of the batch raises an error that is no
    duplicate violation, and the write stage hands a result to its caller:
    [insert_new_records] returns a count and a message, [run_writing] returns
    0. *)
Lemma persistence_error_counterexample :
  let w := connected_to stocked_database 2 in
  (bulk_insert (batch_for [long_title_regulation] ENTITY_VALUE stocked_database) regulations w).1
    = Raise too_long
  /\ mentions_duplicate (exn_str too_long) = false
  /\ (insert_new_records [long_title_regulation] ENTITY_VALUE w).1
     = Return (0%nat,
               "Error procesando entidad Agencia Nacional de Infraestructura: Error insertando en regulations: value too long for type character varying(65)")
  /\ (run_writing [long_title_regulation] w).1 = Return 0%nat.
Proof. repeat split; vm_compute; reflexivity. Qed.

(** The server goes away during the insertion: the rollback of
    [bulk_insert] raises, then that of the handler, and its error leaves
    [insert_new_records] and [run_writing]; nothing was committed. *)
Example scenario_lost_connection :
  let w := connected_to stocked_database 2 in
  let run := insert_new_records (H0 := lossy_postgres) [resolucion_9] ENTITY_VALUE w in
  run.1 = Raise (DatabaseError "connection already closed")
  /\ durable run.2 = stocked_database
  /\ connection run.2 = unusable
  /\ (run_writing (H0 := lossy_postgres) [resolucion_9] w).1
     = Raise (DatabaseError "connection already closed").
Proof. repeat split; vm_compute; reflexivity. Qed.

Lemma write_stage_idempotent_witness :
  let w := connected_to stocked_database 2 in
  let df := [decreto_123; resolucion_9; resolucion_9_padded] in
  session w = Some (durable w)
  /\ has_key_columns df
  /\ (forall q db, query_error q db = None)
  /\ first_failure regulations (durable w) (next_id w)
       (where_notnull (batch_for df ENTITY_VALUE (durable w))) = None
  /\ List.length (batch_for df ENTITY_VALUE (durable w)) = 1%nat
  /\ exists message1 w1,
       insert_new_records df ENTITY_VALUE w
         = (Return (List.length (batch_for df ENTITY_VALUE (durable w)), message1), w1)
       /\ data <$> regulations_table (durable w1)
          = (data <$> regulations_table (durable w))
            ++ where_notnull (batch_for df ENTITY_VALUE (durable w))
       /\ match session w1 with
          | Some _ =>
              exists message2,
                insert_new_records df ENTITY_VALUE w1 = (Return (0%nat, message2), w1)
          | None =>
              insert_new_records df ENTITY_VALUE w1
              = (Raise (DatabaseError "connection already closed"), w1)
          end.
Proof.
  intros w df.
  assert (Hs : session w = Some (durable w)) by reflexivity.
  assert (Hcols : has_key_columns df)
    by (apply (bool_decide_unpack _); vm_compute; exact I).
  assert (Hq : forall q db, query_error q db = None) by (intros q db; reflexivity).
  assert (Hok : first_failure regulations (durable w) (next_id w)
                  (where_notnull (batch_for df ENTITY_VALUE (durable w))) = None)
    by (vm_compute; reflexivity).
  split; [exact Hs|]. split; [exact Hcols|]. split; [exact Hq|]. split; [exact Hok|].
  split; [vm_compute; reflexivity|].
  exact (write_stage_idempotent df ENTITY_VALUE w Hs Hcols Hq Hok).
Defined.

(** C7 as stated fails: the batch holds one regulation, which the store
    does not hold, but no creation date; step 3 raises [KeyError], and the
    first run inserts nothing.  Nor does it when the server refuses the
    batch. *)
Lemma first_run_inserts_nothing_counterexample :
  let w := connected_to empty_database 1 in
  let record : Row :=
    {[ "title" := VStr "Resolucion 9"; "external_link" := VStr "http://y";
       "entity" := VStr ENTITY_VALUE ]} in
  regulations_table (durable w) = []
  /\ insert_new_records [record] ENTITY_VALUE w
     = (Return (0%nat, "Error procesando entidad " +:+ ENTITY_VALUE +:+ ": 'created_at'"), w)
  /\ (run_writing [record] w).1 = Return 0%nat
  /\ regulations_table (durable (run_writing [record] w).2) = []
  /\ (run_writing [long_title_regulation] w).1 = Return 0%nat
  /\ regulations_table (durable (run_writing [long_title_regulation] w).2) = [].
Proof. repeat split; vm_compute; reflexivity. Qed.

(** The first run inserts the one new regulation, the second nothing. *)
Example scenario_two_runs :
  let w := connected_to stocked_database 2 in
  let df := [decreto_123; resolucion_9; resolucion_9_padded] in
  let first := insert_new_records df ENTITY_VALUE w in
  let second := insert_new_records df ENTITY_VALUE first.2 in
  (exists message, first.1 = Return (1%nat, message))
  /\ data <$> regulations_table (durable first.2) = [decreto_123; resolucion_9]
  /\ second.1
     = Return (0%nat,
               "Sin registros nuevos para " +:+ ENTITY_VALUE
               +:+ " tras validación de duplicados")
  /\ second.2 = first.2.
Proof.
  repeat split; try (vm_compute; reflexivity).
  vm_compute. eexists. reflexivity.
Qed.

(** ** The scenarios of the specification, run on the code *)

(** Rules [{title: required}], record [{title: null}]: discarded. *)
Example scenario_null_title_discarded :
  (validate_record 0%nat
     [("title"%string, {| type := None; required := true; regex := None |})]
     [ {[ "title"%string := VNone ]} ]).1 = Return None.
Proof. reflexivity. Qed.

(** A numeric string is coerced to the number; text that is no number makes
    the field fail. *)
Example scenario_numeric_string :
  _validate_field (VStr "14") (rule_of "int" false) = Return (true, VInt 14)
  /\ _validate_field (VStr "catorce") (rule_of "int" false) = Return (false, VNone).
Proof. split; reflexivity. Qed.

(** A pattern is matched from the start of the text. *)
Example scenario_pattern :
  _validate_field (VStr "Decreto 123")
    {| type := Some "str"%string; required := true; regex := Some "Decreto"%string |}
  = Return (true, VStr "Decreto 123")
  /\ _validate_field (VStr "El Decreto 123")
       {| type := Some "str"%string; required := true; regex := Some "Decreto"%string |}
     = Return (false, VNone).
Proof. split; reflexivity. Qed.

(** A record with no conflicting stored row is inserted: the count is 1. *)
Example scenario_first_insert :
  (run_writing [decreto_123] (connected_to empty_database 1)).1 = Return 1%nat.
Proof. vm_compute. reflexivity. Qed.

(** The store holds "Decreto 123"; the batch submits it again together with a
    new regulation: only the second is inserted. *)
Example scenario_existing_and_new :
  let run := run_writing [decreto_123; resolucion_9] (connected_to stocked_database 2) in
  run.1 = Return 1%nat
  /\ data <$> regulations_table (durable run.2) = [decreto_123; resolucion_9].
Proof. split; vm_compute; reflexivity. Qed.

(** Batch [A, A', B] where A and A' collide on the Identity Key: A and B are
    kept, A' is dropped. *)
Example scenario_first_occurrence :
  select_new_records [] [resolucion_9; resolucion_9_padded; decreto_123] ENTITY_VALUE
  = ([resolucion_9; decreto_123], 1%nat).
Proof. vm_compute. reflexivity. Qed.

(** * The further properties at concrete inputs *)

(** ** The scraper on the sample site *)

(** The two rows of the sample page that the scraper keeps: the decree, its
    title cleaned, its link made absolute and its timestamp cut down to the
    date; the resolution, its date reordered.  The row without a date and
    the row with a title of more than 65 characters are skipped, and so is
    the second page, which the site does not serve. *)
Example scenario_scraped_page :
  match run_extraction 2 0%nat with
  | (Return records, _) =>
      (fun d => (subscript d "title", subscript d "external_link",
                 subscript d "created_at", subscript d "rtype_id")) <$> records
  | (Raise _, _) => []
  end
  = [(PStr (u "Decreto 1079 de 2015"),
      PStr (u "https://www.ani.gov.co/sites/default/files/decreto_1079.pdf"),
      PStr (u "2015-05-26"), PInt 14);
     (PStr (u "RESOLUCI" ++ [0xD3%N] ++ u "N 955 de 2016"),
      PStr (u "https://www.ani.gov.co/resolucion_955.pdf"),
      PStr (u "2016-03-07"), PInt 15)].
Proof. vm_compute. reflexivity. Qed.

Example scenario_clean_quotes :
  clean_quotes (u "  El " ++ [0xAB%N] ++ u "Decreto" ++ [0xBB%N; 0x9%N; 0xA0%N] ++ u "'1079'  ")
  = u "El Decreto 1079".
Proof. vm_compute. reflexivity. Qed.

Lemma created_at_of_slash_date_witness :
  str_contains (u "/") (u "7" ++ u "3" ++ u "2016") = false
  /\ str_contains (u "T") (u "7" ++ u "3" ++ u "2016") = false
  /\ created_at_of (u "7" ++ u "/" ++ u "3" ++ u "/" ++ u "2016")
     = u "2016" ++ u "-" ++ str_zfill 2 (u "3") ++ u "-" ++ str_zfill 2 (u "7").
Proof.
  assert (Hslash : str_contains (u "/") (u "7" ++ u "3" ++ u "2016") = false) by reflexivity.
  assert (HT : str_contains (u "T") (u "7" ++ u "3" ++ u "2016") = false) by reflexivity.
  split; [exact Hslash|]. split; [exact HT|].
  exact (created_at_of_slash_date (u "7") (u "3") (u "2016") Hslash HT).
Defined.

Example scenario_slash_date : created_at_of (u "7/3/2016") = u "2016-03-07".
Proof. reflexivity. Qed.

Lemma scraped_titles_and_links_witness :
  run_extraction 2 0%nat = (Return sample_records, 2%nat)
  /\ List.length sample_records = 2%nat
  /\ Forall (fun norma_data =>
                 exists title link,
                   norma_data !! "title" = Some (PStr title)
                   /\ (List.length title <= 65)%nat
                   /\ (exists raw_title, title = clean_quotes raw_title)
                   /\ norma_data !! "external_link" = Some (PStr link)
                   /\ str_startswith (u "http") link = true
                   /\ norma_data !! "gtype" = Some (PStr (u "link")))
              sample_records.
Proof.
  assert (Hrun : run_extraction 2 0%nat = (Return sample_records, 2%nat))
    by reflexivity.
  split; [exact Hrun|]. split; [reflexivity|].
  exact (scraped_titles_and_links 2 0%nat 2%nat sample_records Hrun).
Defined.

Lemma scraped_records_are_complete_witness :
  run_extraction 2 0%nat = (Return sample_records, 2%nat)
  /\ List.length sample_records = 2%nat
  /\ Forall (fun norma_data =>
                 dom norma_data = norma_keys
                 /\ (exists created_at c,
                       norma_data !! "created_at" = Some (PStr created_at)
                       /\ c ∈ created_at /\ isspace c = false)
                 /\ (exists title,
                       norma_data !! "title" = Some (PStr title)
                       /\ norma_data !! "rtype_id" = Some (PInt (get_rtype_id title)))
                 /\ (norma_data !! "rtype_id" = Some (PInt 14)
                     \/ norma_data !! "rtype_id" = Some (PInt 15))
                 /\ norma_data !! "entity" = Some (PStr (u ENTITY_VALUE))
                 /\ norma_data !! "classification_id" = Some (PInt 13)
                 /\ norma_data !! "is_active" = Some (PBool true))
              sample_records.
Proof.
  assert (Hrun : run_extraction 2 0%nat = (Return sample_records, 2%nat))
    by reflexivity.
  split; [exact Hrun|]. split; [reflexivity|].
  exact (scraped_records_are_complete 2 0%nat 2%nat sample_records Hrun).
Defined.

(** ** The validator on the sample record *)

Lemma validate_record_idempotent_witness :
  NoDup sample_rules.*1
  /\ validate_record 0%nat sample_rules [sample_record]
     = (Return (Some 1%nat), [sample_record; sample_cleaned])
  /\ validate_record 1%nat sample_rules [sample_record; sample_cleaned]
     = (Return (Some (List.length [sample_record; sample_cleaned])),
        [sample_record; sample_cleaned] ++ [deref [sample_record; sample_cleaned] 1%nat]).
Proof.
  assert (Hnd : NoDup sample_rules.*1)
    by (apply (bool_decide_unpack (NoDup (sample_rules.*1))); vm_compute; exact I).
  assert (Hrun : validate_record 0%nat sample_rules [sample_record]
                 = (Return (Some 1%nat), [sample_record; sample_cleaned]))
    by (vm_compute; reflexivity).
  split; [exact Hnd|]. split; [exact Hrun|].
  exact (validate_record_idempotent 0%nat 1%nat sample_rules [sample_record]
           [sample_record; sample_cleaned] Hnd Hrun).
Defined.

Lemma cleaned_record_satisfies_rules_witness :
  NoDup sample_rules.*1
  /\ validate_record 0%nat sample_rules [sample_record]
     = (Return (Some 1%nat), [sample_record; sample_cleaned])
  /\ ("rtype_id"%string, rule_of "int" false) ∈ sample_rules
  /\ exists v,
       deref [sample_record; sample_cleaned] 1%nat !! "rtype_id" = Some v
       /\ (v = VNone -> required (rule_of "int" false) = false)
       /\ (v <> VNone ->
           (forall name t, type (rule_of "int" false) = Some name -> _TYPE_MAP name = Some t ->
                           isinstance v t = true)
           /\ (forall r s, regex (rule_of "int" false) = Some r -> r <> ""%string ->
                           v = VStr s -> re_match r s = true)).
Proof.
  assert (Hnd : NoDup sample_rules.*1)
    by (apply (bool_decide_unpack (NoDup (sample_rules.*1))); vm_compute; exact I).
  assert (Hrun : validate_record 0%nat sample_rules [sample_record]
                 = (Return (Some 1%nat), [sample_record; sample_cleaned]))
    by (vm_compute; reflexivity).
  assert (Hin : ("rtype_id"%string, rule_of "int" false) ∈ sample_rules)
    by (unfold sample_rules; do 2 right; left).
  split; [exact Hnd|]. split; [exact Hrun|]. split; [exact Hin|].
  exact (cleaned_record_satisfies_rules 0%nat 1%nat sample_rules [sample_record]
           [sample_record; sample_cleaned] "rtype_id" (rule_of "int" false) Hnd Hrun Hin).
Defined.

Lemma bool_rule_accepts_every_value_witness :
  VStr "false" <> VNone
  /\ exists b,
       _validate_field (VStr "false")
         {| type := Some "bool"%string; required := true; regex := Some "^(true|false)$"%string |}
       = Return (true, VBool b)
       /\ (forall s, VStr "false" = VStr s -> b = negb (String.eqb s ""))
       /\ (forall b', VStr "false" = VBool b' -> b = b').
Proof.
  assert (Hnn : VStr "false" <> VNone) by discriminate.
  split; [exact Hnn|].
  exact (bool_rule_accepts_every_value (VStr "false") true (Some "^(true|false)$"%string) Hnn).
Defined.

(** The text "false" under a rule of type "bool" becomes [True]. *)
Example scenario_bool_of_text :
  _validate_field (VStr "false") (rule_of "bool" true) = Return (true, VBool true).
Proof. reflexivity. Qed.

Lemma run_validation_without_rules_witness :
  Forall (fun r => (r < List.length [sample_record])%nat) [0%nat]
  /\ run_validation [0%nat] [] [sample_record]
     = (Return (seq (List.length [sample_record]) (List.length [0%nat])),
        [sample_record] ++ (deref [sample_record] <$> [0%nat])).
Proof.
  assert (Hrefs : Forall (fun r => (r < List.length [sample_record])%nat) [0%nat])
    by (constructor; [simpl; lia|constructor]).
  split; [exact Hrefs|].
  exact (run_validation_without_rules [0%nat] [sample_record] Hrefs).
Defined.

Lemma run_validation_keeps_order_witness :
  Forall (fun r => (r < List.length [sample_record])%nat) [0%nat]
  /\ run_validation [0%nat] sample_rules [sample_record]
     = (Return [1%nat], [sample_record; sample_cleaned])
  /\ Forall2 (fun cleaned d => [sample_record; sample_cleaned] !! cleaned = Some d) [1%nat]
       (omap (fun r => match validate_record r sample_rules [sample_record] with
                       | (Return (Some cleaned), h1) => Some (deref h1 cleaned)
                       | _ => None
                       end) [0%nat]).
Proof.
  assert (Hrefs : Forall (fun r => (r < List.length [sample_record])%nat) [0%nat])
    by (constructor; [simpl; lia|constructor]).
  assert (Hrun : run_validation [0%nat] sample_rules [sample_record]
                 = (Return [1%nat], [sample_record; sample_cleaned]))
    by (vm_compute; reflexivity).
  split; [exact Hrefs|]. split; [exact Hrun|].
  exact (run_validation_keeps_order sample_rules [0%nat] [1%nat] [sample_record]
           [sample_record; sample_cleaned] Hrefs Hrun).
Defined.

(** ** The writer on the small store *)

Lemma insert_new_records_count_witness :
  let w := connected_to stocked_database 2 in
  let df := [decreto_123; resolucion_9] in
  (session w = None \/ session w = Some (durable w))
  /\ exists message w',
       insert_new_records df ENTITY_VALUE w = (Return (1%nat, message), w')
       /\ ((1%nat <> 0%nat ->
            1%nat = List.length (batch_for df ENTITY_VALUE (durable w))
            /\ data <$> regulations_table (durable w')
               = (data <$> regulations_table (durable w))
                 ++ where_notnull (batch_for df ENTITY_VALUE (durable w)))
           /\ (1%nat = 0%nat ->
               regulations_table (durable w') = regulations_table (durable w)
               \/ (data <$> regulations_table (durable w')
                   = (data <$> regulations_table (durable w))
                     ++ where_notnull (batch_for df ENTITY_VALUE (durable w))
                   /\ query_error
                        (select_new_ids ENTITY_VALUE
                           (List.length (batch_for df ENTITY_VALUE (durable w))))
                        (durable w') <> None))).
Proof.
  intros w df.
  assert (Hs : session w = None \/ session w = Some (durable w)) by (right; reflexivity).
  assert (Hrun : exists message w',
             insert_new_records df ENTITY_VALUE w = (Return (1%nat, message), w'))
    by (vm_compute; eexists _, _; reflexivity).
  destruct Hrun as (message & w' & Hrun).
  split; [exact Hs|]. exists message, w'. split; [exact Hrun|].
  exact (insert_new_records_count df ENTITY_VALUE w w' 1%nat message Hs Hrun).
Defined.

(** The batch is committed, then the query for the new identifiers fails:
    the count returned is 0, and the table holds the new row. *)
Example scenario_failed_id_query :
  let w := connected_to stocked_database 2 in
  let run := insert_new_records (H0 := forgetful_postgres) [resolucion_9] ENTITY_VALUE w in
  run.1 = Return (0%nat,
                  "Error procesando entidad " +:+ ENTITY_VALUE
                  +:+ ": canceling statement due to statement timeout")
  /\ data <$> regulations_table (durable run.2) = [decreto_123; resolucion_9].
Proof. split; vm_compute; reflexivity. Qed.

(** No record of the frame has a creation date: step 3 raises [KeyError],
    which the handler reports; nothing is inserted. *)
Example scenario_missing_column :
  let w := connected_to stocked_database 2 in
  let df : DataFrame :=
    [ {[ "title" := VStr "Resolucion 9"; "external_link" := VStr "http://y";
         "entity" := VStr ENTITY_VALUE ]} ] in
  insert_new_records df ENTITY_VALUE w
  = (Return (0%nat, "Error procesando entidad " +:+ ENTITY_VALUE +:+ ": 'created_at'"), w).
Proof. vm_compute. reflexivity. Qed.

(** A manager that was closed: the query raises, then the rollback of the
    handler, and that error leaves [insert_new_records]. *)
Example scenario_closed_connection :
  let w := closed_on stocked_database 2 in
  insert_new_records [resolucion_9] ENTITY_VALUE w
  = (Raise (DatabaseError "connection already closed"), w).
Proof. vm_compute. reflexivity. Qed.

(** [run_writing] leaves its connection closed. *)
Example scenario_connection_closed_after_run :
  connection (run_writing [resolucion_9] (connected_to stocked_database 2)).2 = unusable.
Proof. vm_compute. reflexivity. Qed.

(** In the frame of the sample pandas, an integer next to a null becomes a
    float, and the null [NaN]. *)
Example scenario_integer_column_with_null :
  DataFrame_of_records
    [ {[ "title" := VStr "a"; "rtype_id" := VInt 14 ]};
      {[ "title" := VStr "b"; "rtype_id" := VNone ]} ]
  = [ {[ "title" := VStr "a"; "rtype_id" := VFloat (binary64_of_Z 14) ]};
      {[ "title" := VStr "b"; "rtype_id" := NaN ]} ].
Proof. vm_compute. reflexivity. Qed.

Lemma insert_new_records_ignores_other_entities_witness :
  let w := connected_to stocked_database 2 in
  let df := [decreto_123; resolucion_9] in
  let df' :=
    [decreto_123;
     regulation (VStr "Acuerdo 5") (VStr "2024-02-02") (VStr "http://w") "Otra entidad";
     resolucion_9] in
  columns_of df' = columns_of df
  /\ filter (fun r => cell r "entity" = VStr ENTITY_VALUE) df'
     = filter (fun r => cell r "entity" = VStr ENTITY_VALUE) df
  /\ insert_new_records df' ENTITY_VALUE w = insert_new_records df ENTITY_VALUE w.
Proof.
  intros w df df'.
  assert (Hcols : columns_of df' = columns_of df) by (vm_compute; reflexivity).
  assert (Hrows : filter (fun r => cell r "entity" = VStr ENTITY_VALUE) df'
                  = filter (fun r => cell r "entity" = VStr ENTITY_VALUE) df)
    by (vm_compute; reflexivity).
  split; [exact Hcols|]. split; [exact Hrows|].
  exact (insert_new_records_ignores_other_entities df df' ENTITY_VALUE w Hcols Hrows).
Defined.

(** The link row of a new regulation. *)
Example scenario_component_row :
  let run := insert_regulations_component [VInt 1] (connected_to stocked_database 2) in
  run.1 = Return (1%nat, "Insertados 1 componentes de regulación")
  /\ data <$> regulations_component_table (durable run.2)
     = [ {[ "regulations_id" := VInt 1; "components_id" := VInt 7 ]} ].
Proof. split; vm_compute; reflexivity. Qed.

Lemma stored_duplicate_is_dropped_witness :
  let df := [decreto_123; resolucion_9] in
  decreto_123 ∈ [decreto_123]
  /\ identity_key decreto_123 = identity_key decreto_123
  /\ resolucion_9 ∈ (select_new_records [decreto_123] df ENTITY_VALUE).1
  /\ subset_of key_columns resolucion_9 <> subset_of key_columns (normalize_row decreto_123).
Proof.
  intros df.
  assert (Hs : decreto_123 ∈ [decreto_123]) by left.
  assert (Hkey : identity_key decreto_123 = identity_key decreto_123) by reflexivity.
  assert (Hbatch : (select_new_records [decreto_123] df ENTITY_VALUE).1 = [resolucion_9])
    by (vm_compute; reflexivity).
  assert (Hb : resolucion_9 ∈ (select_new_records [decreto_123] df ENTITY_VALUE).1)
    by (rewrite Hbatch; left).
  split; [exact Hs|]. split; [exact Hkey|]. split; [exact Hb|].
  exact (stored_duplicate_is_dropped [decreto_123] df ENTITY_VALUE decreto_123 decreto_123
           resolucion_9 Hs Hkey Hb).
Defined.

Lemma fresh_candidate_is_kept_witness :
  let df := [decreto_123; resolucion_9] in
  has_key_columns df
  /\ resolucion_9 ∈ df
  /\ cell resolucion_9 "entity" = VStr ENTITY_VALUE
  /\ fresh [decreto_123] (normalize_row resolucion_9)
  /\ Forall (fun column => getitem df column = Return tt) ("entity" :: key_columns)
  /\ exists b, b ∈ (select_new_records [decreto_123] df ENTITY_VALUE).1
               /\ subset_of key_columns b = subset_of key_columns (normalize_row resolucion_9).
Proof.
  intros df.
  assert (Hcols : has_key_columns df)
    by (apply (bool_decide_unpack _); vm_compute; exact I).
  assert (Hx : resolucion_9 ∈ df) by (right; left).
  assert (Hent : cell resolucion_9 "entity" = VStr ENTITY_VALUE) by reflexivity.
  assert (Hfresh : fresh [decreto_123] (normalize_row resolucion_9))
    by (apply (bool_decide_unpack _); vm_compute; exact I).
  split; [exact Hcols|]. split; [exact Hx|]. split; [exact Hent|]. split; [exact Hfresh|].
  exact (fresh_candidate_is_kept [decreto_123] df ENTITY_VALUE resolucion_9
           Hcols Hx Hent Hfresh).
Defined.

Lemma run_writing_idempotent_witness :
  let w := {| durable := stocked_database; connection := no_connection; next_id := 2 |} in
  let records := [decreto_123; resolucion_9] in
  accepts_connections = true
  /\ has_key_columns records
  /\ (forall q db, query_error q db = None)
  /\ first_failure regulations (durable w) (next_id w)
       (where_notnull (batch_for (DataFrame_of_records records) ENTITY_VALUE (durable w)))
     = None
  /\ List.length (batch_for (DataFrame_of_records records) ENTITY_VALUE (durable w)) = 1%nat
  /\ exists w1,
       run_writing records w
       = (Return (List.length (batch_for (DataFrame_of_records records) ENTITY_VALUE (durable w))),
          w1)
       /\ data <$> regulations_table (durable w1)
          = (data <$> regulations_table (durable w))
            ++ where_notnull (batch_for (DataFrame_of_records records) ENTITY_VALUE (durable w))
       /\ run_writing records w1 = (Return 0%nat, w1).
Proof.
  intros w records.
  assert (Hup : accepts_connections = true) by reflexivity.
  assert (Hcols : has_key_columns records)
    by (apply (bool_decide_unpack _); vm_compute; exact I).
  assert (Hq : forall q db, query_error q db = None) by (intros q db; reflexivity).
  assert (Hok : first_failure regulations (durable w) (next_id w)
                  (where_notnull (batch_for (DataFrame_of_records records) ENTITY_VALUE
                                    (durable w))) = None)
    by (vm_compute; reflexivity).
  split; [exact Hup|]. split; [exact Hcols|]. split; [exact Hq|]. split; [exact Hok|].
  split; [vm_compute; reflexivity|].
  exact (run_writing_idempotent records w Hup Hcols Hq Hok).
Defined.

Lemma new_regulations_are_linked_witness :
  let w := connected_to stocked_database 2 in
  let df := [decreto_123; resolucion_9] in
  (forall db r, insert_error regulations_component db r = None)
  /\ session w = Some (durable w)
  /\ Forall (fun r => id r < next_id w) (regulations_table (durable w))
  /\ exists message w',
       insert_new_records df ENTITY_VALUE w = (Return (1%nat, message), w')
       /\ 1%nat <> 0%nat
       /\ regulations_table (durable w')
          = regulations_table (durable w)
            ++ stored_as (next_id w) (where_notnull (batch_for df ENTITY_VALUE (durable w)))
       /\ data <$> regulations_component_table (durable w')
          = (data <$> regulations_component_table (durable w))
            ++ (link_row
                  <$> reverse (id <$> stored_as (next_id w)
                                        (where_notnull (batch_for df ENTITY_VALUE (durable w))))).
Proof.
  intros w df.
  assert (Hok : forall db r, insert_error regulations_component db r = None)
    by (intros db r; reflexivity).
  assert (Hs : session w = Some (durable w)) by reflexivity.
  assert (Hids : Forall (fun r => id r < next_id w) (regulations_table (durable w)))
    by (constructor; [simpl; lia|constructor]).
  assert (Hrun : exists message w',
             insert_new_records df ENTITY_VALUE w = (Return (1%nat, message), w'))
    by (vm_compute; eexists _, _; reflexivity).
  destruct Hrun as (message & w' & Hrun).
  assert (Hn : 1%nat <> 0%nat) by discriminate.
  split; [exact Hok|]. split; [exact Hs|]. split; [exact Hids|].
  exists message, w'. split; [exact Hrun|]. split; [exact Hn|].
  exact (new_regulations_are_linked df ENTITY_VALUE w w' 1%nat message Hok Hs Hids Hrun Hn).
Defined.

(** The store holds "Decreto 123" under identifier 1; the new resolution
    gets identifier 2 and its component row. *)
Example scenario_linked_regulation :
  let run := run_writing [decreto_123; resolucion_9]
               {| durable := stocked_database; connection := no_connection; next_id := 2 |} in
  id <$> regulations_table (durable run.2) = [1; 2]
  /\ data <$> regulations_component_table (durable run.2) = [link_row 2].
Proof. split; vm_compute; reflexivity. Qed.
